(** * bindown: the download / verify / extract / place pipeline

    A shallow embedding of [downloader.go] (type [Downloader], its methods and
    [Install]) and of [jsonschema.go] ([validateConfig]).

    The program is effectful Go: every method talks to the file system, the
    network or the archive library, and returns an [error].  It is embedded as
    a state-and-error monad over a [World] that holds the file tree, the
    working directory and the trace of every call that leaves the process
    (system calls, HTTP requests, archive extraction, log lines).  State
    changes made before a failure persist, exactly as on a real disk. *)

From Stdlib Require Import Ascii String List NArith Sorted Permutation.
From stdpp Require Import gmap strings list fin_maps.

Open Scope string_scope.

(* ===================================================================== *)
(** * Errors and results *)
(* ===================================================================== *)

(** Go's [error] values.  Errors built by the program keep their arguments
    as fields; errors handed back by a library are opaque texts. *)
Inductive error :=
  | ErrExternal (pkg msg : string)
      (* an error value returned by a library: net/url, net/http, archiver,
         yaml, json, jsonschema, io *)
  | ErrPath (op path reason : string)
      (* *os.PathError / *os.LinkError: the call, its path, the errno text *)
  | ErrFailedDownloading (url : string)
      (* fmt.Errorf("failed downloading %s", url) *)
  | ErrChecksumMismatch (targetFile wanted got : string)
      (* fmt.Errorf("checksum mismatch in downloaded file %q \nwanted: %s\ngot: %s", ...) *)
  | ErrWrap (context : string) (e : error)
      (* fmt.Errorf("<context>: %v", err) *)
  | ErrText (msg : string).
      (* fmt.Errorf with the whole text computed *)

Inductive result (A : Type) :=
  | Ok (a : A)
  | Err (e : error).
Arguments Ok {A} a.
Arguments Err {A} e.

Definition is_ok {A} (r : result A) : bool :=
  match r with Ok _ => true | Err _ => false end.

(* ===================================================================== *)
(** * Paths: [path.Base], [filepath.Clean], [filepath.Join] (Unix) *)
(* ===================================================================== *)

Module gostrings.

Definition slash : ascii := "/"%char.

(** [strings.Split(s, "/")]: never empty, [Split("", "/") = [""]]. *)
Fixpoint Split (s : string) : list string :=
  match s with
  | EmptyString => [EmptyString]
  | String c s' =>
      if Ascii.eqb c slash then EmptyString :: Split s'
      else match Split s' with
           | [] => [String c EmptyString]
           | x :: xs => String c x :: xs
           end
  end.

(** [strings.Join(elems, sep)]. *)
Fixpoint Join (sep : string) (elems : list string) : string :=
  match elems with
  | [] => ""
  | [x] => x
  | x :: rest => x ++ sep ++ Join sep rest
  end.

End gostrings.

Module path.

Definition rooted (s : string) : bool :=
  match s with
  | String c _ => Ascii.eqb c gostrings.slash
  | EmptyString => false
  end.

(** One element of the lexical clean-up, on the stack of elements kept so
    far (last kept element first): empty elements and [.] vanish, [..]
    removes the element before it, stays when there is none to remove in a
    relative path, and vanishes at the root. *)
Definition clean_step (is_rooted : bool) (stack : list string) (c : string)
  : list string :=
  if String.eqb c "" || String.eqb c "." then stack
  else if String.eqb c ".." then
    match stack with
    | top :: rest => if String.eqb top ".." then c :: stack else rest
    | [] => if is_rooted then [] else [c]
    end
  else c :: stack.

Definition normalize (is_rooted : bool) (elems : list string) : list string :=
  rev (fold_left (clean_step is_rooted) elems []).

(** [path.Clean] / [filepath.Clean]. *)
Definition Clean (s : string) : string :=
  let elems := normalize (rooted s) (gostrings.Split s) in
  if rooted s then "/" ++ gostrings.Join "/" elems
  else match elems with
       | [] => "."
       | _ => gostrings.Join "/" elems
       end.

(** [filepath.Join]: leading empty elements are dropped, the rest is joined
    with slashes and cleaned; all empty gives the empty string. *)
Fixpoint Join (elems : list string) : string :=
  match elems with
  | [] => ""
  | e :: rest => if String.eqb e "" then Join rest else Clean (gostrings.Join "/" elems)
  end.

Arguments Join : simpl never.

(** [filepath.FromSlash] is the identity where the separator is a slash. *)
Definition FromSlash (s : string) : string := s.

Fixpoint strip_trailing_empty (rev_elems : list string) : list string :=
  match rev_elems with
  | e :: rest => if String.eqb e "" then strip_trailing_empty rest else rev_elems
  | [] => []
  end.

(** [path.Base]: the last element; trailing slashes are removed first;
    [""] gives ["."], only slashes give ["/"]. *)
Definition Base (s : string) : string :=
  if String.eqb s "" then "."
  else match strip_trailing_empty (rev (gostrings.Split s)) with
       | [] => "/"
       | last :: _ => last
       end.

Arguments Base : simpl never.

End path.

(* ===================================================================== *)
(** * The file tree *)
(* ===================================================================== *)

(** The tree maps locations to nodes.  Left out: owners and permission
    checks, the mode bits of directories, the umask, links in the middle of a
    path (only a link at the last element is followed), and a full disk. *)

(** A location in the tree: the elements from the root down. *)
Abbreviation fpath := (list string).

Inductive node :=
  | File (content : string) (mode : N)
  | Dir
  | Symlink (target : string).

Abbreviation FS := (gmap (list string) node).

Module Fs.

(** The root is a directory that is always there. *)
Definition node_at (fs : FS) (p : fpath) : option node :=
  match p with
  | [] => Some Dir
  | _ => fs !! p
  end.

Definition parent (p : fpath) : fpath := removelast p.

(** A path string taken from directory [base]. *)
Definition resolve_from (base : fpath) (s : string) : fpath :=
  if path.rooted s then path.normalize true (gostrings.Split s)
  else path.normalize true (base ++ gostrings.Split s).

(** Follow symbolic links at the last element, at most [fuel] of them
    ([None]: too many levels). *)
Fixpoint follow (fuel : nat) (fs : FS) (p : fpath) : option fpath :=
  match node_at fs p with
  | Some (Symlink target) =>
      match fuel with
      | O => None
      | S fuel' => follow fuel' fs (resolve_from (parent p) target)
      end
  | _ => Some p
  end.

Definition max_links : nat := 40.

Definition follow_links (fs : FS) (p : fpath) : option fpath :=
  follow max_links fs p.
Arguments follow_links : simpl never.

(** What [stat(2)] sees at [p]: the node the links lead to. *)
Definition stat (fs : FS) (p : fpath) : option node :=
  match follow_links fs p with
  | Some q =>
      match node_at fs q with
      | Some (Symlink _) => None
      | o => o
      end
  | None => None
  end.

Definition is_dir (fs : FS) (p : fpath) : bool :=
  match stat fs p with Some Dir => true | _ => false end.

(** [mkdir(2)]. *)
Definition mkdir (fs : FS) (p : fpath) : option FS :=
  match node_at fs p with
  | Some _ => None
  | None => if is_dir fs (parent p) then Some (<[p := Dir]> fs) else None
  end.

(** [os.MkdirAll] on the reversed path: a directory there ends it, anything
    else there fails; otherwise the parent is made first, then the
    directory itself. *)
Fixpoint mkdir_all (fs : FS) (rev_p : list string) : option FS :=
  match stat fs (rev rev_p) with
  | Some Dir => Some fs
  | Some _ => None
  | None =>
      match rev_p with
      | [] => Some fs
      | _ :: rev_parent =>
          match mkdir_all fs rev_parent with
          | Some fs' => mkdir fs' (rev rev_p)
          | None => None
          end
      end
  end.

(** [os.RemoveAll]: the entry and everything below it. *)
Definition remove_all (fs : FS) (p : fpath) : FS :=
  filter (fun kv => ¬ (p `prefix_of` kv.1)) fs.

(** Something lies below [p]. *)
Definition has_children (fs : FS) (p : fpath) : bool :=
  bool_decide (filter (fun kv => p <> kv.1 /\ p `prefix_of` kv.1) fs <> ∅).

(** Re-root the part of the tree below [from] at [to]. *)
Definition move_key (from to : fpath) (k : fpath) : fpath :=
  if decide (from `prefix_of` k) then to ++ drop (length from) k else k.

Definition move_tree (fs : FS) (from to : fpath) : FS :=
  list_to_map (map (fun kv => (move_key from to kv.1, kv.2)) (map_to_list fs)).

End Fs.

(* ===================================================================== *)
(** * The world outside the process *)
(* ===================================================================== *)

(** Every call that leaves the process, in the order it is made. *)
Inductive Event :=
  | EvStat (name : string)
  | EvReadFile (name : string)
  | EvMkdirAll (name : string)
  | EvCreate (name : string)
  | EvWrite (name : string)
  | EvRemoveAll (name : string)
  | EvRename (oldname newname : string)
  | EvSymlink (oldname newname : string)
  | EvChmod (name : string) (mode : N)
  | EvHttpGet (url : string)
  | EvUnarchive (source destination : string)
  | EvLogErr (stage : string) (e : error)
      (* log.Printf("<stage>: %v", err) *)
  | EvLogSuspicious (targetFile : string).
      (* log.Printf("Error deleting suspicious file at %q. Please delete it manually", f) *)

Record World := mkWorld {
  cwd : fpath;
  fs : FS;
  trace : list Event
}.

Definition set_fs (w : World) (fs' : FS) : World :=
  {| cwd := cwd w; fs := fs'; trace := trace w |}.

Definition log_event (ev : Event) (w : World) : World :=
  {| cwd := cwd w; fs := fs w; trace := trace w ++ [ev] |}.

(** Where a path string of the program points in the tree. *)
Definition resolve (w : World) (name : string) : fpath :=
  Fs.resolve_from (cwd w) name.

(** *** Libraries the program calls *)

(** [*url.URL], the fields [url.Parse] fills from the text. *)
Record url_URL := mkURL {
  Scheme : string;
  Host : string;
  Path : string;
  RawQuery : string;
  Fragment : string
}.

(** The final [*http.Response] of [http.Get] (redirects already followed):
    the status, the bytes the body delivers, and the error reading the body
    ends with, if any. *)
Record Response := mkResponse {
  StatusCode : Z;
  Body : string;
  BodyErr : option error
}.

(** The libraries are taken as they are: [net/url], [net/http],
    [crypto/sha256] with hex encoding, and [mholt/archiver]. *)
Record Env := mkEnv {
  url_Parse : string -> result url_URL;
  http_Get : string -> result Response;
  sha256_hex : string -> string;
  (* archiver.ByExtension(name): [true] when err == nil *)
  archiver_ByExtension : string -> bool;
  (* archiver.Unarchive(source, destination) on the tree: the error, if any,
     and the tree it leaves *)
  archiver_Unarchive : fpath -> fpath -> FS -> option error * FS
}.

(* ===================================================================== *)
(** * The monad of the program: state that survives errors *)
(* ===================================================================== *)

Definition M (A : Type) : Type := World -> result A * World.

Definition ret {A} (a : A) : M A := fun w => (Ok a, w).

Definition fail {A} (e : error) : M A := fun w => (Err e, w).

Definition bind {A B} (m : M A) (k : A -> M B) : M B :=
  fun w =>
    match m w with
    | (Ok a, w') => k a w'
    | (Err e, w') => (Err e, w')
    end.

Definition emit (ev : Event) : M unit := fun w => (Ok tt, log_event ev w).

(** Go's [v, err := f()] where the caller goes on after looking at [err]. *)
Definition attempt {A} (m : M A) : M (result A) :=
  fun w => let '(r, w') := m w in (Ok r, w').

Notation "'let*' x ':=' m 'in' k" := (bind m (fun x => k))
  (at level 10, x name, m at level 100, k at level 200).

(* ===================================================================== *)
(** * Package [os] *)
(* ===================================================================== *)

Module os.

Definition ENOENT := "no such file or directory".
Definition ENOTDIR := "not a directory".
Definition EISDIR := "is a directory".
Definition EEXIST := "file exists".
Definition ELOOP := "too many levels of symbolic links".
Definition ENOTEMPTY := "directory not empty".
Definition EINVAL := "invalid argument".

(** [os.Stat]. *)
Definition Stat (name : string) : M node :=
  let* _ := emit (EvStat name) in
  fun w =>
    match Fs.stat (fs w) (resolve w name) with
    | Some n => (Ok n, w)
    | None => (Err (ErrPath "stat" name ENOENT), w)
    end.

(** [os.ReadFile] / [os.Open] and reading to the end. *)
Definition ReadFile (name : string) : M string :=
  let* _ := emit (EvReadFile name) in
  fun w =>
    match Fs.stat (fs w) (resolve w name) with
    | Some (File c _) => (Ok c, w)
    | Some _ => (Err (ErrPath "read" name EISDIR), w)
    | None => (Err (ErrPath "open" name ENOENT), w)
    end.

(** [os.MkdirAll]. *)
Definition MkdirAll (name : string) : M unit :=
  let* _ := emit (EvMkdirAll name) in
  fun w =>
    match Fs.mkdir_all (fs w) (rev (resolve w name)) with
    | Some fs' => (Ok tt, set_fs w fs')
    | None => (Err (ErrPath "mkdir" name ENOTDIR), w)
    end.

(** [os.Create]: the file is created or truncated; the result is the place
    of the open file.  A new file gets mode 0666 (before umask). *)
Definition Create (name : string) : M fpath :=
  let* _ := emit (EvCreate name) in
  fun w =>
    match Fs.follow_links (fs w) (resolve w name) with
    | None => (Err (ErrPath "open" name ELOOP), w)
    | Some q =>
        match Fs.node_at (fs w) q with
        | Some (File _ m) => (Ok q, set_fs w (<[q := File "" m]> (fs w)))
        | Some Dir => (Err (ErrPath "open" name EISDIR), w)
        | Some (Symlink _) => (Err (ErrPath "open" name ELOOP), w)
        | None =>
            if Fs.is_dir (fs w) (Fs.parent q)
            then (Ok q, set_fs w (<[q := File "" 438%N]> (fs w)))
            else (Err (ErrPath "open" name ENOENT), w)
        end
    end.

(** Writing [data] to the open file at [q] (named [name] when opened). *)
Definition Write (name : string) (q : fpath) (data : string) : M unit :=
  let* _ := emit (EvWrite name) in
  fun w =>
    match fs w !! q with
    | Some (File c m) => (Ok tt, set_fs w (<[q := File (c ++ data) m]> (fs w)))
    | _ => (Err (ErrPath "write" name ENOENT), w)
    end.

(** [os.RemoveAll]: nothing there is no error. *)
Definition RemoveAll (name : string) : M unit :=
  let* _ := emit (EvRemoveAll name) in
  fun w => (Ok tt, set_fs w (Fs.remove_all (fs w) (resolve w name))).

(** [os.Rename]: the entry itself moves (links are not followed).  A file
    or link replaces a file or link at the new name but not a directory; a
    directory moves with all below it, onto nothing or onto an empty
    directory, and never into itself. *)
Definition Rename (oldname newname : string) : M unit :=
  let* _ := emit (EvRename oldname newname) in
  fun w =>
    let from := resolve w oldname in
    let to := resolve w newname in
    match fs w !! from with
    | None => (Err (ErrPath "rename" oldname ENOENT), w)
    | Some n =>
        if negb (Fs.is_dir (fs w) (Fs.parent to))
        then (Err (ErrPath "rename" newname ENOENT), w)
        else
          match n, fs w !! to with
          | Dir, Some Dir =>
              if Fs.has_children (fs w) to
              then (Err (ErrPath "rename" newname ENOTEMPTY), w)
              else if decide (from `prefix_of` to)
              then (Err (ErrPath "rename" newname EINVAL), w)
              else (Ok tt, set_fs w (Fs.move_tree (delete to (fs w)) from to))
          | Dir, Some _ => (Err (ErrPath "rename" newname ENOTDIR), w)
          | Dir, None =>
              if decide (from `prefix_of` to)
              then (Err (ErrPath "rename" newname EINVAL), w)
              else (Ok tt, set_fs w (Fs.move_tree (fs w) from to))
          | _, Some Dir => (Err (ErrPath "rename" newname EISDIR), w)
          | _, _ => (Ok tt, set_fs w (<[to := n]> (delete from (fs w))))
          end
    end.

(** [os.Symlink]. *)
Definition Symlink (oldname newname : string) : M unit :=
  let* _ := emit (EvSymlink oldname newname) in
  fun w =>
    let q := resolve w newname in
    match Fs.node_at (fs w) q with
    | Some _ => (Err (ErrPath "symlink" newname EEXIST), w)
    | None =>
        if Fs.is_dir (fs w) (Fs.parent q)
        then (Ok tt, set_fs w (<[q := Symlink oldname]> (fs w)))
        else (Err (ErrPath "symlink" newname ENOENT), w)
    end.

(** [os.Chmod]: links are followed. *)
Definition Chmod (name : string) (mode : N) : M unit :=
  let* _ := emit (EvChmod name mode) in
  fun w =>
    match Fs.follow_links (fs w) (resolve w name) with
    | None => (Err (ErrPath "chmod" name ELOOP), w)
    | Some q =>
        match Fs.node_at (fs w) q with
        | Some (File c _) => (Ok tt, set_fs w (<[q := File c mode]> (fs w)))
        | Some Dir => (Ok tt, w)
        | _ => (Err (ErrPath "chmod" name ENOENT), w)
        end
    end.

End os.

(* ===================================================================== *)
(** * Package [bindownloader]: downloader.go *)
(* ===================================================================== *)

(** [type Downloader struct]. *)
Record Downloader := mkDownloader {
  URL : string;
  Checksum : string;
  LinkSource : string;
  BinName : string;
  MoveFrom : string;
  OS : string;
  Arch : string
}.

(** [type InstallOpts struct]. *)
Record InstallOpts := mkInstallOpts {
  TargetDir : string;
  DownloadDir : string;
  ExtractDir : string;
  Force : bool
}.

Definition lift {A} (r : result A) : M A := fun w => (r, w).

Section Program.

Context (E : Env).

(** *** Calls into the libraries *)

(** [http.Get(url)]. *)
Definition http_get (url : string) : M Response :=
  let* _ := emit (EvHttpGet url) in
  lift (http_Get E url).

(** [io.Copy(out, resp.Body)]: what the body delivers is written, then the
    error the body ended with, if any, is returned. *)
Definition io_Copy (name : string) (out : fpath) (resp : Response) : M unit :=
  let* _ := os.Write name out (Body resp) in
  match BodyErr resp with
  | Some e => fail e
  | None => ret tt
  end.

(** [archiver.Unarchive(source, destination)]. *)
Definition archiver_unarchive (source destination : string) : M unit :=
  let* _ := emit (EvUnarchive source destination) in
  fun w =>
    match archiver_Unarchive E (resolve w source) (resolve w destination) (fs w) with
    | (None, fs') => (Ok tt, set_fs w fs')
    | (Some e, fs') => (Err e, set_fs w fs')
    end.

(** *** Helpers of the package that [downloader.go] calls *)

(** Modelled from the spec: [fileExists] is declared in a file of the
    package that is not among the sources.  The spec: "if the target binary
    already exists at the destination"; its tests use it as a predicate on
    a path.  Here: [os.Stat] succeeds. *)
Definition fileExists (name : string) : M bool :=
  let* r := attempt (os.Stat name) in
  ret (is_ok r).

(** Modelled from the spec: [fileChecksum] is declared in a file of the
    package that is not among the sources.  The spec: "recompute the
    downloaded file's checksum"; its tests: the SHA-256 of the content in
    hex, an error and the empty string when the file is not there. *)
Definition fileChecksum (name : string) : M string :=
  let* content := os.ReadFile name in
  ret (sha256_hex E content).

(** Modelled from the spec: [fileExistsWithChecksum] is declared in a file
    of the package that is not among the sources.  The spec: "a cached,
    checksum-valid download already exists"; its tests: [true] for a file
    with that checksum, [false] without error for another checksum and for
    no file. *)
Definition fileExistsWithChecksum (name checksum : string) : M bool :=
  let* found := fileExists name in
  if negb found then ret false
  else
    let* got := fileChecksum name in
    ret (String.eqb checksum got).

(** Modelled from the spec: [rm] is declared in a file of the package that
    is not among the sources.  The spec: "remove any existing file at the
    destination", "delete the downloaded file"; nothing there is no
    error. *)
Definition rm (name : string) : M unit := os.RemoveAll name.

(** Modelled from the spec: [copyFile] is declared in a file of the package
    that is not among the sources.  The spec: "copy the raw file into the
    extract directory under its original name". *)
Definition copyFile (src dst : string) : M unit :=
  let* data := os.ReadFile src in
  let* out := os.Create dst in
  os.Write dst out data.

(** *** The methods of [Downloader] *)

Definition downloadableName (d : Downloader) : result string :=
  match url_Parse E (URL d) with
  | Err e => Err e
  | Ok u => Ok (path.Base (Path u))
  end.

Definition downloadablePath (d : Downloader) (targetDir : string) : result string :=
  match downloadableName d with
  | Err e => Err e
  | Ok name => Ok (path.Join [targetDir; name])
  end.

Definition binPath (d : Downloader) (targetDir : string) : string :=
  path.Join [targetDir; BinName d].

(** Mode 0755. *)
Definition chmod (d : Downloader) (targetDir : string) : M unit :=
  os.Chmod (binPath d targetDir) 493%N.

Definition move (d : Downloader) (targetDir extractDir : string) : M unit :=
  if String.eqb (MoveFrom d) "" then ret tt
  else
    let* _ := rm (binPath d targetDir) in
    let from := path.Join [extractDir; path.FromSlash (MoveFrom d)] in
    let to := binPath d targetDir in
    os.Rename from to.

Definition link (d : Downloader) (targetDir extractDir : string) : M unit :=
  if String.eqb (LinkSource d) "" then ret tt
  else
    let* found := fileExists (binPath d targetDir) in
    let* _ := (if found then rm (binPath d targetDir) else ret tt) in
    let src := path.Join [extractDir; path.FromSlash (LinkSource d)] in
    os.Symlink src (binPath d targetDir).

Definition extract (d : Downloader) (downloadDir extractDir : string) : M unit :=
  let* dlName := lift (downloadableName d) in
  let* _ := os.MkdirAll extractDir in
  let tarPath := path.Join [downloadDir; dlName] in
  let* _ := (if archiver_ByExtension E dlName then ret tt
             else copyFile tarPath (path.Join [extractDir; dlName])) in
  let* _ := archiver_unarchive tarPath extractDir in
  rm tarPath.

(** The deferred [logCloseErr] calls close the body and the file; closing
    has no effect on the tree and its error is only logged, so it is left
    out. *)
Definition downloadFile (targetPath url : string) : M unit :=
  let* resp := http_get url in
  if (300 <=? StatusCode resp)%Z then fail (ErrFailedDownloading url)
  else
    let* out := os.Create targetPath in
    io_Copy targetPath out resp.

Definition download (d : Downloader) (downloadDir : string) : M unit :=
  let* dlPath := lift (downloadablePath d downloadDir) in
  let* _ := os.MkdirAll downloadDir in
  let* ok := fileExistsWithChecksum dlPath (Checksum d) in
  if ok then ret tt
  else downloadFile dlPath (URL d).

(** The deferred function runs when [validateChecksum] returns: the file
    is removed, a failure to remove it is only logged. *)
Definition validateChecksum (d : Downloader) (targetDir : string) : M unit :=
  let* targetFile := lift (downloadablePath d targetDir) in
  let* result := fileChecksum targetFile in
  if negb (String.eqb (Checksum d) result) then
    let* delErr := attempt (rm targetFile) in
    let* _ := (match delErr with
               | Err _ => emit (EvLogSuspicious targetFile)
               | Ok _ => ret tt
               end) in
    fail (ErrChecksumMismatch targetFile (Checksum d) result)
  else ret tt.

(** [err := stage; if err != nil { log.Printf("<msg>: %v", err); return err }]. *)
Definition logged (msg : string) (stage : M unit) : M unit :=
  fun w =>
    match stage w with
    | (Err e, w') => (Err e, log_event (EvLogErr msg e) w')
    | r => r
    end.

(** The directories an [InstallOpts] stands for: empty ones default to
    the checksum-keyed directories below the target directory. *)
Definition defaultDirs (d : Downloader) (opts : InstallOpts) : InstallOpts :=
  let downloadDir :=
    if String.eqb (DownloadDir opts) ""
    then path.Join [TargetDir opts; ".bindownloader"; "downloads"; Checksum d]
    else DownloadDir opts in
  let extractDir :=
    if String.eqb (ExtractDir opts) ""
    then path.Join [TargetDir opts; ".bindownloader"; "extracts"; Checksum d]
    else ExtractDir opts in
  {| TargetDir := TargetDir opts; DownloadDir := downloadDir;
     ExtractDir := extractDir; Force := Force opts |}.

Definition Install (d : Downloader) (opts0 : InstallOpts) : M unit :=
  let opts := defaultDirs d opts0 in
  let* found := fileExists (binPath d (TargetDir opts)) in
  if found && negb (Force opts) then ret tt
  else
    let* _ := logged "error downloading" (download d (DownloadDir opts)) in
    let* _ := logged "error validating" (validateChecksum d (DownloadDir opts)) in
    let* _ := logged "error extracting" (extract d (DownloadDir opts) (ExtractDir opts)) in
    let* _ := logged "error linking" (link d (TargetDir opts) (ExtractDir opts)) in
    let* _ := logged "error moving" (move d (TargetDir opts) (ExtractDir opts)) in
    let* _ := logged "error chmodding" (chmod d (TargetDir opts)) in
    ret tt.

End Program.

(* ===================================================================== *)
(** * Package [bindown]: jsonschema.go *)
(* ===================================================================== *)

(** The libraries [validateConfig] calls ([ghodss/yaml], [encoding/json],
    [qri-io/jsonschema]) and the embedded schema text, taken as they are. *)
Record SchemaLib := mkSchemaLib {
  Schema : Type;
  KeyError : Type;
  KeyError_Error : KeyError -> string;
  yaml_YAMLToJSON : string -> result string;
  (* //go:embed bindown.schema.json *)
  jsonSchemaText : string;
  json_Unmarshal : string -> result Schema;
  Schema_ValidateBytes : Schema -> string -> result (list KeyError)
}.

Definition newline : string := String (ascii_of_nat 10) EmptyString.

Section JsonSchema.

Context (L : SchemaLib).

(** The [less] function handed to [sort.Slice]: Go compares strings byte
    by byte. *)
Definition less (a b : KeyError L) : bool :=
  String.ltb (KeyError_Error L a) (KeyError_Error L b).

Fixpoint insert_sorted (x : KeyError L) (l : list (KeyError L)) : list (KeyError L) :=
  match l with
  | [] => [x]
  | y :: rest => if less y x then y :: insert_sorted x rest else x :: l
  end.

(** [sort.Slice(validationErrs, less)]: the slice in ascending order of
    the messages. *)
Definition sort_Slice (l : list (KeyError L)) : list (KeyError L) :=
  fold_right insert_sorted [] l.

(** [validateConfig] checks whether [cfg] meets the json schema. *)
Definition validateConfig (cfg : string) : result unit :=
  match yaml_YAMLToJSON L cfg with
  | Err _ => Err (ErrText "config is not valid yaml (or json)")
  | Ok cfgJSON =>
      match json_Unmarshal L (jsonSchemaText L) with
      | Err e => Err e
      | Ok schema =>
          match Schema_ValidateBytes L schema cfgJSON with
          | Err e => Err (ErrWrap "unexpected error running jsonSchema.ValidateBytes" e)
          | Ok validationErrs =>
              if (length validationErrs =? 0)%nat then Ok tt
              else
                let msgs := map (KeyError_Error L) (sort_Slice validationErrs) in
                Err (ErrText ("invalid config:" ++ newline ++ gostrings.Join newline msgs))
          end
      end
  end.

End JsonSchema.

(* ===================================================================== *)
(** * Package [main]: cmd/bindown/cli.go *)
(* ===================================================================== *)

Module bindown.

(** [bindown.ConfigFile], of a package that is not among the sources: the
    fields [cli.go] reads and writes, and the rest of the configuration as
    one value. *)
Record ConfigFile (Config : Type) := mkConfigFile {
  Filename : string;
  Cache : string;
  TrustCache : bool;
  Rest : Config
}.
Arguments mkConfigFile {Config} _ _ _ _.
Arguments Filename {Config} _.
Arguments Cache {Config} _.
Arguments TrustCache {Config} _.
Arguments Rest {Config} _.

End bindown.

(** What [cli.go] calls in package [internal/bindown], taken as it is:
    [bindown.LoadConfigFile], the method [Write] of [ConfigFile], and the zero value of
    the rest of a configuration. *)
Record ConfigLib := mkConfigLib {
  Config : Type;
  Config_zero : Config;
  LoadConfigFile : string -> bool -> M (bindown.ConfigFile Config);
  ConfigFile_Write : bindown.ConfigFile Config -> bool -> M unit
}.

Module cmd.

(** [type rootCmd struct]: the flags (the sub-commands hold no state the
    functions below read). *)
Record rootCmd := mkRootCmd {
  JSONConfig : bool;
  Configfile : string;
  CacheDir : string;
  TrustCache : option bool;
  Quiet : bool
}.

Definition defaultConfigFilenames : list string :=
  ["bindown.yml"; "bindown.yaml"; "bindown.json";
   ".bindown.yml"; ".bindown.yaml"; ".bindown.json"].

Definition IsDir (info : node) : bool :=
  match info with Dir => true | _ => false end.

Definition set_CacheDir (root : rootCmd) (dir : string) : rootCmd :=
  {| JSONConfig := JSONConfig root; Configfile := Configfile root; CacheDir := dir;
     TrustCache := TrustCache root; Quiet := Quiet root |}.

Section Commands.

Context (L : ConfigLib).

(** The loop of [loadConfigFile] over the default names: the first one that
    [os.Stat] finds and that is not a directory; the empty name when there
    is none. *)
Fixpoint findConfigFile (names : list string) : M string :=
  match names with
  | [] => ret ""
  | configFilename :: rest =>
      let* info := attempt (os.Stat configFilename) in
      match info with
      | Ok i => if negb (IsDir i) then ret configFilename else findConfigFile rest
      | Err _ => findConfigFile rest
      end
  end.

Definition loadConfigFile (root : rootCmd) (noDefaultDirs : bool)
  : M (bindown.ConfigFile (Config L)) :=
  let* filename := (if String.eqb (Configfile root) ""
                    then findConfigFile defaultConfigFilenames
                    else ret (Configfile root)) in
  let* configFile := LoadConfigFile L filename noDefaultDirs in
  let configFile :=
    if String.eqb (CacheDir root) "" then configFile
    else bindown.mkConfigFile (bindown.Filename configFile) (CacheDir root)
           (bindown.TrustCache configFile) (bindown.Rest configFile) in
  let configFile :=
    match TrustCache root with
    | None => configFile
    | Some trust =>
        bindown.mkConfigFile (bindown.Filename configFile) (bindown.Cache configFile)
          trust (bindown.Rest configFile)
    end in
  ret configFile.

(** The loop of [initCmd.Run]: the first default name that is there and is
    not a directory ends the command with an error. *)
Fixpoint refuseExisting (names : list string) : M unit :=
  match names with
  | [] => ret tt
  | filename :: rest =>
      let* info := attempt (os.Stat filename) in
      match info with
      | Ok i => if negb (IsDir i) then fail (ErrText (filename ++ " already exists"))
                else refuseExisting rest
      | Err _ => refuseExisting rest
      end
  end.

(** [initCmd.Run].  Closing the new file has no effect on the tree and is
    left out; [file.Name()] is the name given to [os.Create]. *)
Definition initCmd_Run (root : rootCmd) : M unit :=
  let* _ := refuseExisting defaultConfigFilenames in
  let configfile := if String.eqb (Configfile root) "" then ".bindown.yaml"
                    else Configfile root in
  let* file := os.Create configfile in
  let cfg := bindown.mkConfigFile configfile "" false (Config_zero L) in
  ConfigFile_Write L cfg (JSONConfig root).

(** [fmtCmd.Run]: the cache flag is cleared in the shared [rootCmd] first;
    the result carries the [rootCmd] as the command leaves it. *)
Definition fmtCmd_Run (root : rootCmd) : M unit * rootCmd :=
  let root' := set_CacheDir root "" in
  (let* config := loadConfigFile root' true in
   ConfigFile_Write L config (JSONConfig root'),
   root').

End Commands.

End cmd.

(* ===================================================================== *)
(** * Test doubles *)
(* ===================================================================== *)

(** Stand-ins for the libraries and a small disk, in the manner of the
    package's own tests ([serveFile], [tmpDir], the [foo.tar.gz] fixture);
    the examples and the closed instances below run on them. *)
Module Fixture.

(** Everything before the first [c], and what follows it if [c] occurs. *)
Fixpoint cut (c : ascii) (s : string) : string * option string :=
  match s with
  | EmptyString => (EmptyString, None)
  | String a s' =>
      if Ascii.eqb a c then (EmptyString, Some s')
      else let '(x, r) := cut c s' in (String a x, r)
  end.

Fixpoint has_control_byte (s : string) : bool :=
  match s with
  | EmptyString => false
  | String a s' =>
      (nat_of_ascii a <? 32)%nat || (nat_of_ascii a =? 127)%nat || has_control_byte s'
  end.

Definition or_empty (o : option string) : string :=
  match o with Some s => s | None => "" end.

(** A URL parser for texts of the shapes [scheme://host/path?query#fragment]
    and [path?query#fragment] without escapes; control bytes are refused. *)
Definition parse_url (raw : string) : result url_URL :=
  if has_control_byte raw then Err (ErrExternal "net/url" "invalid control character in URL")
  else
    let '(u, frag) := cut "#"%char raw in
    let '(rest, query) := cut "?"%char u in
    match cut ":"%char rest with
    | (scheme, Some (String "/" (String "/" authority_path))) =>
        let '(host, p) := cut "/"%char authority_path in
        Ok {| Scheme := scheme; Host := host;
              Path := match p with Some p' => "/" ++ p' | None => "" end;
              RawQuery := or_empty query; Fragment := or_empty frag |}
    | _ =>
        Ok {| Scheme := ""; Host := ""; Path := rest;
              RawQuery := or_empty query; Fragment := or_empty frag |}
    end.

Definition has_suffix (suffix s : string) : bool :=
  (String.length suffix <=? String.length s)%nat
  && String.eqb (substring (String.length s - String.length suffix)
                           (String.length suffix) s) suffix.

(** The bytes of the fixture archive, and its SHA-256. *)
Definition fooBytes : string := "<foo.tar.gz: bin/foo.txt>".
Definition fooChecksum : string :=
  "f7fa712caea646575c920af17de3462fe9d08d7fe062b9a17010117d5fa4ed88".
Definition otherChecksum : string :=
  "e3b0c44298fc1c149afbf4c8996fb92427ae41e4649b934ca495991b7852b855".

Definition digest (content : string) : string :=
  if String.eqb content fooBytes then fooChecksum else otherChecksum.

(** The test server: the archive at [/foo/foo.tar.gz], the same bytes as a
    bare file at [/foo/foo], 404 elsewhere on the host, and no host
    [bad]. *)
Definition serve (url : string) : result Response :=
  match parse_url url with
  | Err e => Err e
  | Ok u =>
      if String.eqb (Host u) "bad"
      then Err (ErrExternal "net/http" "dial tcp: lookup bad: no such host")
      else if String.eqb (Path u) "/foo/foo.tar.gz" || String.eqb (Path u) "/foo/foo"
      then Ok {| StatusCode := 200; Body := fooBytes; BodyErr := None |}
      else Ok {| StatusCode := 404; Body := "404 page not found"; BodyErr := None |}
  end.

Definition recognized (name : string) : bool :=
  has_suffix ".tar.gz" name || has_suffix ".zip" name.

(** Unpacking: a recognized name holding the fixture bytes yields
    [bin/foo.txt] below the destination; anything else is an error. *)
Definition unarchive (source destination : fpath) (fs : FS) : option error * FS :=
  if negb (recognized (List.last source ""))
  then (Some (ErrExternal "archiver" "format unrecognized by filename"), fs)
  else
    match Fs.stat fs source with
    | Some (File c _) =>
        if String.eqb c fooBytes
        then (None, <[(destination ++ ["bin"; "foo.txt"])%list := File "foo" 420%N]>
                      (<[(destination ++ ["bin"])%list := Dir]> fs))
        else (Some (ErrExternal "archiver" "unexpected EOF"), fs)
    | _ => (Some (ErrExternal "archiver" "open: no such file or directory"), fs)
    end.

Definition env : Env :=
  {| url_Parse := parse_url;
     http_Get := serve;
     sha256_hex := digest;
     archiver_ByExtension := recognized;
     archiver_Unarchive := unarchive |}.

(** A disk with the directory [/t] and nothing else; the process runs in
    the root. *)
Definition disk0 : World :=
  {| cwd := []; fs := {[ ["t"] := Dir ]}; trace := [] |}.

(** [TestDownloader_Install], "move" and "link". *)
Definition dMove : Downloader :=
  {| URL := "http://127.0.0.1/foo/foo.tar.gz?foo=bar";
     Checksum := fooChecksum; LinkSource := ""; BinName := "foo.txt";
     MoveFrom := "bin/foo.txt"; OS := "darwin"; Arch := "amd64" |}.

Definition dLink : Downloader :=
  {| URL := "http://127.0.0.1/foo/foo.tar.gz?foo=bar";
     Checksum := fooChecksum; LinkSource := "bin/foo.txt"; BinName := "foo";
     MoveFrom := ""; OS := "darwin"; Arch := "amd64" |}.

Definition optsForce : InstallOpts :=
  {| TargetDir := "/t"; DownloadDir := ""; ExtractDir := ""; Force := true |}.

(** [Test_downloader_validateChecksum]: the archive copied into [/t]. *)
Definition diskDownloaded : World :=
  {| cwd := [];
     fs := {[ ["t"] := Dir; ["t"; "foo.tar.gz"] := File fooBytes 420%N ]};
     trace := [] |}.

Definition dGood : Downloader :=
  {| URL := "foo/foo.tar.gz"; Checksum := fooChecksum; LinkSource := "";
     BinName := ""; MoveFrom := ""; OS := ""; Arch := "" |}.

Definition dDeadbeef : Downloader :=
  {| URL := "foo/foo.tar.gz"; Checksum := "deadbeef"; LinkSource := "";
     BinName := ""; MoveFrom := ""; OS := ""; Arch := "" |}.

Definition diskCache : World :=
  {| cwd := []; fs := {[ ["t"] := Dir; ["t"; "cache"] := Dir ]}; trace := [] |}.

(** Both placement strategies configured at once. *)
Definition dBoth : Downloader :=
  {| URL := "http://127.0.0.1/foo/foo.tar.gz?foo=bar";
     Checksum := fooChecksum; LinkSource := "bin/foo.txt"; BinName := "foo";
     MoveFrom := "bin/foo.txt"; OS := "darwin"; Arch := "amd64" |}.

(** The worlds the three stages before placement leave for [dBoth]
    installed into [/t] with the cache in [/t/cache]. *)
Definition afterDownload : World :=
  (download env dBoth "/t/cache" (log_event (EvStat "/t/foo") diskCache)).2.
Definition afterVerify : World :=
  (validateChecksum env dBoth "/t/cache" afterDownload).2.
Definition afterExtract : World :=
  (extract env dBoth "/t/cache" "/t/cache/x" afterVerify).2.

(** A downloadable that is itself the binary: the name [foo] has no
    archive format.  The disk has it downloaded into [/t/cache]. *)
Definition dRaw : Downloader :=
  {| URL := "http://127.0.0.1/foo/foo"; Checksum := fooChecksum;
     LinkSource := ""; BinName := "foo"; MoveFrom := "foo";
     OS := "darwin"; Arch := "amd64" |}.

Definition diskRaw : World :=
  {| cwd := [];
     fs := {[ ["t"] := Dir; ["t"; "cache"] := Dir;
              ["t"; "cache"; "foo"] := File fooBytes 420%N ]};
     trace := [] |}.

(** [diskRaw] once the extract directory [/t/cache/x] is made, and once
    the raw copy into it is done. *)
Definition treeRawExtractDir : FS := <[ ["t"; "cache"; "x"] := Dir ]> (fs diskRaw).

Definition afterRawCopy : World :=
  (copyFile "/t/cache/foo" "/t/cache/x/foo"
     (set_fs (log_event (EvMkdirAll "/t/cache/x") diskRaw) treeRawExtractDir)).2.

(** No checksum in the descriptor. *)
Definition dNoChecksum : Downloader :=
  {| URL := "http://127.0.0.1/foo/foo.tar.gz"; Checksum := "";
     LinkSource := ""; BinName := "foo.txt"; MoveFrom := "bin/foo.txt";
     OS := "darwin"; Arch := "amd64" |}.


(** Installing into [/t] with the cache kept in [/t/cache]. *)
Definition optsCache : InstallOpts :=
  {| TargetDir := "/t"; DownloadDir := "/t/cache"; ExtractDir := "/t/cache/x";
     Force := false |}.

Definition noSuchHost : error :=
  ErrExternal "net/http" "dial tcp: lookup bad: no such host".

(** The same archive under another query and with a fragment. *)
Definition dOtherQuery : Downloader :=
  {| URL := "http://127.0.0.1/foo/foo.tar.gz?token=1#top";
     Checksum := fooChecksum; LinkSource := ""; BinName := "foo.txt";
     MoveFrom := "bin/foo.txt"; OS := "darwin"; Arch := "amd64" |}.

(** The download directory is the target directory and the downloaded
    file has the name of the binary; an older binary is installed. *)
Definition dAlias : Downloader :=
  {| URL := "http://127.0.0.1/foo/foo"; Checksum := "deadbeef";
     LinkSource := ""; BinName := "foo"; MoveFrom := "foo";
     OS := "darwin"; Arch := "amd64" |}.

Definition optsAlias : InstallOpts :=
  {| TargetDir := "/t"; DownloadDir := "/t"; ExtractDir := "/t/x"; Force := true |}.

Definition diskAlias : World :=
  {| cwd := [];
     fs := {[ ["t"] := Dir; ["t"; "foo"] := File "old" 493%N ]};
     trace := [] |}.

(** A schema library for [validateConfig]: every text is YAML, the schema
    loads, and a configuration other than ["{}"] draws two complaints. *)
Definition schemaLib : SchemaLib :=
  {| Schema := unit;
     KeyError := string;
     KeyError_Error := fun msg => msg;
     yaml_YAMLToJSON := fun cfg => Ok cfg;
     jsonSchemaText := "{}";
     json_Unmarshal := fun _ => Ok tt;
     Schema_ValidateBytes := fun _ cfg =>
       if String.eqb cfg "{}" then Ok []
       else Ok ["/url: is required"; "/bin: is required"] |}.

(** A configuration library for [cli.go]: loading needs a name and reads
    the file, the cache directory of the file is its content; writing puts
    the cache directory into the file. *)
Definition configLib : ConfigLib :=
  {| Config := unit;
     Config_zero := tt;
     LoadConfigFile := fun filename _ =>
       if String.eqb filename "" then fail (ErrText "no config file")
       else let* content := os.ReadFile filename in
            ret (bindown.mkConfigFile filename content false tt);
     ConfigFile_Write := fun cfg _ =>
       let* file := os.Create (bindown.Filename cfg) in
       os.Write (bindown.Filename cfg) file (bindown.Cache cfg) |}.

(** A project directory, where the process runs: a directory that has the
    name of the first default configuration file, and two configuration
    files. *)
Definition diskProject : World :=
  {| cwd := ["p"];
     fs := {[ ["p"] := Dir; ["p"; "bindown.yml"] := Dir;
              ["p"; "bindown.json"] := File "/cache/json" 420%N;
              ["p"; ".bindown.yaml"] := File "/cache/yaml" 420%N;
              ["p"; "my.yaml"] := File "/cache/mine" 420%N ]};
     trace := [] |}.

Definition rootDefault : cmd.rootCmd :=
  {| cmd.JSONConfig := false; cmd.Configfile := ""; cmd.CacheDir := "";
     cmd.TrustCache := None; cmd.Quiet := false |}.

Definition rootFlags : cmd.rootCmd :=
  {| cmd.JSONConfig := false; cmd.Configfile := "my.yaml"; cmd.CacheDir := "/flag/cache";
     cmd.TrustCache := Some true; cmd.Quiet := false |}.

(** The link source is not in the archive. *)
Definition dDangling : Downloader :=
  {| URL := "http://127.0.0.1/foo/foo.tar.gz"; Checksum := fooChecksum;
     LinkSource := "bin/missing"; BinName := "foo"; MoveFrom := "";
     OS := "darwin"; Arch := "amd64" |}.

(** The move source is not in the archive; a binary is installed. *)
Definition dMoveMissing : Downloader :=
  {| URL := "http://127.0.0.1/foo/foo.tar.gz"; Checksum := fooChecksum;
     LinkSource := ""; BinName := "foo"; MoveFrom := "bin/missing";
     OS := "darwin"; Arch := "amd64" |}.

Definition diskInstalled : World :=
  {| cwd := [];
     fs := {[ ["t"] := Dir; ["t"; "foo"] := File "old" 493%N;
              ["t"; "cache"] := Dir; ["t"; "cache"; "x"] := Dir ]};
     trace := [] |}.

Definition dBadURL : Downloader :=
  {| URL := String (ascii_of_nat 7) "http://127.0.0.1/foo"; Checksum := fooChecksum;
     LinkSource := ""; BinName := "foo"; MoveFrom := "";
     OS := "darwin"; Arch := "amd64" |}.

End Fixture.

(* ===================================================================== *)
(** * Vocabulary of the properties *)
(* ===================================================================== *)

(** [os.Stat] finds something at [name]. *)
Definition exists_at (w : World) (name : string) : bool :=
  match Fs.stat (fs w) (resolve w name) with
  | Some _ => true
  | None => false
  end.

(** [haystack] contains [needle] as a contiguous part. *)
Definition contains (haystack needle : string) : Prop :=
  exists before after, haystack = before ++ needle ++ after.

(** The two trees have their symbolic links at the same places, leading to
    the same targets. *)
Definition links_agree (fs1 fs2 : FS) : Prop :=
  forall p t, Fs.node_at fs1 p = Some (Symlink t) <-> Fs.node_at fs2 p = Some (Symlink t).

(** [archiver.Unarchive] writes below its destination directory only. *)
Definition unarchive_stays_below (E : Env) : Prop :=
  forall source destination fs0 q,
    ¬ (destination `prefix_of` q) ->
    (archiver_Unarchive E source destination fs0).2 !! q = fs0 !! q.

(** A checksum-valid download is already there: [os.Stat] and reading find a
    regular file at [p] whose SHA-256 is [checksum]. *)
Definition cached_download (E : Env) (checksum : string) (fs1 : FS) (p : fpath) : Prop :=
  exists c m, Fs.stat fs1 p = Some (File c m) /\ sha256_hex E c = checksum.



(** A stage before placement fails: [e] is the error of download, verify or
    extract, started in [w0] after the stages before it succeeded, and [w']
    is the world that stage left, with the log line of [Install] added. *)
Inductive early_failure (E : Env) (d : Downloader) (o : InstallOpts) (w0 : World)
  : error -> World -> Prop :=
  | download_fails e w1 :
      download E d (DownloadDir o) w0 = (Err e, w1) ->
      early_failure E d o w0 e (log_event (EvLogErr "error downloading" e) w1)
  | verify_fails e w1 w2 :
      download E d (DownloadDir o) w0 = (Ok tt, w1) ->
      validateChecksum E d (DownloadDir o) w1 = (Err e, w2) ->
      early_failure E d o w0 e (log_event (EvLogErr "error validating" e) w2)
  | extract_fails e w1 w2 w3 :
      download E d (DownloadDir o) w0 = (Ok tt, w1) ->
      validateChecksum E d (DownloadDir o) w1 = (Ok tt, w2) ->
      extract E d (DownloadDir o) (ExtractDir o) w2 = (Err e, w3) ->
      early_failure E d o w0 e (log_event (EvLogErr "error extracting" e) w3).


(* ===================================================================== *)
(** * Vocabulary of the properties: calls *)
(* ===================================================================== *)

(** Whatever [m] does, the events it adds satisfy [Q]. *)
Definition traces {A} (Q : list Event -> Prop) (m : M A) : Prop :=
  forall w r w', m w = (r, w') ->
    exists evs, trace w' = (trace w ++ evs)%list /\ Q evs.

(** A predicate on the added events that holds of nothing added and of two
    runs one after the other. *)
Definition composes (Q : list Event -> Prop) : Prop :=
  Q [] /\ forall e1 e2, Q e1 -> Q e2 -> Q (e1 ++ e2)%list.

Definition is_get (ev : Event) : bool :=
  match ev with EvHttpGet _ => true | _ => false end.

Definition is_log (ev : Event) : bool :=
  match ev with EvLogErr _ _ | EvLogSuspicious _ => true | _ => false end.

(** The HTTP requests among the events. *)
Definition requests (evs : list Event) : list Event := List.filter is_get evs.

Definition no_request (evs : list Event) : Prop := requests evs = [].

Definition at_most_get (url : string) (evs : list Event) : Prop :=
  requests evs = [] \/ requests evs = [EvHttpGet url].

(** The calls of each stage, for the downloaded file name [name]. *)
Definition download_calls (d : Downloader) (downloadDir name : string) : list Event :=
  let dlPath := path.Join [downloadDir; name] in
  [EvMkdirAll downloadDir; EvStat dlPath; EvReadFile dlPath; EvHttpGet (URL d);
   EvCreate dlPath; EvWrite dlPath].

Definition verify_calls (downloadDir name : string) : list Event :=
  let dlPath := path.Join [downloadDir; name] in
  [EvReadFile dlPath; EvRemoveAll dlPath].

Definition extract_calls (downloadDir extractDir name : string) : list Event :=
  let tarPath := path.Join [downloadDir; name] in
  let rawCopy := path.Join [extractDir; name] in
  [EvMkdirAll extractDir; EvReadFile tarPath; EvCreate rawCopy; EvWrite rawCopy;
   EvUnarchive tarPath extractDir; EvRemoveAll tarPath].

Definition place_calls (d : Downloader) (targetDir extractDir : string) : list Event :=
  let dst := binPath d targetDir in
  [EvStat dst; EvRemoveAll dst;
   EvSymlink (path.Join [extractDir; path.FromSlash (LinkSource d)]) dst;
   EvRename (path.Join [extractDir; path.FromSlash (MoveFrom d)]) dst;
   EvChmod dst 493%N].

(** Every call [Install] may make, log lines apart. *)
Definition Install_calls (E : Env) (d : Downloader) (o : InstallOpts) : list Event :=
  (match downloadableName E d with
   | Err _ => []
   | Ok name =>
       download_calls d (DownloadDir o) name
       ++ verify_calls (DownloadDir o) name
       ++ extract_calls (DownloadDir o) (ExtractDir o) name
   end ++ place_calls d (TargetDir o) (ExtractDir o))%list.

Definition allowed (calls : list Event) (evs : list Event) : Prop :=
  Forall (fun ev => is_log ev = true \/ In ev calls) evs.

(** No name before [name] in the list is a file: each is missing or a
    directory. *)
Definition none_is_file (w : World) (names : list string) : Prop :=
  Forall (fun n => Fs.stat (fs w) (resolve w n) = None
                   \/ Fs.stat (fs w) (resolve w n) = Some Dir) names.

Definition is_file_at (w : World) (name : string) : Prop :=
  exists n, Fs.stat (fs w) (resolve w name) = Some n /\ n <> Dir.

(** The messages in ascending order, as Go compares strings. *)
Definition ascending (msgs : list string) : Prop :=
  StronglySorted (fun a b => String.ltb b a = false) msgs.

(** The world after [os.Stat] was called on each of the names in turn. *)
Definition after_stats (names : list string) (w : World) : World :=
  {| cwd := cwd w; fs := fs w; trace := (trace w ++ map EvStat names)%list |}.

(** The configuration with the flags of the command line applied. *)
Definition with_flags {Config : Type} (root : cmd.rootCmd)
    (cf : bindown.ConfigFile Config) : bindown.ConfigFile Config :=
  bindown.mkConfigFile (bindown.Filename cf)
    (if String.eqb (cmd.CacheDir root) "" then bindown.Cache cf else cmd.CacheDir root)
    (match cmd.TrustCache root with Some trust => trust | None => bindown.TrustCache cf end)
    (bindown.Rest cf).

(* ===================================================================== *)
(** * The file tree: basic facts *)
(* ===================================================================== *)

Lemma follow_not_link (fuel : nat) (fs0 : FS) (p : fpath) :
  (forall t, Fs.node_at fs0 p <> Some (Symlink t)) ->
  Fs.follow fuel fs0 p = Some p.
Proof.
  intros Hn. destruct fuel; simpl;
    destruct (Fs.node_at fs0 p) as [[| |t]|] eqn:Hp; try reflexivity;
    exfalso; apply (Hn t); reflexivity.
Qed.

Lemma stat_file (fs0 : FS) p c m :
  Fs.node_at fs0 p = Some (File c m) -> Fs.stat fs0 p = Some (File c m).
Proof.
  intros Hp. unfold Fs.stat, Fs.follow_links.
  rewrite follow_not_link by (intros t; rewrite Hp; discriminate).
  rewrite Hp. reflexivity.
Qed.

Lemma stat_dir (fs0 : FS) p :
  Fs.node_at fs0 p = Some Dir -> Fs.stat fs0 p = Some Dir.
Proof.
  intros Hp. unfold Fs.stat, Fs.follow_links.
  rewrite follow_not_link by (intros t; rewrite Hp; discriminate).
  rewrite Hp. reflexivity.
Qed.

Lemma node_at_lookup (fs0 : FS) p n :
  Fs.node_at fs0 p = Some n -> n <> Dir -> fs0 !! p = Some n /\ p <> [].
Proof.
  destruct p; simpl; intros H Hn; [congruence | split; [assumption | discriminate]].
Qed.

Lemma node_at_nonroot (fs0 : FS) p :
  p <> [] -> Fs.node_at fs0 p = fs0 !! p.
Proof. destruct p; [congruence | reflexivity]. Qed.

Lemma remove_all_lookup (fs0 : FS) p q :
  Fs.remove_all fs0 p !! q = if decide (p `prefix_of` q) then None else fs0 !! q.
Proof.
  unfold Fs.remove_all. destruct (decide (p `prefix_of` q)) as [Hpre | Hpre].
  - apply map_lookup_filter_None. right. intros x _ Hnot. apply Hnot. exact Hpre.
  - destruct (fs0 !! q) as [x|] eqn:Hq.
    + apply map_lookup_filter_Some. split; [exact Hq | exact Hpre].
    + apply map_lookup_filter_None. left. exact Hq.
Qed.

Lemma remove_all_self (fs0 : FS) p :
  p <> [] -> Fs.node_at (Fs.remove_all fs0 p) p = None.
Proof.
  intros Hp. rewrite node_at_nonroot by exact Hp.
  rewrite remove_all_lookup. rewrite decide_True; [reflexivity | reflexivity].
Qed.

(* ===================================================================== *)
(** * Running the helpers *)
(* ===================================================================== *)

Section Runs.

Context (E : Env).

Lemma fileExists_run name w :
  fileExists name w = (Ok (exists_at w name), log_event (EvStat name) w).
Proof.
  unfold fileExists, attempt, os.Stat, bind, emit, ret, exists_at, resolve. simpl.
  destruct (Fs.stat (fs w) _); reflexivity.
Qed.

Lemma fileChecksum_file name w c m :
  Fs.stat (fs w) (resolve w name) = Some (File c m) ->
  fileChecksum E name w = (Ok (sha256_hex E c), log_event (EvReadFile name) w).
Proof.
  intros H. unfold fileChecksum, os.ReadFile, bind, emit, ret, resolve in *. simpl.
  rewrite H. reflexivity.
Qed.

Lemma exists_at_log ev w name : exists_at (log_event ev w) name = exists_at w name.
Proof. reflexivity. Qed.

End Runs.

(* ===================================================================== *)
(** * C1: the short-circuit *)
(* ===================================================================== *)

(** C1.  With [Force = false] and something already at the destination
    [targetDir/BinName], [Install] returns success at once: the only call it
    makes is the [os.Stat] of the destination, so nothing is downloaded,
    verified, extracted, placed or made executable and the network is not
    touched; the file tree is unchanged, and a second [Install] after it
    returns the same success in the same way. *)
Theorem Install_short_circuit (E : Env) (d : Downloader) (opts : InstallOpts) (w : World) :
  Force opts = false ->
  exists_at w (binPath d (TargetDir opts)) = true ->
  let dst := binPath d (TargetDir opts) in
  let w1 := log_event (EvStat dst) w in
  Install E d opts w = (Ok tt, w1)
  /\ fs w1 = fs w
  /\ trace w1 = (trace w ++ [EvStat dst])%list
  /\ Install E d opts w1 = (Ok tt, log_event (EvStat dst) w1)
  /\ fs (log_event (EvStat dst) w1) = fs w.
Proof.
  intros HF Hex dst w1.
  assert (Hrun : forall w0, exists_at w0 dst = true ->
                   Install E d opts w0 = (Ok tt, log_event (EvStat dst) w0)).
  { intros w0 H0. unfold Install, bind. simpl.
    rewrite fileExists_run. fold dst. rewrite H0, HF. reflexivity. }
  repeat split.
  - apply Hrun. exact Hex.
  - apply Hrun. unfold w1. rewrite exists_at_log. exact Hex.
Qed.

Lemma Install_short_circuit_witness :
  let w := (Install Fixture.env Fixture.dMove Fixture.optsForce Fixture.disk0).2 in
  let opts := {| TargetDir := "/t"; DownloadDir := ""; ExtractDir := ""; Force := false |} in
  Install Fixture.env Fixture.dMove opts w = (Ok tt, log_event (EvStat "/t/foo.txt") w).
Proof.
  intros w opts.
  refine (proj1 (Install_short_circuit Fixture.env Fixture.dMove opts w _ _)).
  - reflexivity.
  - vm_compute. reflexivity.
Defined.

(* ===================================================================== *)
(** * C2: verifying the downloaded file *)
(* ===================================================================== *)

Section Verify.

Context (E : Env).

Lemma validateChecksum_run d dir w name c m :
  downloadableName E d = Ok name ->
  Fs.node_at (fs w) (resolve w (path.Join [dir; name])) = Some (File c m) ->
  let targetFile := path.Join [dir; name] in
  validateChecksum E d dir w =
    if String.eqb (Checksum d) (sha256_hex E c)
    then (Ok tt, log_event (EvReadFile targetFile) w)
    else (Err (ErrChecksumMismatch targetFile (Checksum d) (sha256_hex E c)),
          set_fs (log_event (EvRemoveAll targetFile) (log_event (EvReadFile targetFile) w))
                 (Fs.remove_all (fs w) (resolve w targetFile))).
Proof.
  intros Hname Hfile targetFile.
  unfold validateChecksum, downloadablePath, lift, bind. rewrite Hname.
  fold targetFile. rewrite (fileChecksum_file E targetFile w c m (stat_file _ _ _ _ Hfile)).
  destruct (String.eqb (Checksum d) (sha256_hex E c)); reflexivity.
Qed.

End Verify.

(** C2.  When the directory holds the downloaded file, [validateChecksum]
    compares its recomputed checksum with the expected one.  If they differ it
    removes the file and returns the mismatch error, which carries the file
    name, the expected and the actual checksum; if they are equal it returns
    success, reads the file and changes nothing. *)
Theorem validateChecksum_mismatch_deletes
    (E : Env) (d : Downloader) (dir : string) (w : World) (name c : string) (m : N) :
  Checksum d <> "" ->
  downloadableName E d = Ok name ->
  Fs.node_at (fs w) (resolve w (path.Join [dir; name])) = Some (File c m) ->
  let targetFile := path.Join [dir; name] in
  let p := resolve w targetFile in
  (sha256_hex E c <> Checksum d ->
     exists w',
       validateChecksum E d dir w
         = (Err (ErrChecksumMismatch targetFile (Checksum d) (sha256_hex E c)), w')
       /\ fs w' = Fs.remove_all (fs w) p
       /\ Fs.node_at (fs w') p = None
       /\ trace w' = (trace w ++ [EvReadFile targetFile; EvRemoveAll targetFile])%list)
  /\ (sha256_hex E c = Checksum d ->
     exists w',
       validateChecksum E d dir w = (Ok tt, w')
       /\ fs w' = fs w
       /\ Fs.node_at (fs w') p = Some (File c m)
       /\ trace w' = (trace w ++ [EvReadFile targetFile])%list).
Proof.
  intros _ Hname Hfile targetFile p.
  pose proof (validateChecksum_run E d dir w name c m Hname Hfile) as Hrun.
  simpl in Hrun. fold targetFile in Hrun.
  destruct (node_at_lookup _ _ _ Hfile ltac:(discriminate)) as [_ Hp].
  split; intros Hsum.
  - rewrite Hrun.
    destruct (String.eqb_spec (Checksum d) (sha256_hex E c)) as [Heq | Hne];
      [exfalso; apply Hsum; symmetry; exact Heq |].
    eexists. split; [reflexivity |]. simpl. repeat split.
    + apply remove_all_self. exact Hp.
    + rewrite <- app_assoc. reflexivity.
  - rewrite Hrun.
    destruct (String.eqb_spec (Checksum d) (sha256_hex E c)) as [Heq | Hne];
      [| exfalso; apply Hne; symmetry; exact Hsum].
    eexists. split; [reflexivity |]. simpl. repeat split. exact Hfile.
Qed.

Lemma validateChecksum_mismatch_deletes_witness :
  (exists w',
     validateChecksum Fixture.env Fixture.dDeadbeef "/t" Fixture.diskDownloaded
       = (Err (ErrChecksumMismatch "/t/foo.tar.gz" "deadbeef" Fixture.fooChecksum), w')
     /\ Fs.node_at (fs w') ["t"; "foo.tar.gz"] = None)
  /\ (exists w',
     validateChecksum Fixture.env Fixture.dGood "/t" Fixture.diskDownloaded = (Ok tt, w')
     /\ Fs.node_at (fs w') ["t"; "foo.tar.gz"] = Some (File Fixture.fooBytes 420%N)).
Proof.
  split.
  - destruct (proj1 (validateChecksum_mismatch_deletes Fixture.env Fixture.dDeadbeef "/t"
               Fixture.diskDownloaded "foo.tar.gz" Fixture.fooBytes 420%N
               ltac:(discriminate) eq_refl eq_refl) ltac:(discriminate))
      as (w' & Hrun & _ & Hgone & _).
    exists w'. split; [exact Hrun | exact Hgone].
  - destruct (proj2 (validateChecksum_mismatch_deletes Fixture.env Fixture.dGood "/t"
               Fixture.diskDownloaded "foo.tar.gz" Fixture.fooBytes 420%N
               ltac:(discriminate) eq_refl eq_refl) eq_refl)
      as (w' & Hrun & _ & Hkept & _).
    exists w'. split; [exact Hrun | exact Hkept].
Defined.

(* ===================================================================== *)
(** * C8: [validateConfig] *)
(* ===================================================================== *)

Lemma string_app_nil_r (s : string) : s ++ "" = s.
Proof.
  induction s as [| a s IH]; [reflexivity |].
  change (String a (s ++ "") = String a s). rewrite IH. reflexivity.
Qed.

Lemma string_app_assoc (a b c : string) : (a ++ b) ++ c = a ++ (b ++ c).
Proof.
  induction a as [| x a IH]; [reflexivity |].
  change (String x ((a ++ b) ++ c) = String x (a ++ (b ++ c))). rewrite IH. reflexivity.
Qed.

Lemma contains_refl (s : string) : contains s s.
Proof.
  exists "", "". change (s = s ++ ""). rewrite string_app_nil_r. reflexivity.
Qed.

Lemma contains_app_l (pre s m : string) : contains s m -> contains (pre ++ s) m.
Proof.
  intros (b & a & ->). exists (pre ++ b), a. rewrite string_app_assoc. reflexivity.
Qed.

Lemma contains_app_r (s post m : string) : contains s m -> contains (s ++ post) m.
Proof.
  intros (b & a & ->). exists b, (a ++ post).
  rewrite !string_app_assoc. reflexivity.
Qed.

(** Every element of a joined list is part of the joined text. *)
Lemma Join_contains (sep : string) (msgs : list string) (m : string) :
  In m msgs -> contains (gostrings.Join sep msgs) m.
Proof.
  induction msgs as [| x rest IH]; intros Hin; [destruct Hin |].
  destruct rest as [| y rest'].
  - destruct Hin as [-> | []]. apply contains_refl.
  - change (gostrings.Join sep (x :: y :: rest'))
      with (x ++ sep ++ gostrings.Join sep (y :: rest')).
    destruct Hin as [-> | Hin].
    + apply contains_app_r, contains_refl.
    + apply contains_app_l, contains_app_l, IH, Hin.
Qed.

Section JsonSchemaFacts.

Context (L : SchemaLib).

Lemma insert_sorted_perm (x : KeyError L) (l : list (KeyError L)) :
  Permutation (insert_sorted L x l) (x :: l).
Proof.
  induction l as [| y rest IH]; simpl; [reflexivity |].
  destruct (less L y x); [| reflexivity].
  rewrite IH. apply perm_swap.
Qed.

(** Sorting keeps every validation error, once each. *)
Lemma sort_Slice_perm (l : list (KeyError L)) : Permutation (sort_Slice L l) l.
Proof.
  induction l as [| x rest IH]; simpl; [reflexivity |].
  rewrite insert_sorted_perm. constructor. exact IH.
Qed.

(** The error of [validateConfig] for a list of validation errors. *)
Lemma validateConfig_run (cfg cfgJSON : string) (schema : Schema L)
      (errs : list (KeyError L)) :
  yaml_YAMLToJSON L cfg = Ok cfgJSON ->
  json_Unmarshal L (jsonSchemaText L) = Ok schema ->
  Schema_ValidateBytes L schema cfgJSON = Ok errs ->
  validateConfig L cfg =
    match errs with
    | [] => Ok tt
    | _ => Err (ErrText ("invalid config:" ++ newline ++
                         gostrings.Join newline
                           (map (KeyError_Error L) (sort_Slice L errs))))
    end.
Proof.
  intros Hy Hs Hv. unfold validateConfig. rewrite Hy, Hs, Hv.
  destruct errs; reflexivity.
Qed.

End JsonSchemaFacts.

(** C8.  [validateConfig] returns nil exactly when the configuration is
    converted, the schema is loaded and the schema validation yields an empty
    list of messages.  When the list is not empty it returns an error whose
    text is the heading followed by the messages, one per line: the lines are
    a rearrangement of all the messages, and each message is part of the
    text. *)
Theorem validateConfig_nil_iff_no_messages (L : SchemaLib) (cfg : string) :
  (validateConfig L cfg = Ok tt <->
     exists cfgJSON schema,
       yaml_YAMLToJSON L cfg = Ok cfgJSON
       /\ json_Unmarshal L (jsonSchemaText L) = Ok schema
       /\ Schema_ValidateBytes L schema cfgJSON = Ok [])
  /\ (forall cfgJSON schema errs,
        yaml_YAMLToJSON L cfg = Ok cfgJSON ->
        json_Unmarshal L (jsonSchemaText L) = Ok schema ->
        Schema_ValidateBytes L schema cfgJSON = Ok errs ->
        errs <> [] ->
        exists msgs,
          validateConfig L cfg
            = Err (ErrText ("invalid config:" ++ newline ++ gostrings.Join newline msgs))
          /\ Permutation msgs (map (KeyError_Error L) errs)
          /\ forall e, In e errs ->
               contains ("invalid config:" ++ newline ++ gostrings.Join newline msgs)
                        (KeyError_Error L e)).
Proof.
  split.
  - split.
    + unfold validateConfig.
      destruct (yaml_YAMLToJSON L cfg) as [cfgJSON |] eqn:Hy; [| discriminate].
      destruct (json_Unmarshal L (jsonSchemaText L)) as [schema |] eqn:Hs; [| discriminate].
      destruct (Schema_ValidateBytes L schema cfgJSON) as [errs |] eqn:Hv; [| discriminate].
      destruct errs as [| e errs]; [| discriminate].
      intros _. exists cfgJSON, schema. auto.
    + intros (cfgJSON & schema & Hy & Hs & Hv).
      rewrite (validateConfig_run L cfg cfgJSON schema [] Hy Hs Hv). reflexivity.
  - intros cfgJSON schema errs Hy Hs Hv Hne.
    exists (map (KeyError_Error L) (sort_Slice L errs)).
    split; [| split].
    + rewrite (validateConfig_run L cfg cfgJSON schema errs Hy Hs Hv).
      destruct errs; [congruence | reflexivity].
    + apply Permutation_map, sort_Slice_perm.
    + intros e He. apply contains_app_l, contains_app_l, Join_contains.
      apply in_map. apply (Permutation_in e (Permutation_sym (sort_Slice_perm L errs))).
      exact He.
Qed.

Lemma validateConfig_nil_iff_no_messages_witness :
  validateConfig Fixture.schemaLib "{}" = Ok tt
  /\ exists msgs,
       validateConfig Fixture.schemaLib "url: 1"
         = Err (ErrText ("invalid config:" ++ newline ++ gostrings.Join newline msgs))
       /\ Permutation msgs ["/url: is required"; "/bin: is required"].
Proof.
  split.
  - apply (proj1 (validateConfig_nil_iff_no_messages Fixture.schemaLib "{}")).
    exists "{}", tt. repeat split.
  - destruct (proj2 (validateConfig_nil_iff_no_messages Fixture.schemaLib "url: 1")
                "url: 1" tt ["/url: is required"; "/bin: is required"]
                eq_refl eq_refl eq_refl ltac:(discriminate))
      as (msgs & Hrun & Hperm & _).
    exists msgs. split; [exact Hrun | exact Hperm].
Defined.

Example validateConfig_sorted_lines :
  validateConfig Fixture.schemaLib "url: 1"
  = Err (ErrText ("invalid config:" ++ newline ++ "/bin: is required" ++ newline
                  ++ "/url: is required")).
Proof. reflexivity. Qed.

(* ===================================================================== *)
(** * The file tree: what each call may change *)
(* ===================================================================== *)



(** Links are followed the same way in trees whose links agree. *)
Lemma follow_links_agree (fuel : nat) (fs1 fs2 : FS) (p : fpath) :
  links_agree fs1 fs2 -> Fs.follow fuel fs1 p = Fs.follow fuel fs2 p.
Proof.
  intros Hag. revert p. induction fuel as [| fuel IH]; intros p; simpl;
    destruct (Fs.node_at fs1 p) as [[| |t]|] eqn:H1;
    destruct (Fs.node_at fs2 p) as [[| |t']|] eqn:H2;
    try reflexivity;
    try (apply Hag in H1; congruence);
    try (apply Hag in H2; congruence).
Qed.

Lemma stat_links_agree (fs1 fs2 : FS) (p q : fpath) :
  links_agree fs1 fs2 ->
  Fs.follow_links fs1 p = Some q ->
  Fs.stat fs2 p = match Fs.node_at fs2 q with
                  | Some (Symlink _) => None
                  | o => o
                  end.
Proof.
  intros Hag Hq. unfold Fs.stat, Fs.follow_links in *.
  rewrite <- (follow_links_agree _ fs1 fs2 p Hag), Hq. reflexivity.
Qed.

(** What following links arrives at is not a link. *)
Lemma follow_end (fuel : nat) (fs0 : FS) (p q : fpath) :
  Fs.follow fuel fs0 p = Some q -> forall t, Fs.node_at fs0 q <> Some (Symlink t).
Proof.
  revert p. induction fuel as [| fuel IH]; intros p; simpl;
    destruct (Fs.node_at fs0 p) as [[| |t']|] eqn:Hp; intros Hq t;
    try (injection Hq as <-; rewrite Hp; discriminate);
    try discriminate.
  eapply IH. exact Hq.
Qed.

(** Writing something that is not a link where no link was keeps the links. *)
Lemma links_agree_insert (fs0 : FS) (q : fpath) (n : node) :
  (forall t, Fs.node_at fs0 q <> Some (Symlink t)) ->
  (forall t, n <> Symlink t) ->
  links_agree fs0 (<[q := n]> fs0).
Proof.
  intros Hold Hnew p t. destruct p as [| x p']; [reflexivity |].
  simpl. destruct (decide (q = x :: p')) as [-> | Hne].
  - rewrite lookup_insert_eq. split; intros H.
    + exfalso. apply (Hold t). exact H.
    + exfalso. apply (Hnew t). congruence.
  - rewrite lookup_insert_ne by exact Hne. reflexivity.
Qed.

(** [os.MkdirAll] only adds directories, at places on the way down to its
    argument where nothing was. *)
Lemma mkdir_all_adds (rev_p : list string) (fs0 fs1 : FS) :
  Fs.mkdir_all fs0 rev_p = Some fs1 ->
  forall k : fpath,
    fs1 !! k = fs0 !! k
    \/ (fs0 !! k = None /\ fs1 !! k = Some Dir /\ k `prefix_of` rev rev_p).
Proof.
  revert fs1. induction rev_p as [| c rest IH]; intros fs1 Hmk k.
  - simpl in Hmk. destruct (Fs.stat fs0 []) as [[| |]|]; try discriminate;
      injection Hmk as <-; left; reflexivity.
  - simpl in Hmk.
    destruct (Fs.stat fs0 (rev rest ++ [c])) as [[| |]|]; try discriminate.
    + injection Hmk as <-. left. reflexivity.
    + destruct (Fs.mkdir_all fs0 rest) as [fs'|] eqn:Hrest; [| discriminate].
      unfold Fs.mkdir in Hmk.
      destruct (Fs.node_at fs' (rev rest ++ [c])) eqn:Hnode; [discriminate |].
      destruct (Fs.is_dir fs' _); [| discriminate].
      injection Hmk as <-.
      assert (Hnonroot : (rev rest ++ [c])%list <> []) by (destruct (rev rest); discriminate).
      rewrite node_at_nonroot in Hnode by exact Hnonroot.
      destruct (decide (k = (rev rest ++ [c])%list)) as [-> | Hne].
      * right. rewrite lookup_insert_eq. split; [| split; [reflexivity | reflexivity]].
        destruct (IH fs' eq_refl (rev rest ++ [c])%list) as [Heq | (Habs & _)];
          [rewrite <- Heq; exact Hnode | exact Habs].
      * rewrite lookup_insert_ne by congruence.
        destruct (IH fs' eq_refl k) as [Heq | (Habs & Hdir & Hpre)];
          [left; exact Heq | right].
        split; [exact Habs | split; [exact Hdir |]].
        simpl. apply prefix_app_r. exact Hpre.
Qed.

Lemma mkdir_all_frame (rev_p : list string) (fs0 fs1 : FS) (b : fpath) :
  Fs.mkdir_all fs0 rev_p = Some fs1 ->
  ¬ (b `prefix_of` rev rev_p) ->
  fs1 !! b = fs0 !! b.
Proof.
  intros Hmk Hb. destruct (mkdir_all_adds rev_p fs0 fs1 Hmk b) as [H | (_ & _ & Hpre)];
    [exact H | contradiction].
Qed.

Lemma mkdir_all_links (rev_p : list string) (fs0 fs1 : FS) :
  Fs.mkdir_all fs0 rev_p = Some fs1 -> links_agree fs0 fs1.
Proof.
  intros Hmk p t. destruct p as [| x p']; [reflexivity |]. simpl.
  destruct (mkdir_all_adds rev_p fs0 fs1 Hmk (x :: p')) as [-> | (H0 & H1 & _)];
    [reflexivity |].
  rewrite H0, H1. split; discriminate.
Qed.


(* ===================================================================== *)
(** * Running the download stage *)
(* ===================================================================== *)

Lemma Create_spec (t : string) (w : World) (r : result fpath) (w' : World) :
  os.Create t w = (r, w') ->
  cwd w' = cwd w
  /\ trace w' = (trace w ++ [EvCreate t])%list
  /\ match r with
     | Err _ => fs w' = fs w
     | Ok q => Fs.follow_links (fs w) (resolve w t) = Some q
               /\ q <> []
               /\ exists m, fs w' = <[q := File "" m]> (fs w)
     end.
Proof.
  unfold os.Create, bind, emit, resolve. simpl.
  destruct (Fs.follow_links (fs w) _) as [q |] eqn:Hq.
  - destruct (Fs.node_at (fs w) q) as [[c m | | tgt] |] eqn:Hn.
    + intros [= <- <-]. simpl. repeat split.
      * intros ->. discriminate.
      * exists m. reflexivity.
    + intros [= <- <-]. simpl. repeat split.
    + intros [= <- <-]. simpl. repeat split.
    + destruct (Fs.is_dir (fs w) (Fs.parent q)); intros [= <- <-]; simpl; repeat split.
      * intros ->. discriminate.
      * exists 438%N. reflexivity.
  - intros [= <- <-]. simpl. repeat split.
Qed.

Lemma io_Copy_spec (t : string) (q : fpath) (resp : Response) (w : World)
      (r : result unit) (w' : World) :
  io_Copy t q resp w = (r, w') ->
  cwd w' = cwd w
  /\ trace w' = (trace w ++ [EvWrite t])%list
  /\ (fs w' = fs w
      \/ exists c m, fs w !! q = Some (File c m)
                     /\ fs w' = <[q := File (c ++ Body resp) m]> (fs w))
  /\ (r = Ok tt ->
      BodyErr resp = None
      /\ exists c m, fs w !! q = Some (File c m)
                     /\ fs w' = <[q := File (c ++ Body resp) m]> (fs w)).
Proof.
  unfold io_Copy, os.Write, bind, emit, ret, fail. simpl.
  destruct (fs w !! q) as [[c m | | tgt] |] eqn:Hq.
  - destruct (BodyErr resp) as [e |]; intros [= <- <-]; simpl; repeat split;
      try (right; exists c, m; split; reflexivity);
      try discriminate.
    exists c, m. split; reflexivity.
  - intros [= <- <-]. simpl. repeat split; try (left; reflexivity); discriminate.
  - intros [= <- <-]. simpl. repeat split; try (left; reflexivity); discriminate.
  - intros [= <- <-]. simpl. repeat split; try (left; reflexivity); discriminate.
Qed.

Section DownloadRuns.

Context (E : Env).

Lemma downloadFile_run (t u : string) (w : World) :
  downloadFile E t u w =
    let w1 := log_event (EvHttpGet u) w in
    match http_Get E u with
    | Err e => (Err e, w1)
    | Ok resp =>
        if (300 <=? StatusCode resp)%Z then (Err (ErrFailedDownloading u), w1)
        else match os.Create t w1 with
             | (Ok q, w2) => io_Copy t q resp w2
             | (Err e, w2) => (Err e, w2)
             end
    end.
Proof.
  unfold downloadFile, http_get, bind, emit, lift, fail. simpl.
  destruct (http_Get E u) as [resp | e]; [| reflexivity].
  destruct (300 <=? StatusCode resp)%Z; reflexivity.
Qed.

(** [downloadFile] asks for the URL first; it leaves the tree as it was or
    with one regular file written where the target path leads. *)
Lemma downloadFile_spec (t u : string) (w : World) (r : result unit) (w' : World) :
  downloadFile E t u w = (r, w') ->
  cwd w' = cwd w
  /\ (exists evs, trace w' = (trace w ++ EvHttpGet u :: evs)%list)
  /\ (fs w' = fs w
      \/ exists q c m,
           Fs.follow_links (fs w) (resolve w t) = Some q
           /\ q <> [] /\ fs w' = <[q := File c m]> (fs w))
  /\ (r = Ok tt ->
      exists q c m,
        Fs.follow_links (fs w) (resolve w t) = Some q
        /\ q <> [] /\ fs w' = <[q := File c m]> (fs w)).
Proof.
  rewrite downloadFile_run. simpl.
  destruct (http_Get E u) as [resp | e].
  2: { intros [= <- <-]. simpl. repeat split; [exists []; reflexivity | left; reflexivity |].
       discriminate. }
  destruct (300 <=? StatusCode resp)%Z.
  { intros [= <- <-]. simpl. repeat split; [exists []; reflexivity | left; reflexivity |].
    discriminate. }
  destruct (os.Create t (log_event (EvHttpGet u) w)) as [[q | e] w2] eqn:Hc;
    apply Create_spec in Hc; simpl in Hc; destruct Hc as (Hcwd & Htr & Hfs).
  - intros Hcopy. apply io_Copy_spec in Hcopy.
    destruct Hcopy as (Hcwd' & Htr' & Hfs' & Hok).
    destruct Hfs as (Hq & Hroot & m0 & Hfs).
    assert (Hwritten : exists c m, fs w' = <[q := File c m]> (fs w)).
    { destruct Hfs' as [Hsame | (c & m & _ & Hw)].
      - exists "", m0. rewrite Hsame. exact Hfs.
      - exists (c ++ Body resp), m. rewrite Hw, Hfs. apply insert_insert_eq. }
    destruct Hwritten as (c & m & Hwritten).
    split; [congruence |]. split; [| split].
    + exists [EvCreate t; EvWrite t]. rewrite Htr', Htr.
      rewrite <- !app_assoc. reflexivity.
    + right. exists q, c, m. auto.
    + intros _. exists q, c, m. auto.
  - intros [= <- <-]. split; [exact Hcwd |]. split; [| split].
    + exists [EvCreate t]. rewrite Htr. rewrite <- app_assoc. reflexivity.
    + left. exact Hfs.
    + discriminate.
Qed.

(** [download], step by step. *)
Lemma download_run (d : Downloader) (dir name : string) (w : World) :
  downloadableName E d = Ok name ->
  let dlPath := path.Join [dir; name] in
  download E d dir w =
    match Fs.mkdir_all (fs w) (rev (resolve w dir)) with
    | None => (Err (ErrPath "mkdir" dir os.ENOTDIR), log_event (EvMkdirAll dir) w)
    | Some fs1 =>
        let w2 := log_event (EvStat dlPath) (set_fs (log_event (EvMkdirAll dir) w) fs1) in
        match Fs.stat fs1 (resolve w dlPath) with
        | None => downloadFile E dlPath (URL d) w2
        | Some (File c _) =>
            if String.eqb (Checksum d) (sha256_hex E c)
            then (Ok tt, log_event (EvReadFile dlPath) w2)
            else downloadFile E dlPath (URL d) (log_event (EvReadFile dlPath) w2)
        | Some _ =>
            (Err (ErrPath "read" dlPath os.EISDIR), log_event (EvReadFile dlPath) w2)
        end
    end.
Proof.
  intros Hname dlPath.
  unfold download, downloadablePath, lift, bind. rewrite Hname. fold dlPath.
  unfold os.MkdirAll, bind, emit. simpl. unfold resolve. simpl.
  destruct (Fs.mkdir_all (fs w) _) as [fs1 |]; [| reflexivity].
  unfold fileExistsWithChecksum, bind. rewrite fileExists_run.
  unfold exists_at, resolve. simpl.
  destruct (Fs.stat fs1 _) as [[c m | | tgt] |] eqn:Hst; simpl.
  - unfold bind. erewrite fileChecksum_file by (unfold resolve; simpl; exact Hst).
    unfold ret. destruct (String.eqb (Checksum d) (sha256_hex E c)); reflexivity.
  - unfold fileChecksum, os.ReadFile, bind, emit, resolve. simpl. rewrite Hst. reflexivity.
  - unfold fileChecksum, os.ReadFile, bind, emit, resolve. simpl. rewrite Hst. reflexivity.
  - reflexivity.
Qed.

End DownloadRuns.

Lemma stat_not_link (fs0 : FS) (p : fpath) (t : string) :
  Fs.stat fs0 p <> Some (Symlink t).
Proof.
  unfold Fs.stat. destruct (Fs.follow_links fs0 p) as [q |]; [| discriminate].
  destruct (Fs.node_at fs0 q) as [[| |]|]; discriminate.
Qed.

(** After a regular file is written where [p] leads, [os.Stat] of [p] finds
    that file. *)
Lemma written_stat (fs1 : FS) (p q : fpath) (c : string) (m : N) :
  Fs.follow_links fs1 p = Some q -> q <> [] ->
  Fs.stat (<[q := File c m]> fs1) p = Some (File c m).
Proof.
  intros Hq Hroot.
  rewrite (stat_links_agree fs1 _ p q); [| | exact Hq].
  - rewrite node_at_nonroot by exact Hroot. rewrite lookup_insert_eq. reflexivity.
  - apply links_agree_insert; [| discriminate].
    exact (follow_end _ _ _ _ Hq).
Qed.

(* ===================================================================== *)
(** * C5: the download stage and its cache *)
(* ===================================================================== *)

(** C5, as the code has it.  When the URL parses, the download directory
    is made and the download path [downloadDir/name] does not lead to a
    directory, [download] makes no request exactly when a regular file with
    the expected checksum is at the download path, and then succeeds
    leaving the tree as it is; when nothing is there, or a file with another
    checksum, it is [downloadFile] of the URL into that path, which starts
    with the request. *)
Theorem download_skips_iff_cached
    (E : Env) (d : Downloader) (dir name : string) (w : World) (fs1 : FS) :
  downloadableName E d = Ok name ->
  Fs.mkdir_all (fs w) (rev (resolve w dir)) = Some fs1 ->
  let dlPath := path.Join [dir; name] in
  let cached := cached_download E (Checksum d) fs1 (resolve w dlPath) in
  Fs.stat fs1 (resolve w dlPath) <> Some Dir ->
  exists r w' evs,
    download E d dir w = (r, w')
    /\ trace w' = (trace w ++ evs)%list
    /\ ((forall u, ~ In (EvHttpGet u) evs) <-> cached)
    /\ (cached -> r = Ok tt /\ fs w' = fs1)
    /\ (~ cached ->
        In (EvHttpGet (URL d)) evs
        /\ exists w1, fs w1 = fs1 /\ cwd w1 = cwd w
                      /\ download E d dir w = downloadFile E dlPath (URL d) w1).
Proof.
  intros Hname Hmk dlPath cached Hnodir.
  rewrite (download_run E d dir name w Hname). fold dlPath. rewrite Hmk. simpl.
  set (w2 := log_event (EvStat dlPath) (set_fs (log_event (EvMkdirAll dir) w) fs1)).
  assert (Hfetch : forall w1 pre,
             fs w1 = fs1 -> cwd w1 = cwd w -> trace w1 = (trace w ++ pre)%list ->
             (forall u, ~ In (EvHttpGet u) pre) ->
             ~ cached ->
             exists r w' evs,
               downloadFile E dlPath (URL d) w1 = (r, w')
               /\ trace w' = (trace w ++ evs)%list
               /\ ((forall u, ~ In (EvHttpGet u) evs) <-> cached)
               /\ (cached -> r = Ok tt /\ fs w' = fs1)
               /\ (~ cached ->
                   In (EvHttpGet (URL d)) evs
                   /\ exists w0, fs w0 = fs1 /\ cwd w0 = cwd w
                        /\ downloadFile E dlPath (URL d) w1 = downloadFile E dlPath (URL d) w0)).
  { intros w1 pre Hfs Hcwd Htr Hpre Hnc.
    destruct (downloadFile E dlPath (URL d) w1) as [r w'] eqn:Hdl.
    destruct (downloadFile_spec E _ _ _ _ _ Hdl) as (_ & (evs & Hevs) & _ & _).
    exists r, w', (pre ++ EvHttpGet (URL d) :: evs)%list.
    assert (Hin : In (EvHttpGet (URL d)) (pre ++ EvHttpGet (URL d) :: evs))
      by (apply in_or_app; right; left; reflexivity).
    split; [reflexivity |]. split; [| split; [| split]].
    - rewrite Hevs, Htr. rewrite <- app_assoc. reflexivity.
    - split; [intros Hno; exfalso; exact (Hno _ Hin) | intros Hc; contradiction].
    - intros Hc. contradiction.
    - intros _. split; [exact Hin |]. exists w1. auto. }
  destruct (Fs.stat fs1 (resolve w dlPath)) as [[c m | | tgt] |] eqn:Hst.
  - destruct (String.eqb_spec (Checksum d) (sha256_hex E c)) as [Heq | Hne].
    + assert (Hc : cached) by (exists c, m; split; [exact Hst | symmetry; exact Heq]).
      exists (Ok tt), (log_event (EvReadFile dlPath) w2),
             [EvMkdirAll dir; EvStat dlPath; EvReadFile dlPath].
      split; [reflexivity |]. split; [| split; [| split]].
      * simpl. rewrite <- !app_assoc. reflexivity.
      * split; [intros _; exact Hc |].
        intros _ u [Hu | [Hu | [Hu | []]]]; discriminate.
      * intros _. split; reflexivity.
      * intros Hnc. contradiction.
    + apply (Hfetch _ [EvMkdirAll dir; EvStat dlPath; EvReadFile dlPath]);
        try reflexivity.
      * simpl. rewrite <- !app_assoc. reflexivity.
      * intros u [Hu | [Hu | [Hu | []]]]; discriminate.
      * intros (c' & m' & Hst' & Hsum). rewrite Hst in Hst'.
        injection Hst' as <- <-. apply Hne. symmetry. exact Hsum.
  - exfalso. apply Hnodir. reflexivity.
  - exfalso. exact (stat_not_link _ _ _ Hst).
  - apply (Hfetch _ [EvMkdirAll dir; EvStat dlPath]); try reflexivity.
    + simpl. rewrite <- !app_assoc. reflexivity.
    + intros u [Hu | [Hu | []]]; discriminate.
    + intros (c' & m' & Hst' & _). rewrite Hst in Hst'. discriminate.
Qed.

Lemma download_skips_iff_cached_witness :
  exists r w' evs,
    download Fixture.env Fixture.dGood "/t" Fixture.diskDownloaded = (r, w')
    /\ trace w' = evs
    /\ ((forall u, ~ In (EvHttpGet u) evs) <->
        cached_download Fixture.env Fixture.fooChecksum (fs Fixture.diskDownloaded)
                        ["t"; "foo.tar.gz"]).
Proof.
  destruct (download_skips_iff_cached Fixture.env Fixture.dGood "/t" "foo.tar.gz"
              Fixture.diskDownloaded (fs Fixture.diskDownloaded)
              eq_refl eq_refl ltac:(discriminate))
    as (r & w' & evs & Hrun & Htr & Hiff & _).
  exists r, w', evs. split; [exact Hrun |]. split; [exact Htr | exact Hiff].
Defined.

(** C5 as stated fails: "in every other case it fetches" does not hold
    when the download directory cannot be made.  Here the regular file
    [/t/foo.tar.gz] stands where a directory on the way to the download
    directory should be: nothing is at the download path, so nothing is
    cached, and yet [download] ends with an error after the directory call,
    without a request. *)
Lemma uncached_download_without_fetch_counterexample :
  ~ cached_download Fixture.env (Checksum Fixture.dGood) (fs Fixture.diskDownloaded)
      (resolve Fixture.diskDownloaded (path.Join ["/t/foo.tar.gz/sub"; "foo.tar.gz"]))
  /\ is_ok (download Fixture.env Fixture.dGood "/t/foo.tar.gz/sub"
              Fixture.diskDownloaded).1 = false
  /\ trace (download Fixture.env Fixture.dGood "/t/foo.tar.gz/sub"
              Fixture.diskDownloaded).2 = [EvMkdirAll "/t/foo.tar.gz/sub"]
  /\ (forall u,
        ~ In (EvHttpGet u)
            (trace (download Fixture.env Fixture.dGood "/t/foo.tar.gz/sub"
                      Fixture.diskDownloaded).2)).
Proof.
  assert (Htr : trace (download Fixture.env Fixture.dGood "/t/foo.tar.gz/sub"
                         Fixture.diskDownloaded).2 = [EvMkdirAll "/t/foo.tar.gz/sub"])
    by (vm_compute; reflexivity).
  split; [| split; [| split]].
  - intros (c & m & Hst & _). vm_compute in Hst. discriminate.
  - vm_compute. reflexivity.
  - exact Htr.
  - intros u Hin. rewrite Htr in Hin. destruct Hin as [Hu | []]. discriminate.
Qed.

(* ===================================================================== *)
(** * [Install], stage by stage *)
(* ===================================================================== *)

Section InstallRuns.

Context (E : Env).

(** A failing stage before placement ends [Install] with that stage's
    error, in the world that stage left plus the log line. *)
Lemma Install_early_failure (d : Downloader) (opts : InstallOpts) (w : World)
      (e : error) (w' : World) :
  let o := defaultDirs d opts in
  let dst := binPath d (TargetDir o) in
  exists_at w dst && negb (Force opts) = false ->
  early_failure E d o (log_event (EvStat dst) w) e w' ->
  Install E d opts w = (Err e, w').
Proof.
  intros o dst Hguard Hfail.
  unfold Install. fold o. unfold bind at 1. rewrite fileExists_run. fold dst.
  change (Force o) with (Force opts). rewrite Hguard.
  unfold bind, logged.
  inversion Hfail as [e0 w1 Hd | e0 w1 w2 Hd Hv | e0 w1 w2 w3 Hd Hv Hx]; subst.
  - rewrite Hd. reflexivity.
  - rewrite Hd, Hv. reflexivity.
  - rewrite Hd, Hv, Hx. reflexivity.
Qed.

(** When the three stages before placement succeed, [Install] is link,
    move and chmod, in this order, each failure logged. *)
Lemma Install_placement (d : Downloader) (opts : InstallOpts) (w w1 w2 w3 : World) :
  let o := defaultDirs d opts in
  let dst := binPath d (TargetDir o) in
  exists_at w dst && negb (Force opts) = false ->
  download E d (DownloadDir o) (log_event (EvStat dst) w) = (Ok tt, w1) ->
  validateChecksum E d (DownloadDir o) w1 = (Ok tt, w2) ->
  extract E d (DownloadDir o) (ExtractDir o) w2 = (Ok tt, w3) ->
  Install E d opts w =
    (let* _ := logged "error linking" (link d (TargetDir o) (ExtractDir o)) in
     let* _ := logged "error moving" (move d (TargetDir o) (ExtractDir o)) in
     let* _ := logged "error chmodding" (chmod d (TargetDir o)) in
     ret tt) w3.
Proof.
  intros o dst Hguard Hd Hv Hx.
  unfold Install. fold o. unfold bind at 1. rewrite fileExists_run. fold dst.
  change (Force o) with (Force opts). rewrite Hguard.
  unfold bind at 1. unfold logged at 1. rewrite Hd.
  unfold bind at 1. unfold logged at 1. rewrite Hv.
  unfold bind at 1. unfold logged at 1. rewrite Hx.
  reflexivity.
Qed.

End InstallRuns.

(* ===================================================================== *)
(** * C7: a fetch that cannot complete *)
(* ===================================================================== *)

Section FetchFailure.

Context (E : Env).



End FetchFailure.



(* ===================================================================== *)
(** * C9: the name of the downloaded file *)
(* ===================================================================== *)

Section DownloadedName.

Context (E : Env).

(** A successful [download] leaves a regular file where the download path
    leads. *)
Lemma download_ok_file (d : Downloader) (dir name : string) (w w' : World) :
  downloadableName E d = Ok name ->
  download E d dir w = (Ok tt, w') ->
  exists c m, Fs.stat (fs w') (resolve w (path.Join [dir; name])) = Some (File c m).
Proof.
  intros Hname. rewrite (download_run E d dir name w Hname). simpl.
  set (dlPath := path.Join [dir; name]).
  destruct (Fs.mkdir_all (fs w) (rev (resolve w dir))) as [fs1 |]; [| discriminate].
  assert (Hgo : forall w1, fs w1 = fs1 -> cwd w1 = cwd w ->
                  downloadFile E dlPath (URL d) w1 = (Ok tt, w') ->
                  exists c m, Fs.stat (fs w') (resolve w dlPath) = Some (File c m)).
  { intros w1 Hfs Hcwd Hdl.
    destruct (downloadFile_spec E _ _ _ _ _ Hdl) as (_ & _ & _ & Hok).
    destruct (Hok eq_refl) as (q & c & m & Hq & Hroot & Hw).
    exists c, m. rewrite Hw, Hfs. apply written_stat; [| exact Hroot].
    rewrite <- Hfs. unfold resolve in *. rewrite <- Hcwd. exact Hq. }
  destruct (Fs.stat fs1 (resolve w dlPath)) as [[c m | | tgt] |] eqn:Hst.
  - destruct (String.eqb (Checksum d) (sha256_hex E c)).
    + intros [= <-]. simpl. exists c, m. exact Hst.
    + apply Hgo; reflexivity.
  - discriminate.
  - discriminate.
  - apply Hgo; reflexivity.
Qed.

End DownloadedName.

(** C9.  When the URL parses, the name of the downloaded file is the base
    name of the path component of the URL, and the download path is that
    name inside the download directory.  A downloader whose URL has the same
    path component - whatever its query and fragment - gets the same name
    and the same download path, and a successful [download] leaves the file
    at that path. *)
Theorem downloadableName_ignores_query (E : Env) (d : Downloader) (u : url_URL) :
  url_Parse E (URL d) = Ok u ->
  downloadableName E d = Ok (path.Base (Path u))
  /\ (forall dir, downloadablePath E d dir = Ok (path.Join [dir; path.Base (Path u)]))
  /\ (forall d' u',
        url_Parse E (URL d') = Ok u' -> Path u' = Path u ->
        downloadableName E d' = downloadableName E d
        /\ forall dir, downloadablePath E d' dir = downloadablePath E d dir)
  /\ (forall dir w w',
        download E d dir w = (Ok tt, w') ->
        exists c m,
          Fs.stat (fs w') (resolve w (path.Join [dir; path.Base (Path u)]))
            = Some (File c m)).
Proof.
  intros Hu.
  assert (Hname : downloadableName E d = Ok (path.Base (Path u)))
    by (unfold downloadableName; rewrite Hu; reflexivity).
  split; [exact Hname |]. split; [| split].
  - intros dir. unfold downloadablePath. rewrite Hname. reflexivity.
  - intros d' u' Hu' Hpath.
    assert (Hname' : downloadableName E d' = downloadableName E d)
      by (unfold downloadableName; rewrite Hu, Hu', Hpath; reflexivity).
    split; [exact Hname' |].
    intros dir. unfold downloadablePath. rewrite Hname'. reflexivity.
  - intros dir w w' Hdl. exact (download_ok_file E d dir _ w w' Hname Hdl).
Qed.

Lemma downloadableName_ignores_query_witness :
  downloadableName Fixture.env Fixture.dMove = Ok "foo.tar.gz"
  /\ downloadableName Fixture.env Fixture.dOtherQuery
     = downloadableName Fixture.env Fixture.dMove
  /\ downloadablePath Fixture.env Fixture.dOtherQuery "/cache"
     = Ok "/cache/foo.tar.gz".
Proof.
  pose proof (downloadableName_ignores_query Fixture.env Fixture.dMove
                {| Scheme := "http"; Host := "127.0.0.1"; Path := "/foo/foo.tar.gz";
                   RawQuery := "foo=bar"; Fragment := "" |} eq_refl)
    as (Hname & Hpath & Hsame & _).
  destruct (Hsame Fixture.dOtherQuery
              {| Scheme := "http"; Host := "127.0.0.1"; Path := "/foo/foo.tar.gz";
                 RawQuery := "token=1"; Fragment := "top" |} eq_refl eq_refl)
    as (Hn & Hp).
  split; [exact Hname |]. split; [exact Hn |].
  rewrite Hp. exact (Hpath "/cache").
Defined.

(* ===================================================================== *)
(** * Running the placement steps *)
(* ===================================================================== *)

Lemma length_parent (b : fpath) : b <> [] -> length b = S (length (Fs.parent b)).
Proof.
  intros Hb. unfold Fs.parent.
  rewrite (app_removelast_last "" Hb) at 1.
  rewrite length_app. simpl. lia.
Qed.

Lemma parent_not_below (b : fpath) : b <> [] -> ¬ (b `prefix_of` Fs.parent b).
Proof.
  intros Hb Hpre. apply prefix_length in Hpre.
  rewrite (length_parent b Hb) in Hpre. lia.
Qed.

(** Removing [b] and all below it leaves the directory above [b]. *)
Lemma remove_all_parent_dir (fs0 : FS) (b : fpath) :
  b <> [] ->
  Fs.node_at fs0 (Fs.parent b) = Some Dir ->
  Fs.node_at (Fs.remove_all fs0 b) (Fs.parent b) = Some Dir.
Proof.
  intros Hb Hdir. destruct (Fs.parent b) as [| x p'] eqn:Hp; [reflexivity |].
  simpl in *. rewrite remove_all_lookup.
  rewrite decide_False; [exact Hdir |].
  rewrite <- Hp. apply parent_not_below. exact Hb.
Qed.

Lemma is_dir_node (fs0 : FS) (p : fpath) :
  Fs.node_at fs0 p = Some Dir -> Fs.is_dir fs0 p = true.
Proof. intros H. unfold Fs.is_dir. rewrite (stat_dir _ _ H). reflexivity. Qed.

Lemma RemoveAll_run (name : string) (w : World) :
  os.RemoveAll name w
  = (Ok tt, set_fs (log_event (EvRemoveAll name) w)
                   (Fs.remove_all (fs w) (resolve w name))).
Proof. reflexivity. Qed.

Lemma Symlink_run (oldname newname : string) (w : World) :
  Fs.node_at (fs w) (resolve w newname) = None ->
  Fs.node_at (fs w) (Fs.parent (resolve w newname)) = Some Dir ->
  os.Symlink oldname newname w
  = (Ok tt, set_fs (log_event (EvSymlink oldname newname) w)
                   (<[resolve w newname := Symlink oldname]> (fs w))).
Proof.
  intros Hnone Hdir. unfold os.Symlink, bind, emit, resolve in *. simpl.
  rewrite Hnone, (is_dir_node _ _ Hdir). reflexivity.
Qed.

Lemma Rename_file_run (oldname newname : string) (w : World) (c : string) (m : N) :
  fs w !! resolve w oldname = Some (File c m) ->
  Fs.node_at (fs w) (Fs.parent (resolve w newname)) = Some Dir ->
  fs w !! resolve w newname = None ->
  os.Rename oldname newname w
  = (Ok tt, set_fs (log_event (EvRename oldname newname) w)
                   (<[resolve w newname := File c m]>
                      (delete (resolve w oldname) (fs w)))).
Proof.
  intros Hfrom Hdir Hto. unfold os.Rename, bind, emit, resolve in *. simpl.
  rewrite Hfrom, (is_dir_node _ _ Hdir), Hto. reflexivity.
Qed.

Lemma Chmod_file_run (name : string) (mode : N) (w : World) (c : string) (m : N) :
  Fs.node_at (fs w) (resolve w name) = Some (File c m) ->
  os.Chmod name mode w
  = (Ok tt, set_fs (log_event (EvChmod name mode) w)
                   (<[resolve w name := File c mode]> (fs w))).
Proof.
  intros Hfile. unfold os.Chmod, bind, emit, resolve in *. simpl.
  unfold Fs.follow_links.
  rewrite follow_not_link by (intros t; rewrite Hfile; discriminate).
  rewrite Hfile. reflexivity.
Qed.

Lemma node_at_insert_ne (fs0 : FS) (p q : fpath) (n : node) :
  p <> q -> Fs.node_at (<[p := n]> fs0) q = Fs.node_at fs0 q.
Proof.
  intros Hne. destruct q as [| x q']; [reflexivity |]. simpl.
  apply lookup_insert_ne. exact Hne.
Qed.

Lemma parent_neq (b : fpath) : b <> [] -> b <> Fs.parent b.
Proof.
  intros Hb Heq. apply (parent_not_below b Hb). rewrite <- Heq. reflexivity.
Qed.

Section Placement.

(** [link] with a link source, where the target directory exists and the
    destination is free or found by [os.Stat]. *)
Lemma link_run (d : Downloader) (targetDir extractDir : string) (w : World) :
  let dst := binPath d targetDir in
  let src := path.Join [extractDir; path.FromSlash (LinkSource d)] in
  let b := resolve w dst in
  LinkSource d <> "" ->
  b <> [] ->
  Fs.node_at (fs w) (Fs.parent b) = Some Dir ->
  (exists_at w dst = false -> Fs.node_at (fs w) b = None) ->
  exists w4,
    link d targetDir extractDir w = (Ok tt, w4)
    /\ cwd w4 = cwd w
    /\ fs w4 = <[b := Symlink src]>
                 (if exists_at w dst then Fs.remove_all (fs w) b else fs w)
    /\ trace w4 = (trace w ++ EvStat dst
                     :: (if exists_at w dst then [EvRemoveAll dst] else [])
                     ++ [EvSymlink src dst])%list.
Proof.
  intros dst src b Hsrc Hb Hdir Hfree.
  unfold link. apply String.eqb_neq in Hsrc. rewrite Hsrc.
  unfold bind at 1. rewrite fileExists_run. fold dst.
  destruct (exists_at w dst) eqn:Hex.
  - unfold bind at 1. unfold rm. rewrite RemoveAll_run. fold src.
    rewrite Symlink_run.
    + eexists. split; [reflexivity |]. simpl. repeat split.
      rewrite <- !app_assoc. reflexivity.
    + apply remove_all_self. exact Hb.
    + apply remove_all_parent_dir; assumption.
  - unfold bind at 1. unfold ret. fold src.
    rewrite Symlink_run.
    + eexists. split; [reflexivity |]. simpl. repeat split.
      rewrite <- !app_assoc. reflexivity.
    + apply Hfree. reflexivity.
    + exact Hdir.
Qed.

(** [move] with a source that is a regular file outside the destination. *)
Lemma move_run (d : Downloader) (targetDir extractDir : string) (w : World)
      (c : string) (m : N) :
  let dst := binPath d targetDir in
  let from := path.Join [extractDir; path.FromSlash (MoveFrom d)] in
  let b := resolve w dst in
  let f := resolve w from in
  MoveFrom d <> "" ->
  b <> [] ->
  Fs.node_at (fs w) (Fs.parent b) = Some Dir ->
  fs w !! f = Some (File c m) ->
  ¬ (b `prefix_of` f) ->
  exists w5,
    move d targetDir extractDir w = (Ok tt, w5)
    /\ cwd w5 = cwd w
    /\ fs w5 = <[b := File c m]> (delete f (Fs.remove_all (fs w) b))
    /\ trace w5 = (trace w ++ [EvRemoveAll dst; EvRename from dst])%list.
Proof.
  intros dst from b f Hfrom Hb Hdir Hfile Hout.
  unfold move. apply String.eqb_neq in Hfrom. rewrite Hfrom.
  unfold bind at 1. unfold rm. rewrite RemoveAll_run. fold dst from.
  rewrite (Rename_file_run from dst _ c m).
  - eexists. split; [reflexivity |]. simpl. repeat split.
    rewrite <- !app_assoc. reflexivity.
  - simpl. change (Fs.remove_all (fs w) b !! f = Some (File c m)).
    rewrite remove_all_lookup, decide_False by exact Hout. exact Hfile.
  - apply remove_all_parent_dir; assumption.
  - simpl. change (Fs.remove_all (fs w) b !! b = None).
    rewrite remove_all_lookup, decide_True by reflexivity. reflexivity.
Qed.

End Placement.

(* ===================================================================== *)
(** * C10: link and move together *)
(* ===================================================================== *)

(** C10.  A strategy whose source field is empty does nothing and returns
    nil.  With both [LinkSource] and [MoveFrom] set, after the stages before
    placement have succeeded, [Install] first makes the symbolic link at the
    destination, then the move step removes that link and renames the
    extracted [MoveFrom] file onto the destination, then chmod makes it
    executable: the destination ends as the moved regular file with mode
    0755, not as a link, and the calls are made in exactly this order. *)
Theorem link_then_move (E : Env) :
  (forall d targetDir extractDir w,
      (LinkSource d = "" -> link d targetDir extractDir w = (Ok tt, w))
      /\ (MoveFrom d = "" -> move d targetDir extractDir w = (Ok tt, w)))
  /\ (forall d opts w w1 w2 w3 c m,
      let o := defaultDirs d opts in
      let dst := binPath d (TargetDir o) in
      let src := path.Join [ExtractDir o; path.FromSlash (LinkSource d)] in
      let from := path.Join [ExtractDir o; path.FromSlash (MoveFrom d)] in
      let b := resolve w3 dst in
      let f := resolve w3 from in
      LinkSource d <> "" ->
      MoveFrom d <> "" ->
      exists_at w dst && negb (Force opts) = false ->
      download E d (DownloadDir o) (log_event (EvStat dst) w) = (Ok tt, w1) ->
      validateChecksum E d (DownloadDir o) w1 = (Ok tt, w2) ->
      extract E d (DownloadDir o) (ExtractDir o) w2 = (Ok tt, w3) ->
      b <> [] ->
      Fs.node_at (fs w3) (Fs.parent b) = Some Dir ->
      (exists_at w3 dst = false -> Fs.node_at (fs w3) b = None) ->
      fs w3 !! f = Some (File c m) ->
      ¬ (b `prefix_of` f) ->
      exists w4 w5 w',
        link d (TargetDir o) (ExtractDir o) w3 = (Ok tt, w4)
        /\ fs w4 !! b = Some (Symlink src)
        /\ move d (TargetDir o) (ExtractDir o) w4 = (Ok tt, w5)
        /\ fs w5 !! b = Some (File c m)
        /\ fs w5 !! f = None
        /\ Install E d opts w = (Ok tt, w')
        /\ fs w' !! b = Some (File c 493%N)
        /\ trace w' = (trace w3 ++ EvStat dst
                         :: (if exists_at w3 dst then [EvRemoveAll dst] else [])
                         ++ [EvSymlink src dst; EvRemoveAll dst; EvRename from dst;
                             EvChmod dst 493%N])%list).
Proof.
  split.
  - intros d targetDir extractDir w. split; intros Hempty.
    + unfold link. rewrite Hempty. reflexivity.
    + unfold move. rewrite Hempty. reflexivity.
  - intros d opts w w1 w2 w3 c m o dst src from b f
           Hlink Hmove Hguard Hd Hv Hx Hb Hdir Hfree Hfile Hout.
    assert (Hbf : b <> f) by (intros ->; apply Hout; reflexivity).
    destruct (link_run d (TargetDir o) (ExtractDir o) w3 Hlink Hb Hdir Hfree)
      as (w4 & Hl & Hcwd4 & Hfs4 & Htr4).
    fold dst src b in Hl, Hfs4, Htr4.
    assert (Hres4 : forall s, resolve w4 s = resolve w3 s)
      by (intros s; unfold resolve; rewrite Hcwd4; reflexivity).
    assert (Hfile4 : fs w4 !! f = Some (File c m)).
    { rewrite Hfs4, lookup_insert_ne by exact Hbf.
      destruct (exists_at w3 dst); [| exact Hfile].
      rewrite remove_all_lookup, decide_False by exact Hout. exact Hfile. }
    assert (Hdir4 : Fs.node_at (fs w4) (Fs.parent b) = Some Dir).
    { rewrite Hfs4, node_at_insert_ne by (apply parent_neq; exact Hb).
      destruct (exists_at w3 dst); [| exact Hdir].
      apply remove_all_parent_dir; assumption. }
    destruct (move_run d (TargetDir o) (ExtractDir o) w4 c m) as (w5 & Hm & Hcwd5 & Hfs5 & Htr5);
      try (rewrite !Hres4; assumption); try assumption.
    fold dst from in Hm, Hfs5, Htr5. rewrite !Hres4 in Hfs5. fold b f in Hfs5.
    assert (Hb5 : fs w5 !! b = Some (File c m)) by (rewrite Hfs5; apply lookup_insert_eq).
    assert (Hres5 : resolve w5 dst = b)
      by (unfold resolve; rewrite Hcwd5, Hcwd4; reflexivity).
    assert (Hc : chmod d (TargetDir o) w5
                 = (Ok tt, set_fs (log_event (EvChmod dst 493%N) w5)
                                  (<[b := File c 493%N]> (fs w5)))).
    { unfold chmod. fold dst. rewrite <- Hres5.
      apply (Chmod_file_run dst 493%N w5 c m).
      rewrite Hres5, node_at_nonroot by exact Hb. exact Hb5. }
    exists w4, w5, (set_fs (log_event (EvChmod dst 493%N) w5) (<[b := File c 493%N]> (fs w5))).
    split; [exact Hl |].
    split; [rewrite Hfs4; apply lookup_insert_eq |].
    split; [exact Hm |].
    split; [exact Hb5 |].
    split; [rewrite Hfs5, lookup_insert_ne, lookup_delete_eq by exact Hbf; reflexivity |].
    split; [| split].
    + rewrite (Install_placement E d opts w w1 w2 w3 Hguard Hd Hv Hx).
      fold o. unfold bind, logged. rewrite Hl, Hm, Hc. reflexivity.
    + simpl. apply lookup_insert_eq.
    + simpl. rewrite Htr5, Htr4. rewrite <- !app_assoc. simpl.
      rewrite <- !app_assoc. reflexivity.
Qed.

Lemma link_then_move_witness :
  exists w',
    Install Fixture.env Fixture.dBoth Fixture.optsCache Fixture.diskCache = (Ok tt, w')
    /\ fs w' !! ["t"; "foo"] = Some (File "foo" 493%N).
Proof.
  destruct (proj2 (link_then_move Fixture.env) Fixture.dBoth Fixture.optsCache
              Fixture.diskCache Fixture.afterDownload Fixture.afterVerify
              Fixture.afterExtract "foo" 420%N)
    as (w4 & w5 & w' & _ & _ & _ & _ & _ & Hrun & Hdst & _).
  - discriminate.
  - discriminate.
  - vm_compute. reflexivity.
  - vm_compute. reflexivity.
  - vm_compute. reflexivity.
  - vm_compute. reflexivity.
  - vm_compute. discriminate.
  - vm_compute. reflexivity.
  - intros _. vm_compute. reflexivity.
  - vm_compute. reflexivity.
  - vm_compute. intros [k Hk]. discriminate.
  - exists w'. split; [exact Hrun |].
    vm_compute in Hdst. vm_compute. exact Hdst.
Defined.

(* ===================================================================== *)
(** * C3: extracting a file that is not an archive *)
(* ===================================================================== *)

Section Extract.

Context (E : Env).

(** [extract], up to the call of the archive library. *)
Lemma extract_run (d : Downloader) (downloadDir extractDir name : string) (w : World) :
  downloadableName E d = Ok name ->
  let tarPath := path.Join [downloadDir; name] in
  extract E d downloadDir extractDir w =
    match Fs.mkdir_all (fs w) (rev (resolve w extractDir)) with
    | None => (Err (ErrPath "mkdir" extractDir os.ENOTDIR),
               log_event (EvMkdirAll extractDir) w)
    | Some fs1 =>
        let w1 := set_fs (log_event (EvMkdirAll extractDir) w) fs1 in
        let rest := (let* _ := archiver_unarchive E tarPath extractDir in rm tarPath) in
        if archiver_ByExtension E name then rest w1
        else match copyFile tarPath (path.Join [extractDir; name]) w1 with
             | (Ok _, w2) => rest w2
             | (Err e, w2) => (Err e, w2)
             end
    end.
Proof.
  intros Hname tarPath.
  unfold extract, lift. unfold bind at 1. rewrite Hname.
  unfold bind at 1. unfold os.MkdirAll, bind at 1, emit. simpl. unfold resolve. simpl.
  destruct (Fs.mkdir_all (fs w) _) as [fs1 |]; [| reflexivity].
  fold tarPath.
  destruct (archiver_ByExtension E name).
  - reflexivity.
  - unfold bind at 1.
    destruct (copyFile tarPath (path.Join [extractDir; name]) _) as [[[] | e] w2];
      reflexivity.
Qed.

Lemma archiver_unarchive_trace (source destination : string) (w : World)
      (r : result unit) (w' : World) :
  archiver_unarchive E source destination w = (r, w') ->
  trace w' = (trace w ++ [EvUnarchive source destination])%list.
Proof.
  unfold archiver_unarchive, bind, emit. simpl.
  destruct (archiver_Unarchive E _ _ _) as [[e |] fs']; intros [= <- <-]; reflexivity.
Qed.

End Extract.

(** C3 (the code departs from the claim).  For a downloaded file whose name
    has no recognized archive format, once the raw copy into the extract
    directory has succeeded, [extract] does not return: it goes on to call
    [archiver.Unarchive] on the downloaded file, and its result is what that
    call and the removal after it give. *)
Theorem extract_unrecognized_still_unarchives
    (E : Env) (d : Downloader) (downloadDir extractDir name : string)
    (w w2 : World) (fs1 : FS) :
  downloadableName E d = Ok name ->
  archiver_ByExtension E name = false ->
  Fs.mkdir_all (fs w) (rev (resolve w extractDir)) = Some fs1 ->
  let tarPath := path.Join [downloadDir; name] in
  let rawCopy := path.Join [extractDir; name] in
  copyFile tarPath rawCopy (set_fs (log_event (EvMkdirAll extractDir) w) fs1) = (Ok tt, w2) ->
  extract E d downloadDir extractDir w
    = (let* _ := archiver_unarchive E tarPath extractDir in rm tarPath) w2
  /\ exists evs,
       trace (extract E d downloadDir extractDir w).2
         = (trace w2 ++ EvUnarchive tarPath extractDir :: evs)%list.
Proof.
  intros Hname Hunrec Hmk tarPath rawCopy Hcopy.
  assert (Hrun : extract E d downloadDir extractDir w
                 = (let* _ := archiver_unarchive E tarPath extractDir in rm tarPath) w2).
  { rewrite (extract_run E d downloadDir extractDir name w Hname).
    rewrite Hmk, Hunrec. simpl. fold tarPath rawCopy. rewrite Hcopy. reflexivity. }
  split; [exact Hrun |].
  rewrite Hrun. unfold bind.
  destruct (archiver_unarchive E tarPath extractDir w2) as [[[] | e] w3] eqn:Hun;
    pose proof (archiver_unarchive_trace E _ _ _ _ _ Hun) as Htr.
  - unfold rm. rewrite RemoveAll_run. simpl. exists [EvRemoveAll tarPath].
    rewrite Htr, <- app_assoc. reflexivity.
  - simpl. exists []. exact Htr.
Qed.

Lemma extract_unrecognized_still_unarchives_witness :
  exists w',
    extract Fixture.env Fixture.dRaw "/t/cache" "/t/cache/x" Fixture.diskRaw
      = (Err (ErrExternal "archiver" "format unrecognized by filename"), w')
    /\ fs w' !! ["t"; "cache"; "x"; "foo"] = Some (File Fixture.fooBytes 438%N)
    /\ In (EvUnarchive "/t/cache/foo" "/t/cache/x") (trace w').
Proof.
  destruct (extract_unrecognized_still_unarchives Fixture.env Fixture.dRaw
              "/t/cache" "/t/cache/x" "foo" Fixture.diskRaw
              Fixture.afterRawCopy Fixture.treeRawExtractDir eq_refl eq_refl)
    as (Hrun & _).
  - vm_compute. reflexivity.
  - vm_compute. reflexivity.
  - rewrite Hrun.
    eexists. split; [vm_compute; reflexivity |]. split.
    + vm_compute. reflexivity.
    + vm_compute. tauto.
Defined.

(* ===================================================================== *)
(** * Reading a successful run backwards *)
(* ===================================================================== *)

Lemma run_result {A} (m : M A) (w : World) (r : result A) :
  (m w).1 = r -> m w = (r, (m w).2).
Proof. destruct (m w) as [r0 w0]. simpl. intros ->. reflexivity. Qed.

Lemma bind_ok_inv {A B} (m : M A) (k : A -> M B) (w : World) (b : B) (w' : World) :
  bind m k w = (Ok b, w') -> exists a w1, m w = (Ok a, w1) /\ k a w1 = (Ok b, w').
Proof.
  unfold bind. destruct (m w) as [[a | e] w1]; [| discriminate].
  intros H. exists a, w1. split; [reflexivity | exact H].
Qed.

Lemma logged_ok_inv (msg : string) (stage : M unit) (w w' : World) :
  logged msg stage w = (Ok tt, w') -> stage w = (Ok tt, w').
Proof.
  unfold logged. destruct (stage w) as [[[] | e] w1]; [| discriminate].
  intros H. exact H.
Qed.

(** What [validateChecksum] found when it returns nil. *)
Lemma validateChecksum_ok_inv (E : Env) (d : Downloader) (dir : string) (w w' : World) :
  validateChecksum E d dir w = (Ok tt, w') ->
  exists name c m,
    downloadableName E d = Ok name
    /\ Fs.stat (fs w) (resolve w (path.Join [dir; name])) = Some (File c m)
    /\ sha256_hex E c = Checksum d
    /\ w' = log_event (EvReadFile (path.Join [dir; name])) w.
Proof.
  unfold validateChecksum, downloadablePath, lift, bind.
  destruct (downloadableName E d) as [name | e]; [| discriminate].
  unfold fileChecksum, os.ReadFile, bind, emit, ret, resolve. simpl.
  destruct (Fs.stat (fs w) (Fs.resolve_from (cwd w) (path.Join [dir; name])))
    as [[c m | | tgt] |] eqn:Hst; try discriminate.
  destruct (String.eqb_spec (Checksum d) (sha256_hex E c)) as [Heq | Hne]; simpl.
  - intros [= <-]. exists name, c, m. repeat split; [exact Hst | symmetry; exact Heq].
  - unfold attempt, rm, os.RemoveAll, bind, emit, fail. simpl. discriminate.
Qed.

(* ===================================================================== *)
(** * C4: no checksum in the descriptor *)
(* ===================================================================== *)

(** C4, as the code has it.  [InstallOpts] has no field that allows a
    missing checksum and there is no error for one: an empty [Checksum] is
    an expected checksum like any other.  A short-circuited install returns
    nil without verifying anything.  Otherwise, once the download stage has
    succeeded and left a regular file at the download path, verification
    runs and compares the empty text with the recomputed checksum: a digest
    is not empty, so the downloaded file is removed and [Install] fails with
    the ordinary mismatch error (wanted empty, got the digest).  Hence, with
    digests never empty, such an install returns nil only by the short
    circuit. *)
Theorem empty_checksum_is_mismatch
    (E : Env) (d : Downloader) (opts : InstallOpts) (w : World) :
  let o := defaultDirs d opts in
  let dst := binPath d (TargetDir o) in
  Checksum d = "" ->
  (exists_at w dst && negb (Force opts) = true ->
     Install E d opts w = (Ok tt, log_event (EvStat dst) w))
  /\ (forall (w1 : World) (name c : string) (m : N),
        let targetFile := path.Join [DownloadDir o; name] in
        let e := ErrChecksumMismatch targetFile "" (sha256_hex E c) in
        exists_at w dst && negb (Force opts) = false ->
        downloadableName E d = Ok name ->
        download E d (DownloadDir o) (log_event (EvStat dst) w) = (Ok tt, w1) ->
        Fs.node_at (fs w1) (resolve w1 targetFile) = Some (File c m) ->
        sha256_hex E c <> "" ->
        exists w2,
          validateChecksum E d (DownloadDir o) w1 = (Err e, w2)
          /\ Fs.node_at (fs w2) (resolve w1 targetFile) = None
          /\ Install E d opts w = (Err e, log_event (EvLogErr "error validating" e) w2))
  /\ ((forall c, sha256_hex E c <> "") ->
      forall w', Install E d opts w = (Ok tt, w') ->
                 exists_at w dst && negb (Force opts) = true).
Proof.
  intros o dst Hempty. split; [| split].
  - intros Hguard. unfold Install. fold o. unfold bind at 1. rewrite fileExists_run.
    fold dst. change (Force o) with (Force opts). rewrite Hguard. reflexivity.
  - intros w1 name c m targetFile e Hguard Hname Hd Hfile Hdigest.
    pose proof (validateChecksum_run E d (DownloadDir o) w1 name c m Hname Hfile) as Hv.
    cbv zeta in Hv. fold targetFile in Hv. rewrite Hempty in Hv.
    destruct (String.eqb_spec "" (sha256_hex E c)) as [Heq | _];
      [exfalso; apply Hdigest; symmetry; exact Heq |].
    fold e in Hv.
    destruct (node_at_lookup _ _ _ Hfile ltac:(discriminate)) as [_ Hp].
    eexists. split; [exact Hv |]. split.
    + simpl. apply remove_all_self. exact Hp.
    + apply Install_early_failure; [exact Hguard |].
      apply (verify_fails E d o _ e w1 _ Hd Hv).
  - intros Hdigest w' Hrun. unfold Install in Hrun. fold o in Hrun.
    unfold bind at 1 in Hrun. rewrite fileExists_run in Hrun. fold dst in Hrun.
    change (Force o) with (Force opts) in Hrun.
    destruct (exists_at w dst && negb (Force opts)); [reflexivity |].
    apply bind_ok_inv in Hrun. destruct Hrun as ([] & wa & _ & Hrun).
    apply bind_ok_inv in Hrun. destruct Hrun as ([] & wb & Hv & _).
    apply logged_ok_inv, validateChecksum_ok_inv in Hv.
    destruct Hv as (name & c & m & _ & _ & Hsum & _).
    rewrite Hempty in Hsum. exfalso. exact (Hdigest c Hsum).
Qed.

Lemma empty_checksum_is_mismatch_witness :
  exists w2,
    Install Fixture.env Fixture.dNoChecksum Fixture.optsCache Fixture.diskCache
    = (Err (ErrChecksumMismatch "/t/cache/foo.tar.gz" "" Fixture.fooChecksum), w2).
Proof.
  destruct (proj1 (proj2 (empty_checksum_is_mismatch Fixture.env Fixture.dNoChecksum
                            Fixture.optsCache Fixture.diskCache eq_refl))
              (download Fixture.env Fixture.dNoChecksum "/t/cache"
                 (log_event (EvStat "/t/foo.txt") Fixture.diskCache)).2
              "foo.tar.gz" Fixture.fooBytes 438%N)
    as (w2 & _ & _ & Hrun).
  - vm_compute. reflexivity.
  - reflexivity.
  - apply run_result. vm_compute. reflexivity.
  - vm_compute. reflexivity.
  - vm_compute. discriminate.
  - eexists. exact Hrun.
Defined.

(** C4 as stated fails: installing a descriptor without checksum, nothing
    cached, gives neither a skipped verification nor an error of its own for
    the missing checksum; the file is fetched, read back, found to differ
    from the empty text, deleted, and the error is the mismatch error. *)
Lemma missing_checksum_counterexample :
  exists w',
    Install Fixture.env Fixture.dNoChecksum Fixture.optsCache Fixture.diskCache
    = (Err (ErrChecksumMismatch "/t/cache/foo.tar.gz" "" Fixture.fooChecksum), w')
    /\ In (EvReadFile "/t/cache/foo.tar.gz") (trace w')
    /\ In (EvRemoveAll "/t/cache/foo.tar.gz") (trace w')
    /\ fs w' !! ["t"; "cache"; "foo.tar.gz"] = None.
Proof.
  eexists. split; [vm_compute; reflexivity |].
  split; [vm_compute; tauto |]. split; [vm_compute; tauto |].
  vm_compute. reflexivity.
Qed.

(* ===================================================================== *)
(** * What the stages before placement may change *)
(* ===================================================================== *)





Lemma follow_links_agree' (fs1 fs2 : FS) (p : fpath) :
  links_agree fs1 fs2 -> Fs.follow_links fs1 p = Fs.follow_links fs2 p.
Proof. apply follow_links_agree. Qed.

(** A regular file written where [p] leads, away from [b]. *)
Lemma written_untouched (fs0 : FS) (p q b : fpath) (c : string) (m : N) :
  Fs.follow_links fs0 p = Some q ->
  Fs.follow_links fs0 p <> Some b ->
  (<[q := File c m]> fs0) !! b = fs0 !! b
  /\ links_agree fs0 (<[q := File c m]> fs0).
Proof.
  intros Hq Hb. split.
  - apply lookup_insert_ne. intros ->. apply Hb. exact Hq.
  - apply links_agree_insert; [| discriminate].
    exact (follow_end _ _ _ _ Hq).
Qed.

Lemma Write_spec (name : string) (q : fpath) (data : string) (w : World)
      (r : result unit) (w' : World) :
  os.Write name q data w = (r, w') ->
  cwd w' = cwd w
  /\ (fs w' = fs w
      \/ exists c m, fs w !! q = Some (File c m)
                     /\ fs w' = <[q := File (c ++ data) m]> (fs w)).
Proof.
  unfold os.Write, bind, emit. simpl.
  destruct (fs w !! q) as [[c m | | tgt] |] eqn:Hq; intros [= <- <-]; simpl;
    (split; [reflexivity |]); try (left; reflexivity).
  right. exists c, m. split; reflexivity.
Qed.

(** [copyFile] leaves the tree as it was or with one regular file written
    where the destination path leads. *)
Lemma copyFile_spec (src dst : string) (w : World) (r : result unit) (w' : World) :
  copyFile src dst w = (r, w') ->
  cwd w' = cwd w
  /\ (fs w' = fs w
      \/ exists q c m,
           Fs.follow_links (fs w) (resolve w dst) = Some q
           /\ q <> [] /\ fs w' = <[q := File c m]> (fs w)).
Proof.
  unfold copyFile. unfold bind at 1. unfold os.ReadFile, bind at 1, emit. simpl.
  unfold resolve at 1. simpl.
  destruct (Fs.stat (fs w) _) as [[data m0 | | tgt] |];
    try (intros [= <- <-]; simpl; split; [reflexivity | left; reflexivity]).
  unfold bind.
  destruct (os.Create dst (log_event (EvReadFile src) w)) as [[q | e] w1] eqn:Hc;
    apply Create_spec in Hc; simpl in Hc; destruct Hc as (Hcwd & _ & Hfs).
  - destruct Hfs as (Hq & Hroot & m1 & Hfs). intros Hw. apply Write_spec in Hw.
    destruct Hw as (Hcwd' & Hw). split; [congruence |]. right.
    destruct Hw as [Hsame | (c & m & _ & Hw)].
    + exists q, "", m1. rewrite Hsame. auto.
    + exists q, (c ++ data), m. rewrite Hw, Hfs, insert_insert_eq. auto.
  - intros [= <- <-]. split; [exact Hcwd | left; exact Hfs].
Qed.

Section Frames.

Context (E : Env).





End Frames.

(* ===================================================================== *)
(** * C6: a failed install and the destination *)
(* ===================================================================== *)


(** The archive library of the test doubles writes below its destination. *)
Lemma fixture_unarchive_stays_below : unarchive_stays_below Fixture.env.
Proof.
  intros source destination fs0 q Hq. simpl. unfold Fixture.unarchive.
  destruct (negb _); [reflexivity |].
  destruct (Fs.stat fs0 source) as [[c m | | tgt] |]; try reflexivity.
  destruct (String.eqb c Fixture.fooBytes); [| reflexivity].
  simpl. rewrite !lookup_insert_ne; [reflexivity | |];
    intros <-; apply Hq; apply prefix_app_r; reflexivity.
Qed.



(* ===================================================================== *)
(** * The tests of the package, replayed on the test doubles *)
(* ===================================================================== *)

Example Base_of_url_path : path.Base "/foo/foo.tar.gz" = "foo.tar.gz".
Proof. reflexivity. Qed.

Example Base_trailing_slash : path.Base "/foo/bar/" = "bar".
Proof. reflexivity. Qed.

Example Base_empty : path.Base "" = ".".
Proof. reflexivity. Qed.

Example Base_only_slashes : path.Base "///" = "/".
Proof. reflexivity. Qed.

Example Clean_dots : path.Clean "a//b/../c/./" = "a/c".
Proof. reflexivity. Qed.

Example Clean_above_root : path.Clean "/../a/b/.." = "/a".
Proof. reflexivity. Qed.

Example Join_default_download_dir :
  path.Join ["/t"; ".bindownloader"; "downloads"; "abc"] = "/t/.bindownloader/downloads/abc".
Proof. reflexivity. Qed.

Example Join_skips_leading_empty : path.Join [""; "foo"] = "foo".
Proof. reflexivity. Qed.

(** [Test_downloadFile], "success". *)
Example downloadFile_success :
  let r := downloadFile Fixture.env "/t/bar.tar.gz" "http://127.0.0.1/foo/foo.tar.gz"
             Fixture.disk0 in
  r.1 = Ok tt /\ fs r.2 !! ["t"; "bar.tar.gz"] = Some (File Fixture.fooBytes 438%N).
Proof. vm_compute. split; reflexivity. Qed.

(** [Test_downloadFile], "404". *)
Example downloadFile_404 :
  (downloadFile Fixture.env "/t/bar.tar.gz" "http://127.0.0.1/wrongpath" Fixture.disk0).1
  = Err (ErrFailedDownloading "http://127.0.0.1/wrongpath").
Proof. vm_compute. reflexivity. Qed.

(** [Test_downloadFile], "bad url". *)
Example downloadFile_bad_url :
  (downloadFile Fixture.env "/t/bar.tar.gz" "https://bad/url" Fixture.disk0).1
  = Err Fixture.noSuchHost.
Proof. vm_compute. reflexivity. Qed.

(** [Test_downloadFile], "bad target": the directory is not there. *)
Example downloadFile_bad_target :
  (downloadFile Fixture.env "/t/notreal/bar.tar.gz" "http://127.0.0.1/foo/foo.tar.gz"
     Fixture.disk0).1
  = Err (ErrPath "open" "/t/notreal/bar.tar.gz" os.ENOENT).
Proof. vm_compute. reflexivity. Qed.

(** [Test_downloader_validateChecksum], "missing file". *)
Example validateChecksum_missing_file :
  (validateChecksum Fixture.env Fixture.dGood "/t" Fixture.disk0).1
  = Err (ErrPath "open" "/t/foo.tar.gz" os.ENOENT).
Proof. vm_compute. reflexivity. Qed.

(** [TestDownloader_extract]. *)
Example extract_archive :
  let r := extract Fixture.env Fixture.dGood "/t" "/t/extract" Fixture.diskDownloaded in
  r.1 = Ok tt
  /\ fs r.2 !! ["t"; "extract"; "bin"; "foo.txt"] = Some (File "foo" 420%N)
  /\ fs r.2 !! ["t"; "foo.tar.gz"] = None.
Proof. vm_compute. repeat split. Qed.

(** [TestDownloader_Install], "move". *)
Example Install_move :
  let r := Install Fixture.env Fixture.dMove Fixture.optsForce Fixture.disk0 in
  r.1 = Ok tt /\ fs r.2 !! ["t"; "foo.txt"] = Some (File "foo" 493%N).
Proof. vm_compute. split; reflexivity. Qed.

(** [TestDownloader_Install], "link": the destination is a link and what it
    leads to is there. *)
Example Install_link :
  let r := Install Fixture.env Fixture.dLink Fixture.optsForce Fixture.disk0 in
  r.1 = Ok tt
  /\ fs r.2 !! ["t"; "foo"]
     = Some (Symlink ("/t/.bindownloader/extracts/" ++ Fixture.fooChecksum ++ "/bin/foo.txt"))
  /\ Fs.stat (fs r.2) ["t"; "foo"] = Some (File "foo" 493%N).
Proof. vm_compute. repeat split. Qed.

(** A downloadable that is itself the binary cannot be installed: the raw
    copy is made, the archive library is called all the same and refuses. *)
Example Install_raw_binary_fails :
  (Install Fixture.env Fixture.dRaw Fixture.optsCache Fixture.diskCache).1
  = Err (ErrExternal "archiver" "format unrecognized by filename").
Proof. vm_compute. reflexivity. Qed.

(** The query and the fragment of the URL do not reach the file name. *)
Example downloadableName_with_query :
  downloadableName Fixture.env Fixture.dOtherQuery = Ok "foo.tar.gz".
Proof. reflexivity. Qed.

(* ===================================================================== *)
(** * The calls a computation makes *)
(* ===================================================================== *)

Lemma traces_ret {A} (Q : list Event -> Prop) (a : A) : Q [] -> traces Q (ret a).
Proof.
  intros HQ w r w' [= <- <-]. exists []. split; [symmetry; apply app_nil_r | exact HQ].
Qed.

Lemma traces_fail {A} (Q : list Event -> Prop) (e : error) : Q [] -> traces Q (@fail A e).
Proof.
  intros HQ w r w' [= <- <-]. exists []. split; [symmetry; apply app_nil_r | exact HQ].
Qed.

Lemma traces_lift {A} (Q : list Event -> Prop) (x : result A) : Q [] -> traces Q (lift x).
Proof.
  intros HQ w r w' [= <- <-]. exists []. split; [symmetry; apply app_nil_r | exact HQ].
Qed.

Lemma traces_emit (Q : list Event -> Prop) (ev : Event) : Q [ev] -> traces Q (emit ev).
Proof. intros HQ w r w' [= <- <-]. exists [ev]. split; [reflexivity | exact HQ]. Qed.

(** A step that only rewrites the tree adds no event. *)
Lemma traces_silent {A} (Q : list Event -> Prop) (f : M A) :
  (forall w, trace (f w).2 = trace w) -> Q [] -> traces Q f.
Proof.
  intros Hf HQ w r w' Hrun. exists []. split; [| exact HQ].
  rewrite app_nil_r. specialize (Hf w). rewrite Hrun in Hf. exact Hf.
Qed.

Lemma traces_bind {A B} (Q1 Q2 Q : list Event -> Prop) (m : M A) (k : A -> M B) :
  traces Q1 m ->
  (forall a, traces Q2 (k a)) ->
  (forall e1, Q1 e1 -> Q e1) ->
  (forall e1 e2, Q1 e1 -> Q2 e2 -> Q (e1 ++ e2)%list) ->
  traces Q (bind m k).
Proof.
  intros Hm Hk Hstop Hgo w r w' Hrun. unfold bind in Hrun.
  destruct (m w) as [[a | e] w1] eqn:Hmw;
    destruct (Hm _ _ _ Hmw) as (e1 & Ht1 & HQ1).
  - destruct (Hk a _ _ _ Hrun) as (e2 & Ht2 & HQ2).
    exists (e1 ++ e2)%list. split; [| exact (Hgo _ _ HQ1 HQ2)].
    rewrite Ht2, Ht1, app_assoc. reflexivity.
  - injection Hrun as <- <-. exists e1. split; [exact Ht1 | exact (Hstop _ HQ1)].
Qed.

Lemma traces_attempt {A} (Q : list Event -> Prop) (m : M A) :
  traces Q m -> traces Q (attempt m).
Proof.
  intros Hm w r w' Hrun. unfold attempt in Hrun.
  destruct (m w) as [r0 w0] eqn:Hmw. injection Hrun as <- <-.
  exact (Hm _ _ _ Hmw).
Qed.

Lemma traces_weaken {A} (Q Q' : list Event -> Prop) (m : M A) :
  traces Q m -> (forall evs, Q evs -> Q' evs) -> traces Q' m.
Proof.
  intros Hm Hw w r w' Hrun. destruct (Hm _ _ _ Hrun) as (evs & Ht & HQ).
  exists evs. split; [exact Ht | exact (Hw _ HQ)].
Qed.

(** *** Predicates that compose: no request, and only allowed calls *)

Lemma requests_app (e1 e2 : list Event) :
  requests (e1 ++ e2) = (requests e1 ++ requests e2)%list.
Proof. apply List.filter_app. Qed.

Lemma no_request_app (e1 e2 : list Event) :
  no_request e1 -> no_request e2 -> no_request (e1 ++ e2).
Proof. unfold no_request. intros H1 H2. rewrite requests_app, H1, H2. reflexivity. Qed.

Lemma at_most_get_app_l (url : string) (e1 e2 : list Event) :
  no_request e1 -> at_most_get url e2 -> at_most_get url (e1 ++ e2).
Proof.
  unfold no_request, at_most_get. intros H1 H2. rewrite requests_app, H1. exact H2.
Qed.

Lemma at_most_get_app_r (url : string) (e1 e2 : list Event) :
  at_most_get url e1 -> no_request e2 -> at_most_get url (e1 ++ e2).
Proof.
  unfold no_request, at_most_get. intros H1 H2.
  rewrite requests_app, H2, app_nil_r. exact H1.
Qed.

Lemma no_request_at_most (url : string) (evs : list Event) :
  no_request evs -> at_most_get url evs.
Proof. intros H. left. exact H. Qed.

Lemma allowed_app (calls e1 e2 : list Event) :
  allowed calls e1 -> allowed calls e2 -> allowed calls (e1 ++ e2).
Proof. unfold allowed. intros H1 H2. apply Forall_app. split; assumption. Qed.

Lemma allowed_nil (calls : list Event) : allowed calls [].
Proof. constructor. Qed.

Lemma allowed_one (calls : list Event) (ev : Event) :
  In ev calls -> allowed calls [ev].
Proof. intros H. constructor; [right; exact H | constructor]. Qed.

Lemma allowed_log (calls : list Event) (ev : Event) :
  is_log ev = true -> allowed calls [ev].
Proof. intros H. constructor; [left; exact H | constructor]. Qed.

Lemma allowed_incl (calls calls' evs : list Event) :
  allowed calls evs -> (forall ev, In ev calls -> In ev calls') -> allowed calls' evs.
Proof.
  unfold allowed. intros H Hincl. eapply Forall_impl; [exact H |].
  intros ev [Hl | Hin]; [left; exact Hl | right; exact (Hincl _ Hin)].
Qed.

Lemma composes_no_request : composes no_request.
Proof. split; [reflexivity | exact no_request_app]. Qed.

Lemma composes_allowed (calls : list Event) : composes (allowed calls).
Proof. split; [apply allowed_nil | apply allowed_app]. Qed.

Lemma traces_seq {A B} (Q : list Event -> Prop) (m : M A) (k : A -> M B) :
  composes Q -> traces Q m -> (forall a, traces Q (k a)) -> traces Q (bind m k).
Proof.
  intros [_ Happ] Hm Hk. apply (traces_bind Q Q Q); auto.
Qed.

(** A system call: one event, then a rewrite of the tree. *)
Lemma traces_call {A} (Q : list Event -> Prop) (ev : Event) (f : M A) :
  composes Q -> Q [ev] -> (forall w, trace (f w).2 = trace w) ->
  traces Q (let* _ := emit ev in f).
Proof.
  intros HQ Hev Hf. apply traces_seq; [exact HQ | apply traces_emit; exact Hev |].
  intros _. apply traces_silent; [exact Hf | exact (proj1 HQ)].
Qed.

Section OsCalls.

Context (Q : list Event -> Prop) (HQ : composes Q).

Lemma traces_Stat name : Q [EvStat name] -> traces Q (os.Stat name).
Proof.
  intros H. apply traces_call; [exact HQ | exact H |].
  intros w. destruct (Fs.stat (fs w) (resolve w name)); reflexivity.
Qed.

Lemma traces_ReadFile name : Q [EvReadFile name] -> traces Q (os.ReadFile name).
Proof.
  intros H. apply traces_call; [exact HQ | exact H |].
  intros w. destruct (Fs.stat (fs w) (resolve w name)) as [[| |]|]; reflexivity.
Qed.

Lemma traces_MkdirAll name : Q [EvMkdirAll name] -> traces Q (os.MkdirAll name).
Proof.
  intros H. apply traces_call; [exact HQ | exact H |].
  intros w. destruct (Fs.mkdir_all (fs w) (rev (resolve w name))); reflexivity.
Qed.

Lemma traces_Create name : Q [EvCreate name] -> traces Q (os.Create name).
Proof.
  intros H. apply traces_call; [exact HQ | exact H |].
  intros w. destruct (Fs.follow_links (fs w) (resolve w name)) as [q |]; [| reflexivity].
  destruct (Fs.node_at (fs w) q) as [[| |]|]; try reflexivity.
  destruct (Fs.is_dir (fs w) (Fs.parent q)); reflexivity.
Qed.

Lemma traces_Write name q data : Q [EvWrite name] -> traces Q (os.Write name q data).
Proof.
  intros H. apply traces_call; [exact HQ | exact H |].
  intros w. destruct (fs w !! q) as [[| |]|]; reflexivity.
Qed.

Lemma traces_RemoveAll name : Q [EvRemoveAll name] -> traces Q (os.RemoveAll name).
Proof.
  intros H. apply traces_call; [exact HQ | exact H |]. intros w. reflexivity.
Qed.

Lemma traces_Rename oldname newname :
  Q [EvRename oldname newname] -> traces Q (os.Rename oldname newname).
Proof.
  intros H. apply traces_call; [exact HQ | exact H |].
  intros w. cbv zeta.
  destruct (fs w !! resolve w oldname) as [n |]; [| reflexivity].
  destruct (negb (Fs.is_dir (fs w) (Fs.parent (resolve w newname)))); [reflexivity |].
  destruct n, (fs w !! resolve w newname) as [[| |]|]; try reflexivity;
    repeat match goal with
           | |- context [if ?b then _ else _] => destruct b
           end; reflexivity.
Qed.

Lemma traces_Symlink oldname newname :
  Q [EvSymlink oldname newname] -> traces Q (os.Symlink oldname newname).
Proof.
  intros H. apply traces_call; [exact HQ | exact H |].
  intros w. cbv zeta. destruct (Fs.node_at (fs w) (resolve w newname)); [reflexivity |].
  destruct (Fs.is_dir (fs w) (Fs.parent (resolve w newname))); reflexivity.
Qed.

Lemma traces_Chmod name mode : Q [EvChmod name mode] -> traces Q (os.Chmod name mode).
Proof.
  intros H. apply traces_call; [exact HQ | exact H |].
  intros w. destruct (Fs.follow_links (fs w) (resolve w name)) as [q |]; [| reflexivity].
  destruct (Fs.node_at (fs w) q) as [[| |]|]; reflexivity.
Qed.

Lemma traces_fileExists name : Q [EvStat name] -> traces Q (fileExists name).
Proof.
  intros H. unfold fileExists. apply traces_seq; [exact HQ | |].
  - apply traces_attempt, traces_Stat, H.
  - intros r. apply traces_ret. exact (proj1 HQ).
Qed.

Lemma traces_rm name : Q [EvRemoveAll name] -> traces Q (rm name).
Proof. apply traces_RemoveAll. Qed.

Lemma traces_copyFile src dst :
  Q [EvReadFile src] -> Q [EvCreate dst] -> Q [EvWrite dst] -> traces Q (copyFile src dst).
Proof.
  intros Hr Hc Hw. unfold copyFile.
  apply traces_seq; [exact HQ | apply traces_ReadFile, Hr |]. intros data.
  apply traces_seq; [exact HQ | apply traces_Create, Hc |]. intros out.
  apply traces_Write, Hw.
Qed.

Lemma traces_logged msg (stage : M unit) :
  (forall e, Q [EvLogErr msg e]) -> traces Q stage -> traces Q (logged msg stage).
Proof.
  intros Hlog Hstage w r w' Hrun. unfold logged in Hrun.
  destruct (stage w) as [[[] | e] w1] eqn:Hs;
    destruct (Hstage _ _ _ Hs) as (evs & Ht & Hevs); injection Hrun as <- <-.
  - exists evs. split; assumption.
  - exists (evs ++ [EvLogErr msg e])%list. split.
    + simpl. rewrite Ht, app_assoc. reflexivity.
    + apply (proj2 HQ); [exact Hevs | apply Hlog].
Qed.

End OsCalls.

(** A failing stage adds its log line. *)
Lemma traces_logged_gen (Q : list Event -> Prop) (msg : string) (stage : M unit) :
  (forall evs e, Q evs -> Q (evs ++ [EvLogErr msg e])%list) ->
  traces Q stage -> traces Q (logged msg stage).
Proof.
  intros Hlog Hstage w r w' Hrun. unfold logged in Hrun.
  destruct (stage w) as [[[] | e] w1] eqn:Hs;
    destruct (Hstage _ _ _ Hs) as (evs & Ht & Hevs); injection Hrun as <- <-.
  - exists evs. split; assumption.
  - exists (evs ++ [EvLogErr msg e])%list. split.
    + simpl. rewrite Ht, app_assoc. reflexivity.
    + apply Hlog. exact Hevs.
Qed.

Section StageCalls.

Context (E : Env) (Q : list Event -> Prop) (HQ : composes Q).

Lemma traces_fileChecksum name : Q [EvReadFile name] -> traces Q (fileChecksum E name).
Proof.
  intros H. unfold fileChecksum. apply traces_seq; [exact HQ | apply traces_ReadFile; assumption |].
  intros c. apply traces_ret. exact (proj1 HQ).
Qed.

Lemma traces_fileExistsWithChecksum name checksum :
  Q [EvStat name] -> Q [EvReadFile name] ->
  traces Q (fileExistsWithChecksum E name checksum).
Proof.
  intros Hs Hr. unfold fileExistsWithChecksum.
  apply traces_seq; [exact HQ | apply traces_fileExists; assumption |].
  intros found. destruct found; simpl.
  - apply traces_seq; [exact HQ | apply traces_fileChecksum; assumption |].
    intros got. apply traces_ret. exact (proj1 HQ).
  - apply traces_ret. exact (proj1 HQ).
Qed.

Lemma traces_io_Copy name out resp : Q [EvWrite name] -> traces Q (io_Copy name out resp).
Proof.
  intros H. unfold io_Copy. apply traces_seq; [exact HQ | apply traces_Write; assumption |].
  intros _. destruct (BodyErr resp); [apply traces_fail | apply traces_ret]; exact (proj1 HQ).
Qed.

(** What [downloadFile] does once the response is there. *)
Lemma traces_store_response targetPath url resp :
  Q [EvCreate targetPath] -> Q [EvWrite targetPath] ->
  traces Q (if (300 <=? StatusCode resp)%Z then fail (ErrFailedDownloading url)
            else let* out := os.Create targetPath in io_Copy targetPath out resp).
Proof.
  intros Hc Hw. destruct (300 <=? StatusCode resp)%Z.
  - apply traces_fail. exact (proj1 HQ).
  - apply traces_seq; [exact HQ | apply traces_Create; assumption |].
    intros out. apply traces_io_Copy. exact Hw.
Qed.

Lemma traces_archiver_unarchive source destination :
  Q [EvUnarchive source destination] ->
  traces Q (archiver_unarchive E source destination).
Proof.
  intros H. apply traces_call; [exact HQ | exact H |].
  intros w. destruct (archiver_Unarchive E _ _ _) as [[e |] fs']; reflexivity.
Qed.

Lemma traces_lift_err {A B} (e : error) (k : A -> M B) :
  traces Q (bind (lift (Err e)) k).
Proof.
  intros w r w' [= <- <-]. exists []. split; [symmetry; apply app_nil_r | exact (proj1 HQ)].
Qed.

Lemma traces_lift_ok {A B} (a : A) (k : A -> M B) :
  traces Q (k a) -> traces Q (bind (lift (Ok a)) k).
Proof. intros Hk w r w' Hrun. exact (Hk _ _ _ Hrun). Qed.

Lemma traces_validateChecksum d dir :
  (forall name, downloadableName E d = Ok name ->
                forall ev, In ev (verify_calls dir name) -> Q [ev]) ->
  (forall f, Q [EvLogSuspicious f]) ->
  traces Q (validateChecksum E d dir).
Proof.
  intros Hcalls Hlog. unfold validateChecksum, downloadablePath.
  destruct (downloadableName E d) as [name | e] eqn:Hname; [| apply traces_lift_err].
  specialize (Hcalls name eq_refl). apply traces_lift_ok.
  apply traces_seq; [exact HQ | apply traces_fileChecksum; apply Hcalls; simpl; auto |].
  intros result. destruct (negb _); [| apply traces_ret; exact (proj1 HQ)].
  apply traces_seq;
    [exact HQ | apply traces_attempt, traces_rm; [exact HQ | apply Hcalls; simpl; auto] |].
  intros delErr. apply traces_seq; [exact HQ | |].
  - destruct delErr; [apply traces_ret; exact (proj1 HQ) | apply traces_emit, Hlog].
  - intros _. apply traces_fail. exact (proj1 HQ).
Qed.

Lemma traces_extract d downloadDir extractDir :
  (forall name, downloadableName E d = Ok name ->
                forall ev, In ev (extract_calls downloadDir extractDir name) -> Q [ev]) ->
  traces Q (extract E d downloadDir extractDir).
Proof.
  intros Hcalls. unfold extract.
  destruct (downloadableName E d) as [name | e] eqn:Hname; [| apply traces_lift_err].
  specialize (Hcalls name eq_refl). apply traces_lift_ok.
  apply traces_seq; [exact HQ | apply traces_MkdirAll; auto; apply Hcalls; simpl; auto |].
  intros _. apply traces_seq; [exact HQ | |].
  - destruct (archiver_ByExtension E name); [apply traces_ret; exact (proj1 HQ) |].
    apply traces_copyFile; auto; apply Hcalls; simpl; auto.
  - intros _. apply traces_seq; [exact HQ | |].
    + apply traces_archiver_unarchive. apply Hcalls. simpl. auto 10.
    + intros _. apply traces_rm; auto. apply Hcalls. simpl. auto 10.
Qed.

Lemma traces_link d targetDir extractDir :
  (forall ev, In ev (place_calls d targetDir extractDir) -> Q [ev]) ->
  traces Q (link d targetDir extractDir).
Proof.
  intros Hcalls. unfold link. destruct (String.eqb (LinkSource d) "").
  - apply traces_ret. exact (proj1 HQ).
  - apply traces_seq; [exact HQ | apply traces_fileExists; auto; apply Hcalls; simpl; auto |].
    intros found. apply traces_seq; [exact HQ | |].
    + destruct found; [apply traces_rm; auto; apply Hcalls; simpl; auto |].
      apply traces_ret. exact (proj1 HQ).
    + intros _. apply traces_Symlink; auto. apply Hcalls. simpl. auto.
Qed.

Lemma traces_move d targetDir extractDir :
  (forall ev, In ev (place_calls d targetDir extractDir) -> Q [ev]) ->
  traces Q (move d targetDir extractDir).
Proof.
  intros Hcalls. unfold move. destruct (String.eqb (MoveFrom d) "").
  - apply traces_ret. exact (proj1 HQ).
  - apply traces_seq; [exact HQ | apply traces_rm; auto; apply Hcalls; simpl; auto |].
    intros _. apply traces_Rename; auto. apply Hcalls. simpl. auto.
Qed.

Lemma traces_chmod d targetDir extractDir :
  (forall ev, In ev (place_calls d targetDir extractDir) -> Q [ev]) ->
  traces Q (chmod d targetDir).
Proof.
  intros Hcalls. unfold chmod. apply traces_Chmod; auto. apply Hcalls. simpl. auto 10.
Qed.

(** [download] up to the fetch: making the directory and looking at the
    download path. *)
Lemma traces_download_with (Qf : list Event -> Prop) d dir :
  (forall name, downloadableName E d = Ok name ->
                Q [EvMkdirAll dir]
                /\ Q [EvStat (path.Join [dir; name])]
                /\ Q [EvReadFile (path.Join [dir; name])]
                /\ traces Qf (downloadFile E (path.Join [dir; name]) (URL d))) ->
  (forall e1, Q e1 -> Qf e1) ->
  (forall e1 e2, Q e1 -> Qf e2 -> Qf (e1 ++ e2)%list) ->
  traces Qf (download E d dir).
Proof.
  intros Hcalls Hstop Hgo. unfold download, downloadablePath.
  destruct (downloadableName E d) as [name | e] eqn:Hname.
  2: { intros w r w' [= <- <-]. exists []. split; [symmetry; apply app_nil_r |].
       apply Hstop. exact (proj1 HQ). }
  destruct (Hcalls name eq_refl) as (Hmk & Hst & Hrd & Hdl).
  intros w r w' Hrun. revert w r w' Hrun.
  change (traces Qf (let* _ := os.MkdirAll dir in
                     let* ok := fileExistsWithChecksum E (path.Join [dir; name]) (Checksum d) in
                     if ok then ret tt
                     else downloadFile E (path.Join [dir; name]) (URL d))).
  apply (traces_bind Q Qf Qf); [apply traces_MkdirAll; assumption | | exact Hstop | exact Hgo].
  intros _.
  apply (traces_bind Q Qf Qf);
    [apply traces_fileExistsWithChecksum; assumption | | exact Hstop | exact Hgo].
  intros ok. destruct ok; [| exact Hdl].
  apply traces_ret. apply Hstop. exact (proj1 HQ).
Qed.

End StageCalls.

Lemma traces_downloadFile (E : Env) (Q : list Event -> Prop) (targetPath url : string) :
  composes Q ->
  Q [EvHttpGet url] -> Q [EvCreate targetPath] -> Q [EvWrite targetPath] ->
  traces Q (downloadFile E targetPath url).
Proof.
  intros HQ Hg Hc Hw. unfold downloadFile, http_get.
  apply traces_seq; [exact HQ | |].
  - apply traces_seq; [exact HQ | apply traces_emit, Hg |].
    intros _. apply traces_lift. exact (proj1 HQ).
  - intros resp. apply traces_store_response; assumption.
Qed.

(** [downloadFile] asks once, for its URL. *)
Lemma downloadFile_one_request (E : Env) (targetPath url : string) :
  traces (at_most_get url) (downloadFile E targetPath url).
Proof.
  unfold downloadFile, http_get.
  apply (traces_bind (at_most_get url) no_request (at_most_get url)).
  - apply (traces_bind (at_most_get url) no_request (at_most_get url)).
    + apply traces_emit. right. reflexivity.
    + intros _. apply traces_lift. reflexivity.
    + auto.
    + intros e1 e2. apply at_most_get_app_r.
  - intros resp. apply traces_store_response; [exact composes_no_request | |]; reflexivity.
  - auto.
  - intros e1 e2. apply at_most_get_app_r.
Qed.

(* ===================================================================== *)
(** * X1, X2: what [Install] asks of the network and of the disk *)
(* ===================================================================== *)

Lemma no_request_one (ev : Event) : is_get ev = false -> no_request [ev].
Proof. intros H. unfold no_request, requests. simpl. rewrite H. reflexivity. Qed.

Lemma at_most_get_log (url msg : string) (evs : list Event) (e : error) :
  at_most_get url evs -> at_most_get url (evs ++ [EvLogErr msg e]).
Proof. intros H. apply at_most_get_app_r; [exact H | reflexivity]. Qed.

Section Network.

Context (E : Env) (d : Downloader).

Lemma validateChecksum_no_request dir : traces no_request (validateChecksum E d dir).
Proof.
  apply traces_validateChecksum; [exact composes_no_request | | reflexivity].
  intros name _ ev Hin. apply no_request_one.
  simpl in Hin. destruct Hin as [<- | [<- | []]]; reflexivity.
Qed.

Lemma extract_no_request downloadDir extractDir :
  traces no_request (extract E d downloadDir extractDir).
Proof.
  apply traces_extract; [exact composes_no_request |].
  intros name _ ev Hin. apply no_request_one.
  simpl in Hin. repeat (destruct Hin as [<- | Hin]; [reflexivity |]). destruct Hin.
Qed.

Lemma place_no_request targetDir extractDir ev :
  In ev (place_calls d targetDir extractDir) -> no_request [ev].
Proof.
  intros Hin. apply no_request_one.
  simpl in Hin. repeat (destruct Hin as [<- | Hin]; [reflexivity |]). destruct Hin.
Qed.

Lemma download_one_request dir : traces (at_most_get (URL d)) (download E d dir).
Proof.
  apply (traces_download_with E no_request composes_no_request).
  - intros name _. repeat split. apply downloadFile_one_request.
  - apply no_request_at_most.
  - intros e1 e2. apply at_most_get_app_l.
Qed.

End Network.

(** X1.  [Install] calls [http.Get] at most once, and that call is for the
    URL of the downloader: nothing is retried and no other address is
    asked.  The call, if any, belongs to the download stage; verifying,
    extracting, linking, moving and chmod make none. *)
Theorem Install_one_request (E : Env) (d : Downloader) (opts : InstallOpts) :
  traces (at_most_get (URL d)) (Install E d opts)
  /\ (forall dir, traces (at_most_get (URL d)) (download E d dir))
  /\ (forall dir, traces no_request (validateChecksum E d dir))
  /\ (forall downloadDir extractDir, traces no_request (extract E d downloadDir extractDir))
  /\ (forall targetDir extractDir,
        traces no_request (link d targetDir extractDir)
        /\ traces no_request (move d targetDir extractDir)
        /\ traces no_request (chmod d targetDir)).
Proof.
  assert (Hplace : forall targetDir extractDir,
             traces no_request (link d targetDir extractDir)
             /\ traces no_request (move d targetDir extractDir)
             /\ traces no_request (chmod d targetDir)).
  { intros targetDir extractDir. split; [| split].
    - apply traces_link; [exact composes_no_request | apply place_no_request].
    - apply traces_move; [exact composes_no_request | apply place_no_request].
    - apply (traces_chmod no_request composes_no_request d targetDir extractDir).
      apply place_no_request. }
  split; [| split; [apply download_one_request | split;
    [apply validateChecksum_no_request | split; [apply extract_no_request | exact Hplace]]]].
  unfold Install. set (o := defaultDirs d opts).
  apply (traces_bind no_request (at_most_get (URL d)) (at_most_get (URL d))).
  - apply traces_fileExists; [exact composes_no_request | reflexivity].
  - intros found. destruct (found && negb (Force o)); [apply traces_ret; left; reflexivity |].
    apply (traces_bind (at_most_get (URL d)) no_request (at_most_get (URL d))).
    + apply traces_logged_gen; [intros evs e; apply at_most_get_log |].
      apply download_one_request.
    + intros _.
      destruct (Hplace (TargetDir o) (ExtractDir o)) as (Hl & Hm & Hc).
      repeat (apply traces_seq; [exact composes_no_request | | intros _]);
        try (apply traces_logged; [exact composes_no_request | reflexivity |]).
      * apply validateChecksum_no_request.
      * apply extract_no_request.
      * exact Hl.
      * exact Hm.
      * exact Hc.
      * apply traces_ret. reflexivity.
    + auto.
    + intros e1 e2. apply at_most_get_app_r.
  - apply no_request_at_most.
  - intros e1 e2. apply at_most_get_app_l.
Qed.

Section Footprint.

Context (E : Env) (d : Downloader) (o : InstallOpts).

Let calls := Install_calls E d o.

Lemma place_calls_in ev :
  In ev (place_calls d (TargetDir o) (ExtractDir o)) -> allowed calls [ev].
Proof.
  intros Hin. apply allowed_one. unfold calls, Install_calls.
  apply in_or_app. right. exact Hin.
Qed.

Lemma stage_calls_in name ev :
  downloadableName E d = Ok name ->
  In ev (download_calls d (DownloadDir o) name
         ++ verify_calls (DownloadDir o) name
         ++ extract_calls (DownloadDir o) (ExtractDir o) name) ->
  allowed calls [ev].
Proof.
  intros Hname Hin. apply allowed_one. unfold calls, Install_calls. rewrite Hname.
  apply in_or_app. left. exact Hin.
Qed.

Lemma download_allowed : traces (allowed calls) (download E d (DownloadDir o)).
Proof.
  apply (traces_download_with E (allowed calls) (composes_allowed calls)).
  - intros name Hname.
    assert (Hin : forall ev, In ev (download_calls d (DownloadDir o) name) ->
                             allowed calls [ev]).
    { intros ev Hev. apply (stage_calls_in name ev Hname). apply in_or_app. left. exact Hev. }
    split; [apply Hin; simpl; auto |]. split; [apply Hin; simpl; auto |].
    split; [apply Hin; simpl; auto |].
    apply traces_downloadFile; [apply composes_allowed | | |]; apply Hin; simpl; auto 10.
  - auto.
  - apply allowed_app.
Qed.

Lemma validateChecksum_allowed :
  traces (allowed calls) (validateChecksum E d (DownloadDir o)).
Proof.
  apply traces_validateChecksum; [apply composes_allowed | | intros f; apply allowed_log; reflexivity].
  intros name Hname ev Hev. apply (stage_calls_in name ev Hname).
  apply in_or_app. right. apply in_or_app. left. exact Hev.
Qed.

Lemma extract_allowed :
  traces (allowed calls) (extract E d (DownloadDir o) (ExtractDir o)).
Proof.
  apply traces_extract; [apply composes_allowed |].
  intros name Hname ev Hev. apply (stage_calls_in name ev Hname).
  apply in_or_app. right. apply in_or_app. right. exact Hev.
Qed.

End Footprint.

(** X2.  Every call [Install] makes, its log lines apart, is in the list
    [Install_calls]: the download and extract directories are made; the
    download path is looked at, read, fetched into and removed; the raw copy
    is written under the extract directory; the archive library is called
    on the download path and the extract directory; and at the destination
    there is a stat, a removal, the link, the rename and chmod 0755.  In
    particular [Install] itself removes nothing but the destination and the
    download path (what the archive library writes is its own). *)
Theorem Install_calls_only (E : Env) (d : Downloader) (opts : InstallOpts) :
  let o := defaultDirs d opts in
  traces (allowed (Install_calls E d o)) (Install E d opts)
  /\ (forall w r w' evs p,
        Install E d opts w = (r, w') -> trace w' = (trace w ++ evs)%list ->
        In (EvRemoveAll p) evs ->
        p = binPath d (TargetDir o)
        \/ exists name, downloadableName E d = Ok name
                        /\ p = path.Join [DownloadDir o; name]).
Proof.
  intros o.
  assert (Hfoot : traces (allowed (Install_calls E d o)) (Install E d opts)).
  { unfold Install. fold o.
    pose proof (composes_allowed (Install_calls E d o)) as HQ.
    pose proof (place_calls_in E d o) as Hplace.
    apply traces_seq; [exact HQ | apply traces_fileExists; [exact HQ |] |].
    { apply Hplace. simpl. auto. }
    intros found. destruct (found && negb (Force o)); [apply traces_ret, allowed_nil |].
    repeat (apply traces_seq; [exact HQ | | intros _]);
      try (apply traces_logged; [exact HQ | intros e; apply allowed_log; reflexivity |]).
    - apply download_allowed.
    - apply validateChecksum_allowed.
    - apply extract_allowed.
    - apply traces_link; [exact HQ | exact Hplace].
    - apply traces_move; [exact HQ | exact Hplace].
    - apply (traces_chmod _ HQ d (TargetDir o) (ExtractDir o)). exact Hplace.
    - apply traces_ret, allowed_nil. }
  split; [exact Hfoot |].
  intros w r w' evs p Hrun Htr Hin.
  destruct (Hfoot _ _ _ Hrun) as (evs' & Htr' & Hall).
  assert (evs' = evs) as -> by (rewrite Htr in Htr'; exact (app_inv_head _ _ _ (eq_sym Htr'))).
  unfold allowed in Hall. rewrite List.Forall_forall in Hall.
  destruct (Hall _ Hin) as [Hlog | Hcall]; [discriminate |].
  unfold Install_calls in Hcall.
  apply in_app_or in Hcall. destruct Hcall as [Hstage | Hplace].
  - destruct (downloadableName E d) as [name | e]; [| destruct Hstage].
    right. exists name. split; [reflexivity |].
    simpl in Hstage.
    repeat (destruct Hstage as [Heq | Hstage];
            [first [discriminate Heq | injection Heq as <-; reflexivity] |]).
    destruct Hstage.
  - left. simpl in Hplace.
    repeat (destruct Hplace as [Heq | Hplace];
            [first [discriminate Heq | injection Heq as <-; reflexivity] |]).
    destruct Hplace.
Qed.

Lemma Install_calls_only_witness :
  "/t/foo" = binPath Fixture.dAlias "/t"
  \/ exists name, downloadableName Fixture.env Fixture.dAlias = Ok name
                  /\ "/t/foo" = path.Join ["/t"; name].
Proof.
  apply (proj2 (Install_calls_only Fixture.env Fixture.dAlias Fixture.optsAlias)
           Fixture.diskAlias
           (Install Fixture.env Fixture.dAlias Fixture.optsAlias Fixture.diskAlias).1
           (Install Fixture.env Fixture.dAlias Fixture.optsAlias Fixture.diskAlias).2
           (trace (Install Fixture.env Fixture.dAlias Fixture.optsAlias Fixture.diskAlias).2)).
  - apply surjective_pairing.
  - reflexivity.
  - vm_compute. tauto.
Defined.

(* ===================================================================== *)
(** * X3 - X5: how [Install] ends *)
(* ===================================================================== *)


Lemma stat_root (fs0 : FS) : Fs.stat fs0 [] = Some Dir.
Proof. apply stat_dir. reflexivity. Qed.

(** After a successful [os.Chmod] the name leads to a directory or to a
    regular file with the new mode. *)
Lemma Chmod_ok (name : string) (mode : N) (w w' : World) :
  os.Chmod name mode w = (Ok tt, w') ->
  Fs.stat (fs w') (resolve w' name) = Some Dir
  \/ exists c, Fs.stat (fs w') (resolve w' name) = Some (File c mode).
Proof.
  unfold os.Chmod, bind, emit, resolve. simpl.
  destruct (Fs.follow_links (fs w) (Fs.resolve_from (cwd w) name)) as [q |] eqn:Hq;
    [| discriminate].
  destruct (Fs.node_at (fs w) q) as [[c m | | tgt] |] eqn:Hn; try discriminate.
  - intros [= <-]. simpl. right. exists c.
    apply written_stat; [exact Hq |]. intros ->. discriminate.
  - intros [= <-]. simpl. left. unfold Fs.stat. rewrite Hq, Hn. reflexivity.
Qed.

(** X3.  A URL that does not parse stops every stage before it touches the
    disk or the network: [download], [validateChecksum] and [extract] return
    the parse error and leave the world as it is, and an [Install] that is
    not short-circuited returns it having made one [os.Stat] of the
    destination and one log line. *)
Theorem unparseable_url_stops_every_stage (E : Env) (d : Downloader) (e : error) :
  url_Parse E (URL d) = Err e ->
  (forall dir w, download E d dir w = (Err e, w))
  /\ (forall dir w, validateChecksum E d dir w = (Err e, w))
  /\ (forall downloadDir extractDir w, extract E d downloadDir extractDir w = (Err e, w))
  /\ (forall opts w,
        let dst := binPath d (TargetDir opts) in
        exists_at w dst && negb (Force opts) = false ->
        Install E d opts w
        = (Err e, log_event (EvLogErr "error downloading" e) (log_event (EvStat dst) w))).
Proof.
  intros Hparse.
  assert (Hname : downloadableName E d = Err e)
    by (unfold downloadableName; rewrite Hparse; reflexivity).
  assert (Hd : forall dir w, download E d dir w = (Err e, w)).
  { intros dir w. unfold download, downloadablePath, lift, bind. rewrite Hname. reflexivity. }
  split; [exact Hd |]. split; [| split].
  - intros dir w. unfold validateChecksum, downloadablePath, lift, bind.
    rewrite Hname. reflexivity.
  - intros downloadDir extractDir w. unfold extract, lift, bind. rewrite Hname. reflexivity.
  - intros opts w dst Hguard.
    apply Install_early_failure; [exact Hguard |].
    apply download_fails. apply Hd.
Qed.

Lemma unparseable_url_stops_every_stage_witness :
  Install Fixture.env Fixture.dBadURL Fixture.optsCache Fixture.diskCache
  = (Err (ErrExternal "net/url" "invalid control character in URL"),
     log_event (EvLogErr "error downloading"
                  (ErrExternal "net/url" "invalid control character in URL"))
       (log_event (EvStat "/t/foo") Fixture.diskCache)).
Proof.
  apply (proj2 (proj2 (proj2 (unparseable_url_stops_every_stage Fixture.env Fixture.dBadURL
           (ErrExternal "net/url" "invalid control character in URL") eq_refl)))
           Fixture.optsCache Fixture.diskCache).
  reflexivity.
Defined.



(** An [Install] that returns nil was short-circuited or ended with a
    successful [os.Chmod] of the destination. *)
Lemma Install_ok_inv (E : Env) (d : Downloader) (opts : InstallOpts) (w w' : World) :
  Install E d opts w = (Ok tt, w') ->
  let dst := binPath d (TargetDir opts) in
  (exists_at w dst && negb (Force opts) = true /\ w' = log_event (EvStat dst) w)
  \/ (exists_at w dst && negb (Force opts) = false
      /\ exists wf, os.Chmod dst 493%N wf = (Ok tt, w')).
Proof.
  intros Hrun dst. unfold Install in Hrun. set (o := defaultDirs d opts) in Hrun.
  unfold bind at 1 in Hrun. rewrite fileExists_run in Hrun.
  change (binPath d (TargetDir o)) with dst in Hrun.
  change (Force o) with (Force opts) in Hrun.
  destruct (exists_at w dst && negb (Force opts)) eqn:Hguard.
  - injection Hrun as <-. left. split; reflexivity.
  - right. split; [reflexivity |].
    apply bind_ok_inv in Hrun. destruct Hrun as ([] & wa & _ & Hrun).
    apply bind_ok_inv in Hrun. destruct Hrun as ([] & wb & _ & Hrun).
    apply bind_ok_inv in Hrun. destruct Hrun as ([] & wc & _ & Hrun).
    apply bind_ok_inv in Hrun. destruct Hrun as ([] & wd & _ & Hrun).
    apply bind_ok_inv in Hrun. destruct Hrun as ([] & we & _ & Hrun).
    apply bind_ok_inv in Hrun. destruct Hrun as ([] & wf & Hchmod & Hret).
    injection Hret as <-. apply logged_ok_inv in Hchmod.
    exists we. exact Hchmod.
Qed.

(** X5.  When [Install] returns nil the destination is there: [os.Stat]
    finds it in the world [Install] leaves.  Unless the install was
    short-circuited, chmod was its last call, so the destination leads to a
    directory or to a regular file with mode 0755. *)
Theorem Install_ok_destination_exists
    (E : Env) (d : Downloader) (opts : InstallOpts) (w w' : World) :
  Install E d opts w = (Ok tt, w') ->
  let dst := binPath d (TargetDir opts) in
  exists_at w' dst = true
  /\ (exists_at w dst && negb (Force opts) = false ->
      Fs.stat (fs w') (resolve w' dst) = Some Dir
      \/ exists c, Fs.stat (fs w') (resolve w' dst) = Some (File c 493%N)).
Proof.
  intros Hrun dst.
  destruct (Install_ok_inv E d opts w w' Hrun) as [[Hguard ->] | [Hguard (wf & Hchmod)]];
    fold dst in Hguard.
  - split; [| intros Hno; rewrite Hno in Hguard; discriminate].
    rewrite exists_at_log. apply andb_prop in Hguard. exact (proj1 Hguard).
  - fold dst in Hchmod. apply Chmod_ok in Hchmod.
    split; [| intros _; exact Hchmod].
    unfold exists_at. destruct Hchmod as [-> | (c & ->)]; reflexivity.
Qed.

Lemma Install_ok_destination_exists_witness :
  exists_at (Install Fixture.env Fixture.dLink Fixture.optsForce Fixture.disk0).2 "/t/foo"
  = true.
Proof.
  apply (Install_ok_destination_exists Fixture.env Fixture.dLink Fixture.optsForce
           Fixture.disk0
           (Install Fixture.env Fixture.dLink Fixture.optsForce Fixture.disk0).2).
  apply run_result. vm_compute. reflexivity.
Defined.

(* ===================================================================== *)
(** * X6 - X8: the downloaded file and the cache *)
(* ===================================================================== *)

(** What a successful [downloadFile] did. *)
Lemma downloadFile_ok_inv (E : Env) (t u : string) (w w' : World) :
  downloadFile E t u w = (Ok tt, w') ->
  exists resp q m,
    http_Get E u = Ok resp /\ (StatusCode resp < 300)%Z /\ BodyErr resp = None
    /\ Fs.follow_links (fs w) (resolve w t) = Some q
    /\ q <> [] /\ Fs.node_at (fs w) q <> Some Dir
    /\ cwd w' = cwd w
    /\ fs w' = <[q := File (Body resp) m]> (fs w)
    /\ trace w' = (trace w ++ [EvHttpGet u; EvCreate t; EvWrite t])%list.
Proof.
  rewrite downloadFile_run. cbv zeta.
  destruct (http_Get E u) as [resp | e]; [| discriminate].
  destruct (300 <=? StatusCode resp)%Z eqn:Hsc; [discriminate |].
  apply Z.leb_gt in Hsc.
  unfold os.Create, io_Copy, os.Write, bind, emit, ret, fail, resolve. simpl.
  destruct (Fs.follow_links (fs w) (Fs.resolve_from (cwd w) t)) as [q |] eqn:Hq;
    [| discriminate].
  destruct (Fs.node_at (fs w) q) as [[c m | | tgt] |] eqn:Hn; try discriminate.
  - simpl. rewrite lookup_insert_eq.
    destruct (BodyErr resp) as [e |] eqn:Hbe; [discriminate |].
    intros [= <-]. exists resp, q, m. simpl.
    rewrite insert_insert_eq, <- !app_assoc.
    repeat split; try assumption; try discriminate.
    + intros ->. discriminate.
    + rewrite Hn. discriminate.
  - destruct (Fs.is_dir (fs w) (Fs.parent q)); [| discriminate].
    simpl. rewrite lookup_insert_eq.
    destruct (BodyErr resp) as [e |] eqn:Hbe; [discriminate |].
    intros [= <-]. exists resp, q, 438%N. simpl.
    rewrite insert_insert_eq, <- !app_assoc.
    repeat split; try assumption; try discriminate.
    + intros ->. discriminate.
    + rewrite Hn. discriminate.
Qed.

(** X6.  What [downloadFile] stores.  When it returns nil, the server
    answered with a status below 300, the body ended without an error, and
    the file the target path leads to holds the body and nothing else
    (whatever it held before), after exactly one request, one create and one
    write.  Into a fresh path in an existing directory the file is created
    and holds what the body delivered even when the body ended with an
    error: that error is returned and the partial file is left where it
    is. *)
Theorem downloadFile_stores_body (E : Env) (t u : string) (w : World) :
  (forall w', downloadFile E t u w = (Ok tt, w') ->
     exists resp q m,
       http_Get E u = Ok resp /\ (StatusCode resp < 300)%Z /\ BodyErr resp = None
       /\ Fs.follow_links (fs w) (resolve w t) = Some q
       /\ fs w' = <[q := File (Body resp) m]> (fs w)
       /\ Fs.stat (fs w') (resolve w' t) = Some (File (Body resp) m)
       /\ trace w' = (trace w ++ [EvHttpGet u; EvCreate t; EvWrite t])%list)
  /\ (forall resp,
        http_Get E u = Ok resp -> (StatusCode resp < 300)%Z ->
        Fs.node_at (fs w) (resolve w t) = None ->
        Fs.is_dir (fs w) (Fs.parent (resolve w t)) = true ->
        exists w' m,
          downloadFile E t u w
          = (match BodyErr resp with Some e => Err e | None => Ok tt end, w')
          /\ fs w' = <[resolve w t := File (Body resp) m]> (fs w)
          /\ Fs.stat (fs w') (resolve w' t) = Some (File (Body resp) m)).
Proof.
  split.
  - intros w' Hrun. apply downloadFile_ok_inv in Hrun.
    destruct Hrun as (resp & q & m & Hget & Hsc & Hbe & Hq & Hroot & _ & Hcwd & Hfs & Htr).
    exists resp, q, m. repeat split; try assumption.
    rewrite Hfs. unfold resolve. rewrite Hcwd. apply written_stat; assumption.
  - intros resp Hget Hsc Hnone Hdir.
    assert (Hroot : resolve w t <> []) by (intros Heq; rewrite Heq in Hnone; discriminate).
    assert (Hq : Fs.follow_links (fs w) (resolve w t) = Some (resolve w t)).
    { apply follow_not_link. intros tgt. rewrite Hnone. discriminate. }
    rewrite downloadFile_run. cbv zeta. rewrite Hget.
    apply Z.leb_gt in Hsc. rewrite Hsc.
    unfold os.Create, io_Copy, os.Write, bind, emit, ret, fail, resolve in *. simpl.
    rewrite Hq, Hnone, Hdir. simpl. rewrite lookup_insert_eq.
    eexists. exists 438%N. split; [destruct (BodyErr resp); reflexivity |].
    destruct (BodyErr resp); simpl; rewrite insert_insert_eq;
      (split; [reflexivity |]); apply written_stat; assumption.
Qed.

Lemma downloadFile_stores_body_witness :
  exists w' m,
    downloadFile Fixture.env "/t/cache/foo.tar.gz" "http://127.0.0.1/foo/foo.tar.gz"
      Fixture.diskCache = (Ok tt, w')
    /\ fs w' = <[ ["t"; "cache"; "foo.tar.gz"] := File Fixture.fooBytes m ]>
                 (fs Fixture.diskCache).
Proof.
  destruct (proj2 (downloadFile_stores_body Fixture.env "/t/cache/foo.tar.gz"
                     "http://127.0.0.1/foo/foo.tar.gz" Fixture.diskCache)
              {| StatusCode := 200; Body := Fixture.fooBytes; BodyErr := None |})
    as (w' & m & Hrun & Hfs & _).
  - reflexivity.
  - reflexivity.
  - reflexivity.
  - vm_compute. reflexivity.
  - exists w', m. split; [exact Hrun | exact Hfs].
Defined.

Lemma mkdir_all_is_dir (rev_p : list string) (fs0 fs1 : FS) :
  Fs.mkdir_all fs0 rev_p = Some fs1 -> Fs.stat fs1 (rev rev_p) = Some Dir.
Proof.
  revert fs0 fs1. induction rev_p as [| x rp IH]; intros fs0 fs1.
  - intros _. apply stat_root.
  - cbn [Fs.mkdir_all].
    destruct (Fs.stat fs0 (rev (x :: rp))) as [[c m | | tgt] |] eqn:Hst; try discriminate.
    + intros [= <-]. exact Hst.
    + destruct (Fs.mkdir_all fs0 rp) as [fs' |]; [| discriminate].
      unfold Fs.mkdir.
      destruct (Fs.node_at fs' (rev (x :: rp))); [discriminate |].
      destruct (Fs.is_dir fs' (Fs.parent (rev (x :: rp)))); [| discriminate].
      intros [= <-]. apply stat_dir.
      rewrite node_at_nonroot.
      * apply lookup_insert_eq.
      * simpl. intros Heq. apply app_eq_nil in Heq. destruct Heq as [_ Heq]. discriminate.
Qed.

Lemma mkdir_all_there (rev_p : list string) (fs0 : FS) :
  Fs.stat fs0 (rev rev_p) = Some Dir -> Fs.mkdir_all fs0 rev_p = Some fs0.
Proof. intros H. destruct rev_p; cbn [Fs.mkdir_all]; rewrite H; reflexivity. Qed.

(** Writing a regular file where no directory is leaves every directory a
    directory. *)
Lemma written_keeps_dir (fs0 : FS) (q p : fpath) (c : string) (m : N) :
  (forall t, Fs.node_at fs0 q <> Some (Symlink t)) ->
  Fs.node_at fs0 q <> Some Dir ->
  Fs.stat fs0 p = Some Dir ->
  Fs.stat (<[q := File c m]> fs0) p = Some Dir.
Proof.
  intros Hnl Hnd Hst. unfold Fs.stat in Hst.
  destruct (Fs.follow_links fs0 p) as [qd |] eqn:Hqd; [| discriminate].
  rewrite (stat_links_agree fs0 _ p qd); [| | exact Hqd].
  - assert (Hdir : Fs.node_at fs0 qd = Some Dir)
      by (destruct (Fs.node_at fs0 qd) as [[| |] |]; congruence).
    rewrite node_at_insert_ne; [rewrite Hdir; reflexivity |].
    intros ->. contradiction.
  - apply links_agree_insert; [exact Hnl | discriminate].
Qed.

(** X7.  The cache round trip.  After [download] and [validateChecksum] both
    returned nil, a further [download] into the same directory finds the
    file it needs: it returns nil having made the directory call, one stat
    and one read of the download path, and no request; the tree stays as it
    is. *)
Theorem verified_download_is_cached
    (E : Env) (d : Downloader) (dir : string) (w0 w1 w2 : World) :
  download E d dir w0 = (Ok tt, w1) ->
  validateChecksum E d dir w1 = (Ok tt, w2) ->
  exists name w3,
    downloadableName E d = Ok name
    /\ download E d dir w2 = (Ok tt, w3)
    /\ fs w3 = fs w2
    /\ trace w3 = (trace w2 ++ [EvMkdirAll dir; EvStat (path.Join [dir; name]);
                                EvReadFile (path.Join [dir; name])])%list
    /\ no_request [EvMkdirAll dir; EvStat (path.Join [dir; name]);
                   EvReadFile (path.Join [dir; name])].
Proof.
  intros Hdl Hval.
  apply validateChecksum_ok_inv in Hval.
  destruct Hval as (name & c & m & Hname & Hst & Hsum & ->).
  set (dlPath := path.Join [dir; name]) in *.
  assert (Hdir : Fs.stat (fs w1) (resolve w1 dir) = Some Dir).
  { rewrite (download_run E d dir name w0 Hname) in Hdl. cbv zeta in Hdl.
    fold dlPath in Hdl.
    destruct (Fs.mkdir_all (fs w0) (rev (resolve w0 dir))) as [fs1 |] eqn:Hmk;
      [| discriminate].
    apply mkdir_all_is_dir in Hmk. rewrite rev_involutive in Hmk.
    assert (Hgo : forall wa, fs wa = fs1 -> cwd wa = cwd w0 ->
                    downloadFile E dlPath (URL d) wa = (Ok tt, w1) ->
                    Fs.stat (fs w1) (resolve w1 dir) = Some Dir).
    { intros wa Hfs Hcwd Hrun. apply downloadFile_ok_inv in Hrun.
      destruct Hrun as (resp & q & m' & _ & _ & _ & Hq & _ & Hnd & Hcwd1 & Hfs1 & _).
      rewrite Hfs1. unfold resolve. rewrite Hcwd1, Hcwd.
      apply written_keeps_dir.
      - exact (follow_end _ _ _ _ Hq).
      - exact Hnd.
      - rewrite Hfs. exact Hmk. }
    destruct (Fs.stat fs1 (resolve w0 dlPath)) as [[c' m' | | tgt] |] eqn:Hst0.
    - destruct (String.eqb (Checksum d) (sha256_hex E c')).
      + injection Hdl as <-. exact Hmk.
      + refine (Hgo _ _ _ Hdl); reflexivity.
    - discriminate.
    - discriminate.
    - refine (Hgo _ _ _ Hdl); reflexivity. }
  exists name. eexists. split; [exact Hname |]. split.
  - rewrite (download_run E d dir name _ Hname). cbv zeta. fold dlPath.
    change (fs (log_event (EvReadFile dlPath) w1)) with (fs w1).
    change (resolve (log_event (EvReadFile dlPath) w1)) with (resolve w1).
    rewrite (mkdir_all_there _ _ ltac:(rewrite rev_involutive; exact Hdir)).
    rewrite Hst. rewrite <- Hsum. rewrite String.eqb_refl. reflexivity.
  - simpl. rewrite <- !app_assoc. repeat split.
Qed.

Lemma verified_download_is_cached_witness :
  exists name w3,
    downloadableName Fixture.env Fixture.dBoth = Ok name
    /\ download Fixture.env Fixture.dBoth "/t/cache" Fixture.afterVerify = (Ok tt, w3)
    /\ fs w3 = fs Fixture.afterVerify.
Proof.
  destruct (verified_download_is_cached Fixture.env Fixture.dBoth "/t/cache"
              (log_event (EvStat "/t/foo") Fixture.diskCache)
              Fixture.afterDownload Fixture.afterVerify)
    as (name & w3 & Hname & Hrun & Hfs & _).
  - apply run_result. vm_compute. reflexivity.
  - apply run_result. vm_compute. reflexivity.
  - exists name, w3. repeat split; assumption.
Defined.

(** X8.  The verdict of [validateChecksum].  It returns nil only when the
    download path leads to a regular file whose digest is the expected
    checksum, and then it changes nothing.  It removes something only when
    it reports a checksum mismatch: any other error (the URL does not
    parse, nothing is at the download path, a directory is there) is
    returned after at most the read, with the tree as it was. *)
Theorem validateChecksum_verdict
    (E : Env) (d : Downloader) (dir : string) (w : World) (r : result unit) (w' : World) :
  validateChecksum E d dir w = (r, w') ->
  cwd w' = cwd w
  /\ match r with
     | Ok _ =>
         fs w' = fs w
         /\ exists name c m,
              downloadableName E d = Ok name
              /\ Fs.stat (fs w) (resolve w (path.Join [dir; name])) = Some (File c m)
              /\ sha256_hex E c = Checksum d
     | Err e =>
         (exists name c m,
            downloadableName E d = Ok name
            /\ Fs.stat (fs w) (resolve w (path.Join [dir; name])) = Some (File c m)
            /\ sha256_hex E c <> Checksum d
            /\ e = ErrChecksumMismatch (path.Join [dir; name]) (Checksum d) (sha256_hex E c)
            /\ fs w' = Fs.remove_all (fs w) (resolve w (path.Join [dir; name]))
            /\ trace w' = (trace w ++ [EvReadFile (path.Join [dir; name]);
                                       EvRemoveAll (path.Join [dir; name])])%list)
         \/ (fs w' = fs w
             /\ (w' = w
                 \/ exists name, downloadableName E d = Ok name
                                 /\ w' = log_event (EvReadFile (path.Join [dir; name])) w))
     end.
Proof.
  unfold validateChecksum, downloadablePath, lift, bind.
  destruct (downloadableName E d) as [name | e0].
  2: { intros [= <- <-]. split; [reflexivity |]. right. split; [reflexivity |].
       left. reflexivity. }
  unfold fileChecksum, os.ReadFile, bind, emit, ret, resolve. simpl.
  destruct (Fs.stat (fs w) (Fs.resolve_from (cwd w) (path.Join [dir; name])))
    as [[c m | | tgt] |] eqn:Hst.
  - destruct (String.eqb_spec (Checksum d) (sha256_hex E c)) as [Heq | Hne]; simpl.
    + intros [= <- <-]. split; [reflexivity |]. split; [reflexivity |].
      exists name, c, m. repeat split; [exact Hst | symmetry; exact Heq].
    + unfold attempt, rm, os.RemoveAll, bind, emit, fail. simpl.
      intros [= <- <-]. split; [reflexivity |]. left.
      exists name, c, m. simpl. rewrite <- app_assoc.
      repeat split; [exact Hst | intros Heq; apply Hne; symmetry; exact Heq].
  - intros [= <- <-]. split; [reflexivity |]. right. split; [reflexivity |].
    right. exists name. split; reflexivity.
  - intros [= <- <-]. split; [reflexivity |]. right. split; [reflexivity |].
    right. exists name. split; reflexivity.
  - intros [= <- <-]. split; [reflexivity |]. right. split; [reflexivity |].
    right. exists name. split; reflexivity.
Qed.

Lemma validateChecksum_verdict_witness :
  fs (validateChecksum Fixture.env Fixture.dGood "/t" Fixture.diskDownloaded).2
  = fs Fixture.diskDownloaded.
Proof.
  apply (validateChecksum_verdict Fixture.env Fixture.dGood "/t" Fixture.diskDownloaded
           (Ok tt) (validateChecksum Fixture.env Fixture.dGood "/t" Fixture.diskDownloaded).2).
  apply run_result. vm_compute. reflexivity.
Defined.

(* ===================================================================== *)
(** * X9 - X11: what the placement and extract stages destroy *)
(* ===================================================================== *)

Lemma follow_link_step (fuel : nat) (fs0 : FS) (p : fpath) (t : string) :
  Fs.node_at fs0 p = Some (Symlink t) ->
  Fs.follow (S fuel) fs0 p = Fs.follow fuel fs0 (Fs.resolve_from (Fs.parent p) t).
Proof. intros H. simpl. rewrite H. reflexivity. Qed.

(** X9.  [move] removes before it looks.  With a move source configured,
    when nothing is at the source path (or the source lies below the
    destination), [move] has already removed the destination and everything
    below it when the rename fails: it returns the rename error and the
    previously installed binary is gone. *)
Theorem move_removes_destination_first
    (d : Downloader) (targetDir extractDir : string) (w : World) :
  let dst := binPath d targetDir in
  let from := path.Join [extractDir; path.FromSlash (MoveFrom d)] in
  let b := resolve w dst in
  let f := resolve w from in
  MoveFrom d <> "" ->
  fs w !! f = None \/ b `prefix_of` f ->
  exists w',
    move d targetDir extractDir w = (Err (ErrPath "rename" from os.ENOENT), w')
    /\ fs w' = Fs.remove_all (fs w) b
    /\ (forall q, b `prefix_of` q -> fs w' !! q = None)
    /\ trace w' = (trace w ++ [EvRemoveAll dst; EvRename from dst])%list.
Proof.
  intros dst from b f Hfrom Hmissing.
  unfold move. apply String.eqb_neq in Hfrom. rewrite Hfrom.
  unfold bind at 1. unfold rm. rewrite RemoveAll_run. fold dst from.
  unfold os.Rename, bind, emit. simpl.
  change (resolve (log_event (EvRename from dst)
            (set_fs (log_event (EvRemoveAll dst) w) (Fs.remove_all (fs w) (resolve w dst))))
            from) with f.
  fold b.
  assert (Hf : Fs.remove_all (fs w) b !! f = None).
  { rewrite remove_all_lookup. destruct (decide (b `prefix_of` f)) as [| Hnp]; [reflexivity |].
    destruct Hmissing as [Hnone | Hpre]; [exact Hnone | contradiction]. }
  rewrite Hf. eexists. split; [reflexivity |]. simpl. repeat split.
  - intros q Hq. rewrite remove_all_lookup, decide_True by exact Hq. reflexivity.
  - rewrite <- !app_assoc. reflexivity.
Qed.

Lemma move_removes_destination_first_witness :
  exists w',
    move Fixture.dMoveMissing "/t" "/t/cache/x" Fixture.diskInstalled
    = (Err (ErrPath "rename" "/t/cache/x/bin/missing" os.ENOENT), w')
    /\ fs w' !! ["t"; "foo"] = None.
Proof.
  destruct (move_removes_destination_first Fixture.dMoveMissing "/t" "/t/cache/x"
              Fixture.diskInstalled)
    as (w' & Hrun & _ & Hgone & _).
  - discriminate.
  - left. vm_compute. reflexivity.
  - exists w'. split; [exact Hrun |]. apply Hgone. exists []. reflexivity.
Defined.

(** X10.  [link] never looks at its source.  With a link source that names
    nothing in the extract directory, and no move source, the link is made
    all the same; it is [chmod], which follows the link, that fails with "no
    such file or directory".  [Install] returns that error after logging it
    under "error chmodding", and the dangling link stays at the
    destination. *)
Theorem link_ignores_missing_source
    (E : Env) (d : Downloader) (opts : InstallOpts) (w w1 w2 w3 : World) :
  let o := defaultDirs d opts in
  let dst := binPath d (TargetDir o) in
  let src := path.Join [ExtractDir o; path.FromSlash (LinkSource d)] in
  let b := resolve w3 dst in
  let tgt := Fs.resolve_from (Fs.parent b) src in
  LinkSource d <> "" ->
  MoveFrom d = "" ->
  exists_at w dst && negb (Force opts) = false ->
  download E d (DownloadDir o) (log_event (EvStat dst) w) = (Ok tt, w1) ->
  validateChecksum E d (DownloadDir o) w1 = (Ok tt, w2) ->
  extract E d (DownloadDir o) (ExtractDir o) w2 = (Ok tt, w3) ->
  b <> [] ->
  Fs.node_at (fs w3) (Fs.parent b) = Some Dir ->
  (exists_at w3 dst = false -> Fs.node_at (fs w3) b = None) ->
  Fs.node_at (fs w3) tgt = None ->
  tgt <> b ->
  exists w4 w',
    link d (TargetDir o) (ExtractDir o) w3 = (Ok tt, w4)
    /\ Install E d opts w = (Err (ErrPath "chmod" dst os.ENOENT), w')
    /\ fs w' = fs w4
    /\ fs w' !! b = Some (Symlink src)
    /\ trace w' = (trace w4 ++ [EvChmod dst 493%N;
                                EvLogErr "error chmodding" (ErrPath "chmod" dst os.ENOENT)])%list.
Proof.
  intros o dst src b tgt Hlink Hmove Hguard Hd Hv Hx Hb Hdir Hfree Htgt Hne.
  destruct (link_run d (TargetDir o) (ExtractDir o) w3 Hlink Hb Hdir Hfree)
    as (w4 & Hl & Hcwd4 & Hfs4 & _).
  fold dst src b in Hl, Hfs4.
  assert (Hb4 : fs w4 !! b = Some (Symlink src)) by (rewrite Hfs4; apply lookup_insert_eq).
  assert (Hroot : tgt <> []) by (intros Heq; rewrite Heq in Htgt; discriminate).
  assert (Htgt4 : Fs.node_at (fs w4) tgt = None).
  { rewrite node_at_nonroot in * by exact Hroot.
    rewrite Hfs4, lookup_insert_ne by (intros Heq; apply Hne; symmetry; exact Heq).
    destruct (exists_at w3 dst); [| exact Htgt].
    rewrite remove_all_lookup. destruct (decide (b `prefix_of` tgt)); [reflexivity | exact Htgt]. }
  assert (Hc : chmod d (TargetDir o) w4
               = (Err (ErrPath "chmod" dst os.ENOENT), log_event (EvChmod dst 493%N) w4)).
  { unfold chmod. fold dst. unfold os.Chmod, bind, emit. simpl.
    change (resolve (log_event (EvChmod dst 493%N) w4) dst) with (resolve w4 dst).
    assert (Hres : resolve w4 dst = b) by (unfold resolve; rewrite Hcwd4; reflexivity).
    rewrite Hres. unfold Fs.follow_links, Fs.max_links.
    rewrite (follow_link_step _ _ b src)
      by (rewrite node_at_nonroot by exact Hb; exact Hb4).
    fold tgt. rewrite follow_not_link by (intros t; rewrite Htgt4; discriminate).
    rewrite Htgt4. reflexivity. }
  exists w4. eexists. split; [exact Hl |]. split.
  - rewrite (Install_placement E d opts w w1 w2 w3 Hguard Hd Hv Hx). fold o.
    unfold bind, logged. rewrite Hl. unfold move. rewrite Hmove, String.eqb_refl.
    unfold ret. cbv beta iota. rewrite Hc. reflexivity.
  - simpl. rewrite <- !app_assoc. repeat split. exact Hb4.
Qed.

Lemma link_ignores_missing_source_witness :
  exists w',
    Install Fixture.env Fixture.dDangling Fixture.optsCache Fixture.diskCache
    = (Err (ErrPath "chmod" "/t/foo" os.ENOENT), w')
    /\ fs w' !! ["t"; "foo"] = Some (Symlink "/t/cache/x/bin/missing").
Proof.
  destruct (link_ignores_missing_source Fixture.env Fixture.dDangling Fixture.optsCache
              Fixture.diskCache
              (download Fixture.env Fixture.dDangling "/t/cache"
                 (log_event (EvStat "/t/foo") Fixture.diskCache)).2
              (validateChecksum Fixture.env Fixture.dDangling "/t/cache"
                 (download Fixture.env Fixture.dDangling "/t/cache"
                    (log_event (EvStat "/t/foo") Fixture.diskCache)).2).2
              (extract Fixture.env Fixture.dDangling "/t/cache" "/t/cache/x"
                 (validateChecksum Fixture.env Fixture.dDangling "/t/cache"
                    (download Fixture.env Fixture.dDangling "/t/cache"
                       (log_event (EvStat "/t/foo") Fixture.diskCache)).2).2).2)
    as (w4 & w' & _ & Hrun & _ & Hlink & _).
  - discriminate.
  - reflexivity.
  - vm_compute. reflexivity.
  - apply run_result. vm_compute. reflexivity.
  - apply run_result. vm_compute. reflexivity.
  - apply run_result. vm_compute. reflexivity.
  - vm_compute. discriminate.
  - vm_compute. reflexivity.
  - intros _. vm_compute. reflexivity.
  - vm_compute. reflexivity.
  - vm_compute. discriminate.
  - exists w'. split; [exact Hrun | exact Hlink].
Defined.

(** When [extract] fails, the entry at the download path is as it was,
    provided the download path is neither above nor inside the extract
    directory, the raw copy does not lead to it, and [archiver.Unarchive]
    writes only below its destination directory. *)
Lemma extract_failed_frame
    (E : Env) (d : Downloader) (downloadDir extractDir name : string)
    (w : World) (e : error) (w' : World) :
  extract E d downloadDir extractDir w = (Err e, w') ->
  unarchive_stays_below E ->
  downloadableName E d = Ok name ->
  let p := resolve w (path.Join [downloadDir; name]) in
  ¬ (p `prefix_of` resolve w extractDir) ->
  ¬ (resolve w extractDir `prefix_of` p) ->
  Fs.follow_links (fs w) (resolve w (path.Join [extractDir; name])) <> Some p ->
  fs w' !! p = fs w !! p.
Proof.
  intros Hrun Hbelow Hname p Habove Hinside Hlead.
  rewrite (extract_run E d downloadDir extractDir name w Hname) in Hrun.
  cbv zeta in Hrun.
  set (tarPath := path.Join [downloadDir; name]) in *.
  set (rawCopy := path.Join [extractDir; name]) in *.
  destruct (Fs.mkdir_all (fs w) (rev (resolve w extractDir))) as [fs1 |] eqn:Hmk.
  2: { injection Hrun as _ <-. reflexivity. }
  pose proof (mkdir_all_frame _ _ _ p Hmk ltac:(rewrite rev_involutive; exact Habove)) as Hfr.
  pose proof (mkdir_all_links _ _ _ Hmk) as Hl.
  set (w1 := set_fs (log_event (EvMkdirAll extractDir) w) fs1) in *.
  assert (Hrest : forall wa,
            cwd wa = cwd w ->
            (let* _ := archiver_unarchive E tarPath extractDir in rm tarPath) wa = (Err e, w') ->
            fs w' !! p = fs wa !! p).
  { intros wa Hcwd Hr.
    assert (Hres : forall s0, resolve wa s0 = resolve w s0)
      by (intros s0; unfold resolve; rewrite Hcwd; reflexivity).
    unfold archiver_unarchive in Hr. unfold bind, emit in Hr. simpl in Hr.
    unfold resolve in Hr. simpl in Hr.
    fold (resolve wa tarPath) (resolve wa extractDir) in Hr.
    pose proof (Hbelow (resolve wa tarPath) (resolve wa extractDir) (fs wa) p
                  ltac:(rewrite Hres; exact Hinside)) as Hkeep.
    destruct (archiver_Unarchive E (resolve wa tarPath) (resolve wa extractDir) (fs wa))
      as [[e' |] fs'].
    - injection Hr as _ <-. exact Hkeep.
    - unfold rm in Hr. rewrite RemoveAll_run in Hr. discriminate. }
  assert (Hcopied : forall r2 w2,
            copyFile tarPath rawCopy w1 = (r2, w2) ->
            cwd w2 = cwd w /\ fs w2 !! p = fs w !! p).
  { intros r2 w2 Hcopy. apply copyFile_spec in Hcopy. destruct Hcopy as (Hcwd & Hch).
    split; [exact Hcwd |].
    destruct Hch as [Hsame | (q & c & m & Hq & _ & Hw)].
    - rewrite Hsame. exact Hfr.
    - assert (Hnb : Fs.follow_links fs1 (resolve w rawCopy) <> Some p)
        by (rewrite <- (follow_links_agree' _ _ _ Hl); exact Hlead).
      destruct (written_untouched fs1 _ q p c m Hq Hnb) as (Hb & _).
      rewrite Hw. simpl. congruence. }
  destruct (archiver_ByExtension E name).
  - rewrite (Hrest w1 eq_refl Hrun). exact Hfr.
  - destruct (copyFile tarPath rawCopy w1) as [[[] | e2] w2] eqn:Hcopy;
      destruct (Hcopied _ _ eq_refl) as (Hcwd2 & Hp2).
    + rewrite (Hrest w2 Hcwd2 Hrun). exact Hp2.
    + injection Hrun as _ <-. exact Hp2.
Qed.

(** X11.  [extract] removes the downloaded file exactly when it succeeds.
    A run that returns nil ended with the unarchive call followed by the
    removal of the download path, and nothing is left at or below that
    path.  A run that returns an error made no removal at all; and the
    entry at the download path is then what it was before, provided the
    download path is neither above nor inside the extract directory, the
    raw copy does not lead to it, and [archiver.Unarchive] writes only below
    its destination directory: the download stays for the next attempt. *)
Theorem extract_removes_download_on_success
    (E : Env) (d : Downloader) (downloadDir extractDir : string)
    (w : World) (r : result unit) (w' : World) :
  extract E d downloadDir extractDir w = (r, w') ->
  exists evs,
    trace w' = (trace w ++ evs)%list
    /\ match r with
       | Ok _ =>
           exists name pre,
             downloadableName E d = Ok name
             /\ evs = (pre ++ [EvUnarchive (path.Join [downloadDir; name]) extractDir;
                               EvRemoveAll (path.Join [downloadDir; name])])%list
             /\ (forall p, ~ In (EvRemoveAll p) pre)
             /\ (forall q, resolve w (path.Join [downloadDir; name]) `prefix_of` q ->
                           fs w' !! q = None)
       | Err _ =>
           (forall p, ~ In (EvRemoveAll p) evs)
           /\ (unarchive_stays_below E ->
               forall name,
                 downloadableName E d = Ok name ->
                 let p := resolve w (path.Join [downloadDir; name]) in
                 ¬ (p `prefix_of` resolve w extractDir) ->
                 ¬ (resolve w extractDir `prefix_of` p) ->
                 Fs.follow_links (fs w) (resolve w (path.Join [extractDir; name])) <> Some p ->
                 fs w' !! p = fs w !! p)
       end.
Proof.
  intros Hrun.
  assert (Hcalls :
    exists evs,
      trace w' = (trace w ++ evs)%list
      /\ match r with
         | Ok _ =>
             exists name pre,
               downloadableName E d = Ok name
               /\ evs = (pre ++ [EvUnarchive (path.Join [downloadDir; name]) extractDir;
                                 EvRemoveAll (path.Join [downloadDir; name])])%list
               /\ (forall p, ~ In (EvRemoveAll p) pre)
               /\ (forall q, resolve w (path.Join [downloadDir; name]) `prefix_of` q ->
                             fs w' !! q = None)
         | Err _ => forall p, ~ In (EvRemoveAll p) evs
         end).
  { revert Hrun.
    destruct (downloadableName E d) as [name | e0] eqn:Hname.
    2: { unfold extract, lift, bind. rewrite Hname. intros [= <- <-].
         exists []. split; [symmetry; apply app_nil_r | intros p []]. }
    rewrite (extract_run E d downloadDir extractDir name w Hname). cbv zeta.
    set (tarPath := path.Join [downloadDir; name]).
    set (rawCopy := path.Join [extractDir; name]).
    destruct (Fs.mkdir_all (fs w) (rev (resolve w extractDir))) as [fs1 |].
    2: { intros [= <- <-]. exists [EvMkdirAll extractDir]. split; [reflexivity |].
         intros p [Hp | []]. discriminate. }
    set (w1 := set_fs (log_event (EvMkdirAll extractDir) w) fs1).
    assert (Hrest : forall wa pre,
              cwd wa = cwd w -> trace wa = (trace w ++ pre)%list ->
              (forall p, ~ In (EvRemoveAll p) pre) ->
              (let* _ := archiver_unarchive E tarPath extractDir in rm tarPath) wa = (r, w') ->
              exists evs,
                trace w' = (trace w ++ evs)%list
                /\ match r with
                   | Ok _ =>
                       exists name0 pre0,
                         Ok name = Ok name0
                         /\ evs = (pre0 ++ [EvUnarchive (path.Join [downloadDir; name0]) extractDir;
                                            EvRemoveAll (path.Join [downloadDir; name0])])%list
                         /\ (forall p, ~ In (EvRemoveAll p) pre0)
                         /\ (forall q, resolve w (path.Join [downloadDir; name0]) `prefix_of` q ->
                                       fs w' !! q = None)
                   | Err _ => forall p, ~ In (EvRemoveAll p) evs
                   end).
    { intros wa pre Hcwd Htr Hpre. unfold bind.
      destruct (archiver_unarchive E tarPath extractDir wa) as [[[] | e] wb] eqn:Hun.
      - pose proof (archiver_unarchive_trace E _ _ _ _ _ Hun) as Htrb.
        assert (Hcwdb : cwd wb = cwd wa).
        { unfold archiver_unarchive, bind, emit in Hun. simpl in Hun.
          destruct (archiver_Unarchive E _ _ _) as [[e |] fs']; [discriminate |].
          injection Hun as <-. reflexivity. }
        unfold rm. rewrite RemoveAll_run. intros [= <- <-].
        exists (pre ++ [EvUnarchive tarPath extractDir; EvRemoveAll tarPath])%list. split.
        + simpl. rewrite Htrb, Htr. rewrite <- !app_assoc. reflexivity.
        + exists name, pre. repeat split; [exact Hpre |].
          intros q Hq. simpl. rewrite remove_all_lookup.
          unfold resolve in *. rewrite Hcwdb, Hcwd.
          rewrite decide_True by exact Hq. reflexivity.
      - pose proof (archiver_unarchive_trace E _ _ _ _ _ Hun) as Htrb.
        intros [= <- <-]. exists (pre ++ [EvUnarchive tarPath extractDir])%list. split.
        + rewrite Htrb, Htr. rewrite <- app_assoc. reflexivity.
        + intros p Hin. apply in_app_or in Hin. destruct Hin as [Hin | [Hin | []]];
            [exact (Hpre p Hin) | discriminate]. }
    assert (Hmk : forall p, ~ In (EvRemoveAll p) [EvMkdirAll extractDir])
      by (intros p [Hp | []]; discriminate).
    destruct (archiver_ByExtension E name).
    - apply (Hrest w1 [EvMkdirAll extractDir]); [reflexivity | reflexivity | exact Hmk].
    - destruct (copyFile tarPath rawCopy w1) as [[[] | e] w2] eqn:Hcopy.
      + destruct (copyFile_spec _ _ _ _ _ Hcopy) as (Hcwd2 & _).
        destruct (traces_copyFile (allowed [EvReadFile tarPath; EvCreate rawCopy; EvWrite rawCopy])
                    (composes_allowed _) tarPath rawCopy
                    ltac:(apply allowed_one; simpl; auto)
                    ltac:(apply allowed_one; simpl; auto)
                    ltac:(apply allowed_one; simpl; auto) _ _ _ Hcopy)
          as (evs & Htr2 & Hevs).
        apply (Hrest w2 (EvMkdirAll extractDir :: evs)).
        * exact Hcwd2.
        * rewrite Htr2. simpl. rewrite <- app_assoc. reflexivity.
        * intros p [Hp | Hin]; [discriminate |].
          unfold allowed in Hevs. rewrite List.Forall_forall in Hevs.
          destruct (Hevs _ Hin) as [Hlog | [Hc | [Hc | [Hc | []]]]]; discriminate.
      + destruct (traces_copyFile (allowed [EvReadFile tarPath; EvCreate rawCopy; EvWrite rawCopy])
                    (composes_allowed _) tarPath rawCopy
                    ltac:(apply allowed_one; simpl; auto)
                    ltac:(apply allowed_one; simpl; auto)
                    ltac:(apply allowed_one; simpl; auto) _ _ _ Hcopy)
          as (evs & Htr2 & Hevs).
        intros [= <- <-]. exists (EvMkdirAll extractDir :: evs). split.
        * rewrite Htr2. simpl. rewrite <- app_assoc. reflexivity.
        * intros p [Hp | Hin]; [discriminate |].
          unfold allowed in Hevs. rewrite List.Forall_forall in Hevs.
          destruct (Hevs _ Hin) as [Hlog | [Hc | [Hc | [Hc | []]]]]; discriminate. }
  destruct Hcalls as (evs & Htr & Hcalls). exists evs. split; [exact Htr |].
  destruct r as [[] | e]; [exact Hcalls |].
  split; [exact Hcalls |].
  intros Hbelow name Hname p Habove Hinside Hlead.
  exact (extract_failed_frame E d downloadDir extractDir name w e w'
           Hrun Hbelow Hname Habove Hinside Hlead).
Qed.

Lemma extract_removes_download_on_success_witness :
  fs (extract Fixture.env Fixture.dBoth "/t/cache" "/t/cache/x" Fixture.afterVerify).2
    !! ["t"; "cache"; "foo.tar.gz"] = None
  /\ fs (extract Fixture.env Fixture.dRaw "/t/cache" "/t/cache/x" Fixture.diskRaw).2
       !! resolve Fixture.diskRaw (path.Join ["/t/cache"; "foo"])
     = fs Fixture.diskRaw !! resolve Fixture.diskRaw (path.Join ["/t/cache"; "foo"]).
Proof.
  split.
  - destruct (extract_removes_download_on_success Fixture.env Fixture.dBoth "/t/cache"
                "/t/cache/x" Fixture.afterVerify (Ok tt)
                (extract Fixture.env Fixture.dBoth "/t/cache" "/t/cache/x"
                   Fixture.afterVerify).2)
      as (evs & _ & name & pre & Hname & _ & _ & Hgone).
    + apply run_result. vm_compute. reflexivity.
    + injection Hname as <-. apply Hgone. exists []. vm_compute. reflexivity.
  - destruct (extract_removes_download_on_success Fixture.env Fixture.dRaw "/t/cache"
                "/t/cache/x" Fixture.diskRaw
                (Err (ErrExternal "archiver" "format unrecognized by filename"))
                (extract Fixture.env Fixture.dRaw "/t/cache" "/t/cache/x"
                   Fixture.diskRaw).2)
      as (evs & _ & _ & Hkept).
    + apply run_result. vm_compute. reflexivity.
    + apply (Hkept fixture_unarchive_stays_below "foo" eq_refl).
      * vm_compute. intros [k Hk]. discriminate.
      * vm_compute. intros [k Hk]. discriminate.
      * vm_compute. discriminate.
Defined.

(* ===================================================================== *)
(** * X12: the order of the validation messages *)
(* ===================================================================== *)

Lemma ascii_compare_refl (a : ascii) : Ascii.compare a a = Eq.
Proof. unfold Ascii.compare. apply N.compare_refl. Qed.

Lemma ascii_compare_lt_trans (a b c : ascii) :
  Ascii.compare a b = Lt -> Ascii.compare b c = Lt -> Ascii.compare a c = Lt.
Proof.
  unfold Ascii.compare. rewrite !N.compare_lt_iff. apply N.lt_trans.
Qed.

Lemma string_compare_lt_trans (a b c : string) :
  String.compare a b = Lt -> String.compare b c = Lt -> String.compare a c = Lt.
Proof.
  revert b c. induction a as [| x a IH]; intros [| y b] [| z c]; simpl;
    try discriminate; try reflexivity.
  destruct (Ascii.compare x y) eqn:Hxy; try discriminate;
    destruct (Ascii.compare y z) eqn:Hyz; try discriminate.
  - apply Ascii.compare_eq_iff in Hxy, Hyz. subst. rewrite ascii_compare_refl. apply IH.
  - apply Ascii.compare_eq_iff in Hxy. subst. rewrite Hyz. reflexivity.
  - apply Ascii.compare_eq_iff in Hyz. subst. rewrite Hxy. reflexivity.
  - rewrite (ascii_compare_lt_trans _ _ _ Hxy Hyz). reflexivity.
Qed.

Lemma string_ltb_flip (a b : string) : String.ltb a b = true -> String.ltb b a = false.
Proof.
  unfold String.ltb. rewrite (String.compare_antisym b a).
  destruct (String.compare a b); simpl; congruence.
Qed.

Lemma string_le_trans (a b c : string) :
  String.ltb b a = false -> String.ltb c b = false -> String.ltb c a = false.
Proof.
  unfold String.ltb. intros Hab Hbc.
  destruct (String.compare c a) eqn:Hca; try reflexivity.
  destruct (String.compare c b) eqn:Hcb; try discriminate.
  - apply String.compare_eq_iff in Hcb. subst. rewrite Hca in Hab. discriminate.
  - rewrite String.compare_antisym in Hcb.
    assert (Hbc' : String.compare b c = Lt) by (destruct (String.compare b c); simpl in *; congruence).
    rewrite (string_compare_lt_trans _ _ _ Hbc' Hca) in Hab. discriminate.
Qed.

Lemma string_le_antisym (a b : string) :
  String.ltb b a = false -> String.ltb a b = false -> a = b.
Proof.
  unfold String.ltb. intros Hab Hba. rewrite String.compare_antisym in Hab.
  destruct (String.compare a b) eqn:Hc; simpl in *; try discriminate.
  apply String.compare_eq_iff. exact Hc.
Qed.

(** An ascending list is determined by what it holds. *)
Lemma ascending_unique (l1 l2 : list string) :
  ascending l1 -> ascending l2 -> Permutation l1 l2 -> l1 = l2.
Proof.
  revert l2. induction l1 as [| a t1 IH]; intros l2 H1 H2 Hp.
  - apply Permutation_nil in Hp. symmetry. exact Hp.
  - destruct l2 as [| b t2]; [apply Permutation_sym, Permutation_nil in Hp; discriminate |].
    apply StronglySorted_inv in H1, H2. destruct H1 as [Ht1 Ha], H2 as [Ht2 Hb].
    rewrite List.Forall_forall in Ha, Hb.
    assert (Heq : a = b).
    { assert (Hina : In a (b :: t2)) by (apply (Permutation_in _ Hp); left; reflexivity).
      assert (Hinb : In b (a :: t1))
        by (apply (Permutation_in _ (Permutation_sym Hp)); left; reflexivity).
      destruct Hina as [-> | Hina]; [reflexivity |].
      destruct Hinb as [-> | Hinb]; [reflexivity |].
      apply string_le_antisym; [apply Ha, Hinb | apply Hb, Hina]. }
    subst b. f_equal. apply IH; [exact Ht1 | exact Ht2 |].
    exact (Permutation_cons_inv Hp).
Qed.

Section MessageOrder.

Context (L : SchemaLib).

Lemma insert_sorted_ascending (x : KeyError L) (l : list (KeyError L)) :
  ascending (map (KeyError_Error L) l) ->
  ascending (map (KeyError_Error L) (insert_sorted L x l)).
Proof.
  unfold ascending. induction l as [| y rest IH]; simpl; intros Hl.
  - repeat constructor.
  - apply StronglySorted_inv in Hl. destruct Hl as [Hrest Hy].
    destruct (less L y x) eqn:Hless; simpl.
    + constructor; [exact (IH Hrest) |].
      rewrite List.Forall_forall in *. intros m Hm.
      apply in_map_iff in Hm. destruct Hm as (k & <- & Hk).
      apply (Permutation_in _ (insert_sorted_perm L x rest)) in Hk.
      destruct Hk as [<- | Hk].
      * apply string_ltb_flip. exact Hless.
      * apply Hy. apply in_map. exact Hk.
    + constructor; [constructor; assumption |].
      constructor; [exact Hless |].
      rewrite List.Forall_forall in *. intros m Hm.
      apply (string_le_trans _ (KeyError_Error L y)); [exact Hless | exact (Hy _ Hm)].
Qed.

Lemma sort_Slice_ascending (l : list (KeyError L)) :
  ascending (map (KeyError_Error L) (sort_Slice L l)).
Proof.
  induction l as [| x rest IH]; simpl; [constructor |].
  apply insert_sorted_ascending. exact IH.
Qed.

End MessageOrder.

(** X12.  The text of a schema failure is canonical.  When the validation
    yields messages, the lines of the error after the heading are the
    messages in ascending order (bytewise, as Go compares strings).  They
    are the only ascending arrangement of the messages, so the text depends
    neither on the order in which the validator reports the problems nor on
    how [sort.Slice] arranges equal messages. *)
Theorem validateConfig_messages_sorted
    (L : SchemaLib) (cfg cfgJSON : string) (schema : Schema L) (errs : list (KeyError L)) :
  yaml_YAMLToJSON L cfg = Ok cfgJSON ->
  json_Unmarshal L (jsonSchemaText L) = Ok schema ->
  Schema_ValidateBytes L schema cfgJSON = Ok errs ->
  errs <> [] ->
  let msgs := map (KeyError_Error L) (sort_Slice L errs) in
  validateConfig L cfg
    = Err (ErrText ("invalid config:" ++ newline ++ gostrings.Join newline msgs))
  /\ ascending msgs
  /\ (forall msgs',
        ascending msgs' -> Permutation msgs' (map (KeyError_Error L) errs) -> msgs' = msgs)
  /\ (forall errs',
        Permutation errs' errs -> map (KeyError_Error L) (sort_Slice L errs') = msgs).
Proof.
  intros Hy Hs Hv Hne msgs.
  assert (Hperm : Permutation msgs (map (KeyError_Error L) errs))
    by (apply Permutation_map, sort_Slice_perm).
  assert (Hasc : ascending msgs) by apply sort_Slice_ascending.
  split; [| split; [exact Hasc | split]].
  - rewrite (validateConfig_run L cfg cfgJSON schema errs Hy Hs Hv).
    destruct errs; [contradiction | reflexivity].
  - intros msgs' Hasc' Hperm'. apply ascending_unique; [exact Hasc' | exact Hasc |].
    rewrite Hperm'. symmetry. exact Hperm.
  - intros errs' Hp. apply ascending_unique; [apply sort_Slice_ascending | exact Hasc |].
    rewrite Hperm. apply Permutation_map. rewrite sort_Slice_perm. exact Hp.
Qed.

Lemma validateConfig_messages_sorted_witness :
  validateConfig Fixture.schemaLib "url: 1"
  = Err (ErrText ("invalid config:" ++ newline ++
                  gostrings.Join newline ["/bin: is required"; "/url: is required"])).
Proof.
  apply (validateConfig_messages_sorted Fixture.schemaLib "url: 1" "url: 1" tt
           ["/url: is required"; "/bin: is required"]).
  - reflexivity.
  - reflexivity.
  - reflexivity.
  - discriminate.
Defined.

(* ===================================================================== *)
(** * X13 - X15: the configuration file of the command line *)
(* ===================================================================== *)

Lemma Stat_run (name : string) (w : World) :
  os.Stat name w
  = (match Fs.stat (fs w) (resolve w name) with
     | Some n => Ok n
     | None => Err (ErrPath "stat" name os.ENOENT)
     end, log_event (EvStat name) w).
Proof.
  unfold os.Stat, bind, emit, resolve. simpl.
  destruct (Fs.stat (fs w) (Fs.resolve_from (cwd w) name)); reflexivity.
Qed.

Lemma after_stats_nil (w : World) : after_stats [] w = w.
Proof. destruct w as [c f t]. unfold after_stats. simpl. rewrite app_nil_r. reflexivity. Qed.

Lemma after_stats_cons (n : string) (rest : list string) (w : World) :
  after_stats rest (log_event (EvStat n) w) = after_stats (n :: rest) w.
Proof. unfold after_stats, log_event. simpl. rewrite <- app_assoc. reflexivity. Qed.

Lemma none_is_file_log (ev : Event) (w : World) (names : list string) :
  none_is_file w names -> none_is_file (log_event ev w) names.
Proof. intros H. exact H. Qed.

Lemma is_file_at_log (ev : Event) (w : World) (name : string) :
  is_file_at w name -> is_file_at (log_event ev w) name.
Proof. intros H. exact H. Qed.

(** One turn of the two loops over the default names. *)
Lemma stat_skips (name : string) (w : World) :
  Fs.stat (fs w) (resolve w name) = None \/ Fs.stat (fs w) (resolve w name) = Some Dir ->
  exists r, attempt (os.Stat name) w = (Ok r, log_event (EvStat name) w)
            /\ match r with Ok i => negb (cmd.IsDir i) = false | Err _ => True end.
Proof.
  intros H. unfold attempt. rewrite Stat_run. destruct H as [-> | ->].
  - eexists. split; [reflexivity | exact I].
  - eexists. split; [reflexivity | reflexivity].
Qed.

Lemma stat_finds (name : string) (w : World) :
  is_file_at w name ->
  exists i, attempt (os.Stat name) w = (Ok (Ok i), log_event (EvStat name) w)
            /\ negb (cmd.IsDir i) = true.
Proof.
  intros (n & Hst & Hn). unfold attempt. rewrite Stat_run, Hst.
  exists n. split; [reflexivity |]. destruct n; try reflexivity. contradiction.
Qed.

Lemma findConfigFile_none (names : list string) (w : World) :
  none_is_file w names ->
  cmd.findConfigFile names w = (Ok "", after_stats names w).
Proof.
  revert w. induction names as [| n rest IH]; intros w Hnone.
  - simpl. unfold ret. rewrite after_stats_nil. reflexivity.
  - apply Forall_cons in Hnone. destruct Hnone as [Hn Hrest].
    destruct (stat_skips n w Hn) as (r & Hrun & Hr).
    cbn [cmd.findConfigFile]. unfold bind at 1. rewrite Hrun.
    rewrite <- after_stats_cons.
    destruct r as [i | e]; [rewrite Hr |]; apply IH, none_is_file_log, Hrest.
Qed.

Lemma findConfigFile_first (pre : list string) (name : string) (post : list string)
      (w : World) :
  none_is_file w pre -> is_file_at w name ->
  cmd.findConfigFile (pre ++ name :: post) w = (Ok name, after_stats (pre ++ [name]) w).
Proof.
  revert w. induction pre as [| n rest IH]; intros w Hnone Hfile.
  - destruct (stat_finds name w Hfile) as (i & Hrun & Hi).
    simpl. unfold bind at 1. rewrite Hrun, Hi. unfold ret.
    rewrite <- after_stats_cons, after_stats_nil. reflexivity.
  - apply Forall_cons in Hnone. destruct Hnone as [Hn Hrest].
    destruct (stat_skips n w Hn) as (r & Hrun & Hr).
    cbn [app cmd.findConfigFile]. unfold bind at 1. rewrite Hrun.
    rewrite <- after_stats_cons.
    destruct r as [i | e]; [rewrite Hr |];
      apply IH; [apply none_is_file_log, Hrest | apply is_file_at_log, Hfile
                | apply none_is_file_log, Hrest | apply is_file_at_log, Hfile].
Qed.

Lemma refuseExisting_none (names : list string) (w : World) :
  none_is_file w names ->
  cmd.refuseExisting names w = (Ok tt, after_stats names w).
Proof.
  revert w. induction names as [| n rest IH]; intros w Hnone.
  - simpl. unfold ret. rewrite after_stats_nil. reflexivity.
  - apply Forall_cons in Hnone. destruct Hnone as [Hn Hrest].
    destruct (stat_skips n w Hn) as (r & Hrun & Hr).
    cbn [cmd.refuseExisting]. unfold bind at 1. rewrite Hrun.
    rewrite <- after_stats_cons.
    destruct r as [i | e]; [rewrite Hr |]; apply IH, none_is_file_log, Hrest.
Qed.

Lemma refuseExisting_first (pre : list string) (name : string) (post : list string)
      (w : World) :
  none_is_file w pre -> is_file_at w name ->
  cmd.refuseExisting (pre ++ name :: post) w
  = (Err (ErrText (name ++ " already exists")), after_stats (pre ++ [name]) w).
Proof.
  revert w. induction pre as [| n rest IH]; intros w Hnone Hfile.
  - destruct (stat_finds name w Hfile) as (i & Hrun & Hi).
    simpl. unfold bind at 1. rewrite Hrun, Hi. unfold fail.
    rewrite <- after_stats_cons, after_stats_nil. reflexivity.
  - apply Forall_cons in Hnone. destruct Hnone as [Hn Hrest].
    destruct (stat_skips n w Hn) as (r & Hrun & Hr).
    cbn [app cmd.refuseExisting]. unfold bind at 1. rewrite Hrun.
    rewrite <- after_stats_cons.
    destruct r as [i | e]; [rewrite Hr |];
      apply IH; [apply none_is_file_log, Hrest | apply is_file_at_log, Hfile
                | apply none_is_file_log, Hrest | apply is_file_at_log, Hfile].
Qed.

Lemma Create_file_run (name : string) (w : World) (c : string) (m : N) :
  Fs.node_at (fs w) (resolve w name) = Some (File c m) ->
  os.Create name w
  = (Ok (resolve w name),
     set_fs (log_event (EvCreate name) w) (<[resolve w name := File "" m]> (fs w))).
Proof.
  intros Hfile. unfold os.Create, bind, emit, resolve in *. simpl.
  unfold Fs.follow_links.
  rewrite follow_not_link by (intros t; rewrite Hfile; discriminate).
  rewrite Hfile. reflexivity.
Qed.

(** What [loadConfigFile] does once the file name is chosen. *)
Lemma loadConfigFile_chosen (L : ConfigLib) (root : cmd.rootCmd) (noDefaultDirs : bool)
      (name : string) (w w1 : World) :
  (if String.eqb (cmd.Configfile root) ""
   then cmd.findConfigFile cmd.defaultConfigFilenames
   else ret (cmd.Configfile root)) w = (Ok name, w1) ->
  cmd.loadConfigFile L root noDefaultDirs w
  = (let* cf := LoadConfigFile L name noDefaultDirs in ret (with_flags root cf)) w1.
Proof.
  intros Hname. unfold cmd.loadConfigFile. unfold bind at 1. rewrite Hname.
  unfold bind. destruct (LoadConfigFile L name noDefaultDirs w1) as [[cf | e] w2];
    [| reflexivity].
  unfold ret, with_flags. destruct cf as [fn ca tr re]. simpl.
  destruct (String.eqb (cmd.CacheDir root) ""), (cmd.TrustCache root); reflexivity.
Qed.

(** X13.  Which file [loadConfigFile] loads.  A file named by the
    configuration flag is handed to [bindown.LoadConfigFile] as it is,
    without a look at the disk.  Without the flag the six default names are
    tried in their order with [os.Stat]: the first that leads to something
    other than a directory is taken and the later ones are not looked at;
    when none does, the empty name is handed on.  In each case the cache
    flag, when not empty, and the trust flag, when given, replace the
    settings of the loaded file, and a failure to load is returned as it
    is. *)
Theorem loadConfigFile_search_order
    (L : ConfigLib) (root : cmd.rootCmd) (noDefaultDirs : bool) (w : World) :
  let load name w1 :=
    (let* cf := LoadConfigFile L name noDefaultDirs in ret (with_flags root cf)) w1 in
  (cmd.Configfile root <> "" ->
     cmd.loadConfigFile L root noDefaultDirs w = load (cmd.Configfile root) w)
  /\ (cmd.Configfile root = "" ->
      forall pre name post,
        cmd.defaultConfigFilenames = (pre ++ name :: post)%list ->
        none_is_file w pre -> is_file_at w name ->
        cmd.loadConfigFile L root noDefaultDirs w
        = load name (after_stats (pre ++ [name]) w))
  /\ (cmd.Configfile root = "" ->
      none_is_file w cmd.defaultConfigFilenames ->
      cmd.loadConfigFile L root noDefaultDirs w
      = load "" (after_stats cmd.defaultConfigFilenames w)).
Proof.
  intros load. split; [| split].
  - intros Hflag. apply loadConfigFile_chosen.
    apply String.eqb_neq in Hflag. rewrite Hflag. reflexivity.
  - intros Hflag pre name post Hnames Hnone Hfile. apply loadConfigFile_chosen.
    rewrite Hflag, String.eqb_refl, Hnames. apply findConfigFile_first; assumption.
  - intros Hflag Hnone. apply loadConfigFile_chosen.
    rewrite Hflag, String.eqb_refl. apply findConfigFile_none. exact Hnone.
Qed.

Lemma loadConfigFile_search_order_witness :
  cmd.loadConfigFile Fixture.configLib Fixture.rootDefault false Fixture.diskProject
  = (let* cf := LoadConfigFile Fixture.configLib "bindown.json" false in
     ret (with_flags Fixture.rootDefault cf))
      (after_stats ["bindown.yml"; "bindown.yaml"; "bindown.json"] Fixture.diskProject).
Proof.
  apply (proj1 (proj2 (loadConfigFile_search_order Fixture.configLib Fixture.rootDefault
                         false Fixture.diskProject))
           eq_refl ["bindown.yml"; "bindown.yaml"] "bindown.json"
           [".bindown.yml"; ".bindown.yaml"; ".bindown.json"]).
  - reflexivity.
  - constructor; [right; vm_compute; reflexivity |].
    constructor; [left; vm_compute; reflexivity | constructor].
  - exists (File "/cache/json" 420%N). split; [vm_compute; reflexivity | discriminate].
Defined.

(** X14.  [fmt] does not take the cache flag into the file.  The command
    behaves the same whatever the cache flag holds, and leaves the flag
    empty in the shared [rootCmd]; what it writes has the cache directory
    the file had when loaded.  The trust flag, when given, is written into
    the file. *)
Theorem fmt_ignores_cache_flag (L : ConfigLib) (root : cmd.rootCmd) :
  (forall dir, cmd.fmtCmd_Run L (cmd.set_CacheDir root dir) = cmd.fmtCmd_Run L root)
  /\ cmd.CacheDir (cmd.fmtCmd_Run L root).2 = ""
  /\ (forall w cf w2,
        cmd.Configfile root <> "" ->
        LoadConfigFile L (cmd.Configfile root) true w = (Ok cf, w2) ->
        exists written,
          (cmd.fmtCmd_Run L root).1 w = ConfigFile_Write L written (cmd.JSONConfig root) w2
          /\ bindown.Filename written = bindown.Filename cf
          /\ bindown.Cache written = bindown.Cache cf
          /\ bindown.Rest written = bindown.Rest cf
          /\ bindown.TrustCache written
             = match cmd.TrustCache root with
               | Some trust => trust
               | None => bindown.TrustCache cf
               end).
Proof.
  split; [| split].
  - intros dir. reflexivity.
  - reflexivity.
  - intros w cf w2 Hflag Hload.
    exists (with_flags (cmd.set_CacheDir root "") cf). split; [| repeat split].
    unfold cmd.fmtCmd_Run. cbn [fst]. unfold bind at 1.
    rewrite (loadConfigFile_chosen L (cmd.set_CacheDir root "") true (cmd.Configfile root) w w).
    + unfold bind. rewrite Hload. reflexivity.
    + cbn [cmd.Configfile cmd.set_CacheDir]. apply String.eqb_neq in Hflag.
      rewrite Hflag. reflexivity.
Qed.

Lemma fmt_ignores_cache_flag_witness :
  exists written,
    (cmd.fmtCmd_Run Fixture.configLib Fixture.rootFlags).1 Fixture.diskProject
    = ConfigFile_Write Fixture.configLib written false
        (log_event (EvReadFile "my.yaml") Fixture.diskProject)
    /\ bindown.Cache written = "/cache/mine".
Proof.
  destruct (proj2 (proj2 (fmt_ignores_cache_flag Fixture.configLib Fixture.rootFlags))
              Fixture.diskProject
              (bindown.mkConfigFile "my.yaml" "/cache/mine" false tt)
              (log_event (EvReadFile "my.yaml") Fixture.diskProject))
    as (written & Hrun & _ & Hcache & _).
  - discriminate.
  - vm_compute. reflexivity.
  - exists written. split; [exact Hrun | exact Hcache].
Defined.

(** X15.  What [init] guards and what it does not.  The first default name
    that leads to something other than a directory makes the command fail
    with "<name> already exists" before anything is created, also when the
    configuration flag names another file.  When no default name does, the
    file named by the flag (or [.bindown.yaml]) is created and
    written; a regular file already at the name given by the flag is
    truncated without a question. *)
Theorem init_guards_default_names (L : ConfigLib) (root : cmd.rootCmd) (w : World) :
  let configfile :=
    if String.eqb (cmd.Configfile root) "" then ".bindown.yaml" else cmd.Configfile root in
  let cfg := bindown.mkConfigFile configfile "" false (Config_zero L) in
  (forall pre name post,
      cmd.defaultConfigFilenames = (pre ++ name :: post)%list ->
      none_is_file w pre -> is_file_at w name ->
      cmd.initCmd_Run L root w
      = (Err (ErrText (name ++ " already exists")), after_stats (pre ++ [name]) w))
  /\ (none_is_file w cmd.defaultConfigFilenames ->
      cmd.initCmd_Run L root w
      = (let* _ := os.Create configfile in ConfigFile_Write L cfg (cmd.JSONConfig root))
          (after_stats cmd.defaultConfigFilenames w))
  /\ (none_is_file w cmd.defaultConfigFilenames ->
      forall c m,
        Fs.node_at (fs w) (resolve w configfile) = Some (File c m) ->
        exists w2,
          cmd.initCmd_Run L root w = ConfigFile_Write L cfg (cmd.JSONConfig root) w2
          /\ fs w2 = <[resolve w configfile := File "" m]> (fs w)).
Proof.
  intros configfile cfg.
  assert (Hgo : none_is_file w cmd.defaultConfigFilenames ->
                cmd.initCmd_Run L root w
                = (let* _ := os.Create configfile in
                   ConfigFile_Write L cfg (cmd.JSONConfig root))
                    (after_stats cmd.defaultConfigFilenames w)).
  { intros Hnone. unfold cmd.initCmd_Run. unfold bind at 1.
    rewrite (refuseExisting_none _ _ Hnone). reflexivity. }
  split; [| split].
  - intros pre name post Hnames Hnone Hfile.
    unfold cmd.initCmd_Run. unfold bind at 1. rewrite Hnames.
    rewrite (refuseExisting_first pre name post w Hnone Hfile). reflexivity.
  - exact Hgo.
  - intros Hnone c m Hfile. rewrite (Hgo Hnone).
    unfold bind.
    rewrite (Create_file_run configfile (after_stats cmd.defaultConfigFilenames w) c m Hfile).
    eexists. split; [reflexivity | reflexivity].
Qed.

Lemma init_guards_default_names_witness :
  cmd.initCmd_Run Fixture.configLib Fixture.rootFlags Fixture.diskProject
  = (Err (ErrText "bindown.json already exists"),
     after_stats ["bindown.yml"; "bindown.yaml"; "bindown.json"] Fixture.diskProject).
Proof.
  apply (proj1 (init_guards_default_names Fixture.configLib Fixture.rootFlags
                  Fixture.diskProject)
           ["bindown.yml"; "bindown.yaml"] "bindown.json"
           [".bindown.yml"; ".bindown.yaml"; ".bindown.json"]).
  - reflexivity.
  - constructor; [right; vm_compute; reflexivity |].
    constructor; [left; vm_compute; reflexivity | constructor].
  - exists (File "/cache/json" 420%N). split; [vm_compute; reflexivity | discriminate].
Defined.

(* ===================================================================== *)
(** * X16, X17: failing before the request, and installing twice *)
(* ===================================================================== *)

(** X16.  [download] fails without a request when [os.MkdirAll] does not
    make the download directory, and when the download path leads to a
    directory.  In the first case the error of the directory call is
    returned and no other call is made; in the second the read of the
    download path fails after the directory call and one stat, and the tree
    is as the directory call left it.  In neither case is anything
    requested, created or written. *)
Theorem download_fails_before_request
    (E : Env) (d : Downloader) (dir name : string) (w : World) :
  downloadableName E d = Ok name ->
  let dlPath := path.Join [dir; name] in
  (Fs.mkdir_all (fs w) (rev (resolve w dir)) = None ->
     exists e w',
       download E d dir w = (Err e, w')
       /\ trace w' = (trace w ++ [EvMkdirAll dir])%list
       /\ no_request [EvMkdirAll dir])
  /\ (forall fs1,
        Fs.mkdir_all (fs w) (rev (resolve w dir)) = Some fs1 ->
        Fs.stat fs1 (resolve w dlPath) = Some Dir ->
        exists e w',
          download E d dir w = (Err e, w')
          /\ fs w' = fs1
          /\ trace w' = (trace w ++ [EvMkdirAll dir; EvStat dlPath; EvReadFile dlPath])%list
          /\ no_request [EvMkdirAll dir; EvStat dlPath; EvReadFile dlPath]).
Proof.
  intros Hname dlPath. split.
  - intros Hmk. rewrite (download_run E d dir name w Hname). cbv zeta. rewrite Hmk.
    eexists. eexists. split; [reflexivity |]. split; reflexivity.
  - intros fs1 Hmk Hst. rewrite (download_run E d dir name w Hname). cbv zeta.
    fold dlPath. rewrite Hmk, Hst. eexists. eexists. split; [reflexivity |].
    simpl. rewrite <- !app_assoc. repeat split.
Qed.

Lemma download_fails_before_request_witness :
  exists e w',
    download Fixture.env Fixture.dGood "/t/foo.tar.gz/sub" Fixture.diskDownloaded
    = (Err e, w')
    /\ trace w' = [EvMkdirAll "/t/foo.tar.gz/sub"].
Proof.
  destruct (proj1 (download_fails_before_request Fixture.env Fixture.dGood
                     "/t/foo.tar.gz/sub" "foo.tar.gz" Fixture.diskDownloaded eq_refl))
    as (e & w' & Hrun & Htr & _).
  - vm_compute. reflexivity.
  - exists e, w'. split; [exact Hrun | exact Htr].
Defined.

(** X17.  Installing twice.  After an [Install] that returned nil, an
    [Install] of the same downloader into the same target directory without
    [Force] - whatever its download and extract directories - returns nil
    after one [os.Stat] of the destination and changes nothing. *)
Theorem Install_twice
    (E : Env) (d : Downloader) (opts opts' : InstallOpts) (w w' : World) :
  Install E d opts w = (Ok tt, w') ->
  TargetDir opts' = TargetDir opts ->
  Force opts' = false ->
  let dst := binPath d (TargetDir opts) in
  Install E d opts' w' = (Ok tt, log_event (EvStat dst) w')
  /\ fs (log_event (EvStat dst) w') = fs w'.
Proof.
  intros Hrun Htarget Hforce dst. split; [| reflexivity].
  assert (Hex : exists_at w' dst = true).
  { destruct (Install_ok_inv E d opts w w' Hrun) as [[Hguard ->] | [_ (wf & Hchmod)]].
    - rewrite exists_at_log. apply andb_prop in Hguard. exact (proj1 Hguard).
    - fold dst in Hchmod. apply Chmod_ok in Hchmod.
      unfold exists_at. destruct Hchmod as [-> | (c & ->)]; reflexivity. }
  unfold Install. set (o' := defaultDirs d opts').
  unfold bind at 1. rewrite fileExists_run.
  change (binPath d (TargetDir o')) with (binPath d (TargetDir opts')).
  change (Force o') with (Force opts').
  rewrite Htarget, Hforce. fold dst. rewrite Hex. reflexivity.
Qed.

Lemma Install_twice_witness :
  Install Fixture.env Fixture.dLink Fixture.optsCache
    (Install Fixture.env Fixture.dLink Fixture.optsForce Fixture.disk0).2
  = (Ok tt, log_event (EvStat "/t/foo")
              (Install Fixture.env Fixture.dLink Fixture.optsForce Fixture.disk0).2).
Proof.
  apply (Install_twice Fixture.env Fixture.dLink Fixture.optsForce Fixture.optsCache
           Fixture.disk0 (Install Fixture.env Fixture.dLink Fixture.optsForce Fixture.disk0).2).
  - apply run_result. vm_compute. reflexivity.
  - reflexivity.
  - reflexivity.
Defined.
